(** * Rule-based transaction classification engine

    A shallow embedding of [src/rule/rule-engine.service.ts]
    (class [RuleEngineService]) and of the save-and-classify pipeline of
    [TransactionClassificationService] ([classifyAndSaveTransactions],
    [processBatch]), together with the properties of the specification
    that concern them; further, of the reclassification of unclassified
    rows ([reclassifyUnclassifiedTransactions]) and of the rule ingestion
    of [src/rule/rule-data.service.ts] ([validateBusinessRules] and the
    rule [saveCategoryRules] saves for a category), with properties of
    the code beyond the specification's.

    Conventions of the embedding:
    - a JavaScript string is the list of its UTF-16 code units;
    - a JavaScript number that carries an amount, a priority, an identifier
      or a timestamp is an integer ([Z]); only its order and its sign are
      ever inspected by the code embedded here;
    - a [Map] is a finite map; an object literal used as a dictionary is
      the finite map of its own properties, read and written through what
      it inherits from [Object.prototype];
    - a function that can throw returns an [outcome];
    - the service's mutable fields and the invocation log of the rule store
      are threaded explicitly as a [ServiceState];
    - calls of the logger, which return nothing and change nothing the
      code reads, are left out. *)

From Stdlib Require Import ZArith NArith Lia Sorted.
From Stdlib Require Import DecimalString.
From stdpp Require Import base option list gmap strings.

Local Open Scope Z_scope.

(** ** JavaScript strings *)

Module JsString.

(** A string value: its sequence of UTF-16 code units. *)
Abbreviation jsstring := (list N).

(** A literal of the source, written in Basic Latin. *)
Definition js (s : string) : jsstring :=
  (fun a => Ascii.N_of_ascii a) <$> String.list_ascii_of_string s.

(** The code units matched by the class [\s] of a regular expression,
    which are also the ones [String.prototype.trim] strips
    (ECMAScript WhiteSpace and LineTerminator). *)
Definition isWhiteSpace (c : N) : bool :=
  ((9 <=? c) && (c <=? 13) || (c =? 32) || (c =? 160) || (c =? 5760)
   || (8192 <=? c) && (c <=? 8202) || (c =? 8232) || (c =? 8233)
   || (c =? 8239) || (c =? 8287) || (c =? 12288) || (c =? 65279))%N.

Fixpoint trimStart (s : jsstring) : jsstring :=
  match s with
  | c :: s' => if isWhiteSpace c then trimStart s' else s
  | [] => []
  end.

Definition trimEnd (s : jsstring) : jsstring := rev (trimStart (rev s)).

(** [s.trim()] *)
Definition trim (s : jsstring) : jsstring := trimEnd (trimStart s).

(** [s.split(/\s+/)]: the pieces between the maximal runs of white space.
    [cur] holds the code units of the piece under construction, last one
    first; [inGap] tells that the previous code unit belonged to a
    separator, in which case [cur] is empty.  A separator at either end
    of the string yields an empty piece there, and the empty string
    yields one empty piece. *)
Fixpoint splitLoop (inGap : bool) (cur : jsstring) (s : jsstring)
  : list jsstring :=
  match s with
  | [] => [rev cur]
  | c :: s' =>
      if isWhiteSpace c
      then if inGap then splitLoop true cur s'
           else rev cur :: splitLoop true [] s'
      else splitLoop false (c :: cur) s'
  end.

Definition splitWhitespace (s : jsstring) : list jsstring :=
  splitLoop false [] s.

(** [s.startsWith(k)] *)
Fixpoint startsWith (s k : jsstring) : bool :=
  match k, s with
  | [], _ => true
  | _ :: _, [] => false
  | a :: k', b :: s' => (a =? b)%N && startsWith s' k'
  end.

(** [s.includes(k)]: [k] occurs in [s] as a contiguous run. *)
Fixpoint includes (s k : jsstring) : bool :=
  startsWith s k ||
  match s with
  | [] => false
  | _ :: s' => includes s' k
  end.

(** [a === b] on strings. *)
Definition strictEq (a b : jsstring) : bool := bool_decide (a = b).

(** Truthiness of a string: every string but the empty one. *)
Definition truthy (s : jsstring) : bool :=
  match s with [] => false | _ :: _ => true end.

(** A lower-casing that maps the Basic Latin capitals and leaves every
    other code unit alone.  It agrees with [String.prototype.toLowerCase]
    on strings made of Basic Latin and of caseless scripts such as
    Hangul; the engine below is parametric in the lower-casing and this
    one serves to run it on concrete data. *)
Definition lowerBasicLatin (s : jsstring) : jsstring :=
  (fun c => if ((65 <=? c) && (c <=? 90))%N then (c + 32)%N else c) <$> s.

End JsString.
Import JsString.

(** ** Data model *)

(** [TransactionType] of [classification-rule.entity.ts]. *)
Inductive TransactionType := DEPOSIT | WITHDRAWAL | ALL.

(** [KeywordType] of [rule-keyword.entity.ts]. *)
Inductive KeywordType := INCLUDE | EXCLUDE.

#[global] Instance TransactionType_eq_dec : EqDecision TransactionType.
Proof. solve_decision. Defined.

#[global] Instance KeywordType_eq_dec : EqDecision KeywordType.
Proof. solve_decision. Defined.

Record RuleKeyword := {
  keyword_id : Z;
  keyword : jsstring;
  keyword_type : KeywordType
}.

Record Category := {
  category_name : jsstring
}.

(** [ClassificationRule]; [None] stands for a [null] bound and for a
    [category] relation that is not loaded. *)
Record ClassificationRule := {
  rule_id : Z;
  company_id : jsstring;
  category_id : jsstring;
  min_amount : option Z;
  max_amount : option Z;
  transaction_type : TransactionType;
  priority : Z;
  is_active : bool;
  category : option Category;
  keywords : list RuleKeyword
}.

(** [TransactionData] of [classification.interface.ts]. *)
Record TransactionData := {
  description : jsstring;
  depositAmount : Z;
  withdrawalAmount : Z;
  transactionDate : Z;
  branch : option jsstring
}.

(** [ClassificationResult] of [classification.interface.ts]; every field
    but [isClassified] is optional. *)
Record ClassificationResult := {
  isClassified : bool;
  categoryId : option jsstring;
  categoryName : option jsstring;
  ruleId : option Z;
  matchedKeywords : option (list jsstring);
  reason : option jsstring;
  actualCompanyId : option jsstring
}.

Record ClassificationContext := {
  companyId : jsstring;
  transactionData : TransactionData;
  userType : option jsstring
}.

(** The result of a call that can throw. *)
Inductive outcome (A : Type) :=
| Returned (a : A)
| Thrown (message : jsstring).
Arguments Returned {A} a.
Arguments Thrown {A} message.

(** [RuleDataService], the rule store, as the engine uses it. *)
Record RuleDataService := {
  getRulesByCompany : jsstring -> outcome (list ClassificationRule);
  getAllActiveRules : outcome (list ClassificationRule)
}.

(** An invocation of the rule store. *)
Inductive StoreCall :=
| CallGetRulesByCompany (tenant : jsstring)
| CallGetAllActiveRules.

(** The private fields [rulesCache] and [cacheExpiry] of the service, and
    the invocations of the rule store made so far. *)
Record ServiceState := {
  rulesCache : gmap jsstring (list ClassificationRule);
  cacheExpiry : gmap jsstring Z;
  storeCalls : list StoreCall
}.

(** What one call of the service observes of its surroundings: the reading
    of [Date.now()] and the behaviour of the rule store at that moment. *)
Record Env := {
  now : Z;
  ruleDataService : RuleDataService
}.

(** The string operation the engine takes from the language runtime. *)
Class Runtime := {
  toLowerCase : jsstring -> jsstring
}.

(** [CACHE_TTL = 5 * 60 * 1000] *)
Definition CACHE_TTL : Z := 5 * 60 * 1000.

Definition ADMIN : jsstring := js "ADMIN".

(** [context.userType === 'ADMIN'] *)
Definition isAdmin (userType : option jsstring) : bool :=
  match userType with
  | Some u => strictEq u ADMIN
  | None => false
  end.

(** ** Matcher *)

Section Matcher.
Context `{Runtime}.

Definition checkTransactionType
  (transactionData : TransactionData) (ruleTransactionType : TransactionType)
  : bool :=
  match ruleTransactionType with
  | ALL => true
  | _ =>
      let isDeposit := depositAmount transactionData >? 0 in
      let isWithdrawal := withdrawalAmount transactionData >? 0 in
      match ruleTransactionType with
      | DEPOSIT => isDeposit && negb isWithdrawal
      | WITHDRAWAL => isWithdrawal && negb isDeposit
      | ALL => true
      end
  end.

Definition checkAmountRange
  (transactionData : TransactionData) (rule : ClassificationRule) : bool :=
  let transactionAmount :=
    Z.max (depositAmount transactionData) (withdrawalAmount transactionData) in
  let belowMinimum :=
    match min_amount rule with
    | Some m => transactionAmount <? m
    | None => false
    end in
  let aboveMaximum :=
    match max_amount rule with
    | Some m => transactionAmount >? m
    | None => false
    end in
  if belowMinimum then false
  else if aboveMaximum then false
  else true.

Definition isKeywordMatch (description keyword : jsstring) : bool :=
  let words := splitWhitespace description in
  if existsb (fun word => strictEq word keyword) words then true
  else includes description keyword.

Definition checkKeywordMatching
  (transactionData : TransactionData) (rule : ClassificationRule) : bool :=
  match keywords rule with
  | [] => true
  | _ :: _ =>
      let description := trim (toLowerCase (description transactionData)) in
      let includeKeywords :=
        filter (fun k => keyword_type k = INCLUDE) (keywords rule) in
      let excludeKeywords :=
        filter (fun k => keyword_type k = EXCLUDE) (keywords rule) in
      if existsb
           (fun excludeKeyword =>
              isKeywordMatch description
                (trim (toLowerCase (keyword excludeKeyword))))
           excludeKeywords
      then false
      else
        match includeKeywords with
        | [] => true
        | _ :: _ =>
            existsb
              (fun includeKeyword =>
                 isKeywordMatch description
                   (trim (toLowerCase (keyword includeKeyword))))
              includeKeywords
        end
  end.

Definition evaluateRule
  (transactionData : TransactionData) (rule : ClassificationRule) : bool :=
  if negb (checkTransactionType transactionData (transaction_type rule))
  then false
  else if negb (checkAmountRange transactionData rule) then false
  else if negb (checkKeywordMatching transactionData rule) then false
  else true.

Definition findMatchingRules
  (transactionData : TransactionData) (rules : list ClassificationRule)
  : list ClassificationRule :=
  List.filter (evaluateRule transactionData) rules.

Definition getMatchedKeywords
  (transactionData : TransactionData) (rule : ClassificationRule)
  : list jsstring :=
  match keywords rule with
  | [] => []
  | _ :: _ =>
      let description := toLowerCase (description transactionData) in
      let includeKeywords :=
        filter (fun k => keyword_type k = INCLUDE) (keywords rule) in
      keyword <$>
        List.filter
          (fun k => includes description (toLowerCase (keyword k)))
          includeKeywords
  end.

End Matcher.

(** ** Resolver *)

(** [Array.prototype.toSorted(compareFn)] is a stable sort: an element
    moves in front of another one only if the comparator puts it strictly
    before.  [sortedInsert] places [x], which precedes every element of [l]
    in the input, into the sorted [l]. *)
Fixpoint sortedInsert {A} (compareFn : A -> A -> Z) (x : A) (l : list A)
  : list A :=
  match l with
  | [] => [x]
  | y :: l' =>
      if compareFn x y >? 0 then y :: sortedInsert compareFn x l'
      else x :: l
  end.

Fixpoint toSorted {A} (compareFn : A -> A -> Z) (l : list A) : list A :=
  match l with
  | [] => []
  | x :: l' => sortedInsert compareFn x (toSorted compareFn l')
  end.

(** [sortedRules[0]], which is [undefined] for an empty array. *)
Definition selectBestRule (matchedRules : list ClassificationRule)
  : option ClassificationRule :=
  let sortedRules :=
    toSorted (fun a b => priority a - priority b) matchedRules in
  head sortedRules.

(** ** Rule cache *)

(** The cache check shared by [getCachedRules] and [getAllCompanyRules]:
    [rulesCache.has(cacheKey)], then [expiry && expiry > now]. *)
Definition cachedRules (cacheKey : jsstring) (now : Z) (st : ServiceState)
  : option (list ClassificationRule) :=
  match rulesCache st !! cacheKey with
  | Some rules =>
      match cacheExpiry st !! cacheKey with
      | Some expiry =>
          if negb (expiry =? 0) && (expiry >? now) then Some rules else None
      | None => None
      end
  | None => None
  end.

(** The store is about to be invoked. *)
Definition recordCall (call : StoreCall) (st : ServiceState) : ServiceState :=
  {| rulesCache := rulesCache st;
     cacheExpiry := cacheExpiry st;
     storeCalls := storeCalls st ++ [call] |}.

(** The cache update shared by the two functions: [rulesCache.set] and
    [cacheExpiry.set(cacheKey, now + CACHE_TTL)]. *)
Definition updateCache
  (cacheKey : jsstring) (rules : list ClassificationRule) (now : Z)
  (st : ServiceState) : ServiceState :=
  {| rulesCache := <[cacheKey := rules]> (rulesCache st);
     cacheExpiry := <[cacheKey := now + CACHE_TTL]> (cacheExpiry st);
     storeCalls := storeCalls st |}.

(** The key [`rules_${companyId}`]. *)
Definition cacheKeyOf (companyId : jsstring) : jsstring :=
  js "rules_" ++ companyId.

Definition getCachedRules (companyId : jsstring) (env : Env)
  (st : ServiceState) : outcome (list ClassificationRule) * ServiceState :=
  let cacheKey := cacheKeyOf companyId in
  match cachedRules cacheKey (now env) st with
  | Some rules => (Returned rules, st)
  | None =>
      let st := recordCall (CallGetRulesByCompany companyId) st in
      match getRulesByCompany (ruleDataService env) companyId with
      | Thrown e => (Thrown e, st)
      | Returned rules =>
          (Returned rules, updateCache cacheKey rules (now env) st)
      end
  end.

Definition getAllCompanyRules (env : Env) (st : ServiceState)
  : outcome (list ClassificationRule) * ServiceState :=
  let cacheKey := js "rules_all_companies" in
  match cachedRules cacheKey (now env) st with
  | Some rules => (Returned rules, st)
  | None =>
      let st := recordCall CallGetAllActiveRules st in
      match getAllActiveRules (ruleDataService env) with
      | Thrown e => (Thrown e, st)
      | Returned rules =>
          (Returned rules, updateCache cacheKey rules (now env) st)
      end
  end.

Definition invalidateRulesCache (companyId : jsstring) (st : ServiceState)
  : ServiceState :=
  let cacheKey := cacheKeyOf companyId in
  {| rulesCache := delete cacheKey (rulesCache st);
     cacheExpiry := delete cacheKey (cacheExpiry st);
     storeCalls := storeCalls st |}.

Definition clearAllCache (st : ServiceState) : ServiceState :=
  {| rulesCache := ∅; cacheExpiry := ∅; storeCalls := storeCalls st |}.

(** A freshly constructed service. *)
Definition newService : ServiceState :=
  {| rulesCache := ∅; cacheExpiry := ∅; storeCalls := [] |}.

(** ** Classifier *)

(** An object literal [{ isClassified: false, reason }]. *)
Definition unclassified (why : jsstring) : ClassificationResult :=
  {| isClassified := false;
     categoryId := None;
     categoryName := None;
     ruleId := None;
     matchedKeywords := None;
     reason := Some why;
     actualCompanyId := None |}.

(** What reading a property of [undefined] throws. *)
Definition typeError : jsstring := js "TypeError".

Section Classifier.
Context `{Runtime}.

(** The rule set [classifyTransaction] evaluates against (its first
    statement). *)
Definition candidateRules (context : ClassificationContext) (env : Env)
  (st : ServiceState) : outcome (list ClassificationRule) * ServiceState :=
  if isAdmin (userType context) then getAllCompanyRules env st
  else getCachedRules (companyId context) env st.

(** The object [classifyTransaction] returns for the rule it selected:
    the matched keywords are computed, then the literal is built. *)
Definition successOf (transactionData : TransactionData)
  (selectedRule : ClassificationRule) : ClassificationResult :=
  let matchedKeywords := getMatchedKeywords transactionData selectedRule in
  {| isClassified := true;
     categoryId := Some (category_id selectedRule);
     categoryName := category_name <$> category selectedRule;
     ruleId := Some (rule_id selectedRule);
     matchedKeywords := Some matchedKeywords;
     reason := Some (js "Successfully classified");
     actualCompanyId := Some (company_id selectedRule) |}.

(** The [try] block of [classifyTransaction]. *)
Definition classifyTransactionTry (context : ClassificationContext)
  (env : Env) (st : ServiceState)
  : outcome ClassificationResult * ServiceState :=
  match candidateRules context env st with
  | (Thrown e, st) => (Thrown e, st)
  | (Returned rules, st) =>
      match rules with
      | [] =>
          (Returned
             (unclassified
                (if isAdmin (userType context)
                 then js "No active rules found for any company"
                 else js "No active rules found for company")), st)
      | _ :: _ =>
          let matchedRules :=
            findMatchingRules (transactionData context) rules in
          match matchedRules with
          | [] => (Returned (unclassified (js "No matching rules found")), st)
          | _ :: _ =>
              match selectBestRule matchedRules with
              | None => (Thrown typeError, st)
              | Some selectedRule =>
                  (Returned
                     (successOf (transactionData context) selectedRule), st)
              end
          end
      end
  end.

(** [classifyTransaction]: the [try] block and its [catch]. *)
Definition classifyTransaction (context : ClassificationContext)
  (env : Env) (st : ServiceState)
  : outcome ClassificationResult * ServiceState :=
  match classifyTransactionTry context env st with
  | (Thrown _, st) =>
      (Returned (unclassified (js "Classification error occurred")), st)
  | (Returned result, st) => (Returned result, st)
  end.

(** ** Batch runner *)

(** The [try] block of the loop of [classifyTransactionsBatch], for one
    transaction. *)
Definition classifyInBatchTry (rules : list ClassificationRule)
  (transaction : TransactionData) : outcome ClassificationResult :=
  let matchedRules := findMatchingRules transaction rules in
  match matchedRules with
  | [] => Returned (unclassified (js "No matching rules found"))
  | _ :: _ =>
      match selectBestRule matchedRules with
      | None => Thrown typeError
      | Some selectedRule =>
          let matchedKeywords := getMatchedKeywords transaction selectedRule in
          Returned
            {| isClassified := true;
               categoryId := Some (category_id selectedRule);
               categoryName := category_name <$> category selectedRule;
               ruleId := Some (rule_id selectedRule);
               matchedKeywords := Some matchedKeywords;
               reason := Some (js "Successfully classified");
               actualCompanyId := None |}
      end
  end.

(** One turn of that loop: the [try] block and its [catch]; the value is
    what the turn pushes on [results]. *)
Definition classifyInBatch (rules : list ClassificationRule)
  (transaction : TransactionData) : ClassificationResult :=
  match classifyInBatchTry rules transaction with
  | Returned result => result
  | Thrown _ => unclassified (js "Classification error occurred")
  end.

Definition classifyTransactionsBatch (companyId : jsstring)
  (transactions : list TransactionData) (env : Env) (st : ServiceState)
  : outcome (list ClassificationResult) * ServiceState :=
  match transactions with
  | [] => (Returned [], st)
  | _ :: _ =>
      match getCachedRules companyId env st with
      | (Thrown e, st) => (Thrown e, st)
      | (Returned rules, st) =>
          match rules with
          | [] =>
              (Returned
                 ((fun _ => unclassified (js "No active rules found for company"))
                    <$> transactions), st)
          | _ :: _ => (Returned (classifyInBatch rules <$> transactions), st)
          end
      end
  end.

End Classifier.

(** A result with its [actualCompanyId] left out, which is all that tells
    a classified result of [classifyTransactionsBatch] from one of
    [classifyTransaction]. *)
Definition withoutActualCompany (r : ClassificationResult)
  : ClassificationResult :=
  {| isClassified := isClassified r;
     categoryId := categoryId r;
     categoryName := categoryName r;
     ruleId := ruleId r;
     matchedKeywords := matchedKeywords r;
     reason := reason r;
     actualCompanyId := None |}.

(** ** Statistics *)

(** The names [Object.prototype] defines as methods; an object literal
    inherits them. *)
Definition prototypeMethods : list jsstring :=
  [ js "constructor"; js "hasOwnProperty"; js "isPrototypeOf";
    js "propertyIsEnumerable"; js "toLocaleString"; js "toString";
    js "valueOf"; js "__defineGetter__"; js "__defineSetter__";
    js "__lookupGetter__"; js "__lookupSetter__" ].

(** The name [Object.prototype] defines as an accessor, whose getter
    returns the prototype and whose setter ignores a value that is neither
    an object nor [null]. *)
Definition protoAccessor : jsstring := js "__proto__".

(** Every name an object literal inherits. *)
Definition inheritedNames : list jsstring := protoAccessor :: prototypeMethods.

(** A value the counting loop stores under a key of [categoryStats]: a
    number, or, under the name of a method of [Object.prototype], the
    string [+ 1] makes of that method: its source text followed by [ones]
    characters ['1']. *)
Inductive StatValue :=
| Count (n : Z)
| MethodText (ones : nat).

Module Stats.

(** The object [generateClassificationStats] returns; [categoryStats]
    holds the own properties of the object literal. *)
Record ClassificationStats := {
  totalCount : Z;
  classifiedCount : Z;
  unclassifiedCount : Z;
  categoryStats : gmap jsstring StatValue
}.

End Stats.

(** [categoryStats[id] = (categoryStats[id] || 0) + 1] on an object that
    started as [{}].  The read finds the own property, else the inherited
    one, else [undefined]; a number is incremented, a string and a
    function (which [+] turns into its source text) get ['1'] appended;
    the write creates or updates the own property, except under
    [__proto__], where the setter drops the string. *)
Definition increment (categoryStats : gmap jsstring StatValue)
  (id : jsstring) : gmap jsstring StatValue :=
  if strictEq id protoAccessor then categoryStats
  else
    match categoryStats !! id with
    | Some (Count n) =>
        <[id := Count ((if n =? 0 then 0 else n) + 1)]> categoryStats
    | Some (MethodText ones) => <[id := MethodText (S ones)]> categoryStats
    | None =>
        if bool_decide (id ∈ prototypeMethods)
        then <[id := MethodText 1]> categoryStats
        else <[id := Count 1]> categoryStats
    end.

(** One turn of the counting loop of [generateClassificationStats]:
    [if (result.categoryId) categoryStats[id] = (categoryStats[id] || 0) + 1]. *)
Definition countCategory (categoryStats : gmap jsstring StatValue)
  (result : ClassificationResult) : gmap jsstring StatValue :=
  match categoryId result with
  | Some id => if truthy id then increment categoryStats id else categoryStats
  | None => categoryStats
  end.

(** The guard of that turn: the result carries a non-empty [categoryId]. *)
Definition hasCategory (r : ClassificationResult) : bool :=
  match categoryId r with
  | Some id => truthy id
  | None => false
  end.

Definition generateClassificationStats (results : list ClassificationResult)
  : Stats.ClassificationStats :=
  let totalCount := Z.of_nat (length results) in
  let classifiedResults := List.filter isClassified results in
  let classifiedCount := Z.of_nat (length classifiedResults) in
  let unclassifiedCount := totalCount - classifiedCount in
  let categoryStats := foldl countCategory ∅ classifiedResults in
  {| Stats.totalCount := totalCount;
     Stats.classifiedCount := classifiedCount;
     Stats.unclassifiedCount := unclassifiedCount;
     Stats.categoryStats := categoryStats |}.

(** The sum of per-category counts. *)
Definition sumCounts (counts : gmap jsstring Z) : Z :=
  map_fold (fun _ n acc => n + acc) 0 counts.

(** The guard of the counting turn passes and the category identifier is
    not a name an object literal inherits. *)
Definition countable (r : ClassificationResult) : Prop :=
  exists id, categoryId r = Some id /\ id <> [] /\ id ∉ inheritedNames.

(** ** Save-and-classify pipeline ([TransactionClassificationService]) *)

(** [EncryptionService], as the pipeline uses it. *)
Record EncryptionService := {
  decrypt : jsstring -> outcome jsstring
}.

Module Parsed.

(** [ParsedTransaction] of the transaction parser. *)
Record ParsedTransaction := {
  transaction_date : Z;
  description_encrypted : jsstring;
  deposit_amount : Z;
  withdrawal_amount : Z;
  balance_after : Z;
  branch_encrypted : jsstring
}.

End Parsed.

(** The content of a nullable property of an entity: never assigned,
    assigned [null], or assigned a value. *)
Inductive nullable (A : Type) :=
| Undefined
| Null
| Value (a : A).
Arguments Undefined {A}.
Arguments Null {A}.
Arguments Value {A} a.

Module Entity.

(** The [Transaction] entity, as [processBatch] fills it in. *)
Record Transaction := {
  company_id : nullable jsstring;
  category_id : nullable jsstring;
  transaction_date : Z;
  description_encrypted : jsstring;
  deposit_amount : Z;
  withdrawal_amount : Z;
  balance_after : Z;
  branch_encrypted : jsstring;
  processed_at : Z
}.

End Entity.

Module Request.

(** [TransactionClassificationRequest] *)
Record TransactionClassificationRequest := {
  companyId : jsstring;
  transactions : list Parsed.ParsedTransaction;
  userType : jsstring
}.

End Request.

Module Batch.

(** The interface [ClassificationResult] of the pipeline: the counters of
    a run. *)
Record ClassificationResult := {
  totalProcessed : Z;
  classifiedCount : Z;
  unclassifiedCount : Z;
  errors : list jsstring
}.

End Batch.

(** [TransactionRepository.save], which can fail. *)
Record TransactionRepository := {
  save : list Entity.Transaction -> outcome ()
}.

(** What the pipeline observes while it handles one transaction: the
    surroundings of the classification call and the reading of
    [new Date()]. *)
Record StepEnv := {
  classifyEnv : Env;
  today : Z
}.

(** The rule engine's state together with the rows handed to a successful
    [save]. *)
Record PipelineState := {
  engine : ServiceState;
  persisted : list Entity.Transaction
}.

(** [`거래 분류 오류: ${errorMessage}`] *)
Definition classificationErrorPrefix : jsstring :=
  [44144; 47000; 32; 48516; 47448; 32; 50724; 47448; 58; 32]%N.

(** ['데이터베이스 저장 중 오류가 발생했습니다.'] *)
Definition saveErrorMessage : jsstring :=
  [45936; 51060; 53552; 48288; 51060; 49828; 32; 51200; 51109; 32; 51473;
   32; 50724; 47448; 44032; 32; 48156; 49373; 54664; 49845; 45768; 45796;
   46]%N.

(** ['거래 분류 및 저장 중 오류가 발생했습니다.'] *)
Definition pipelineErrorMessage : jsstring :=
  [44144; 47000; 32; 48516; 47448; 32; 48143; 32; 51200; 51109; 32; 51473;
   32; 50724; 47448; 44032; 32; 48156; 49373; 54664; 49845; 45768; 45796;
   46]%N.

(** [BATCH_SIZE] of [classifyAndSaveTransactions]. *)
Definition BATCH_SIZE : nat := 100.

(** The balance of the counters of a run: classified plus unclassified
    minus processed. *)
Definition balance (result : Batch.ClassificationResult) : Z :=
  Batch.classifiedCount result + Batch.unclassifiedCount result
  - Batch.totalProcessed result.

(** The value of [classificationResult.isClassified &&
    classificationResult.categoryId] when it is truthy: the category
    identifier. *)
Definition classifiedCategory (r : ClassificationResult)
  : option jsstring :=
  if isClassified r
  then match categoryId r with
       | Some id => if truthy id then Some id else None
       | None => None
       end
  else None.

(** That expression as a condition. *)
Definition classifiedWithCategory (r : ClassificationResult) : bool :=
  match classifiedCategory r with
  | Some _ => true
  | None => false
  end.

(** [new Transaction()] followed by the copies of the parsed fields and
    [processed_at = new Date()]: the tenant and the category are not
    assigned yet. *)
Definition newTransaction (parsedTransaction : Parsed.ParsedTransaction)
  (today : Z) : Entity.Transaction :=
  {| Entity.company_id := Undefined;
     Entity.category_id := Undefined;
     Entity.transaction_date := Parsed.transaction_date parsedTransaction;
     Entity.description_encrypted :=
       Parsed.description_encrypted parsedTransaction;
     Entity.deposit_amount := Parsed.deposit_amount parsedTransaction;
     Entity.withdrawal_amount := Parsed.withdrawal_amount parsedTransaction;
     Entity.balance_after := Parsed.balance_after parsedTransaction;
     Entity.branch_encrypted := Parsed.branch_encrypted parsedTransaction;
     Entity.processed_at := today |}.

(** [transaction.company_id = c; transaction.category_id = k] *)
Definition assign (c k : nullable jsstring) (transaction : Entity.Transaction)
  : Entity.Transaction :=
  {| Entity.company_id := c;
     Entity.category_id := k;
     Entity.transaction_date := Entity.transaction_date transaction;
     Entity.description_encrypted := Entity.description_encrypted transaction;
     Entity.deposit_amount := Entity.deposit_amount transaction;
     Entity.withdrawal_amount := Entity.withdrawal_amount transaction;
     Entity.balance_after := Entity.balance_after transaction;
     Entity.branch_encrypted := Entity.branch_encrypted transaction;
     Entity.processed_at := Entity.processed_at transaction |}.

(** [request.userType === 'ADMIN' && classificationResult.actualCompanyId
      ? classificationResult.actualCompanyId : request.companyId] *)
Definition owningCompany (request : Request.TransactionClassificationRequest)
  (classificationResult : ClassificationResult) : jsstring :=
  match actualCompanyId classificationResult with
  | Some actual =>
      if strictEq (Request.userType request) ADMIN && truthy actual
      then actual
      else Request.companyId request
  | None => Request.companyId request
  end.

(** The entity [processBatch] builds from a parsed transaction and its
    classification result. *)
Definition buildEntity (request : Request.TransactionClassificationRequest)
  (parsedTransaction : Parsed.ParsedTransaction)
  (classificationResult : ClassificationResult) (today : Z)
  : Entity.Transaction :=
  let transaction := newTransaction parsedTransaction today in
  match classifiedCategory classificationResult with
  | Some id =>
      assign (Value (owningCompany request classificationResult)) (Value id)
        transaction
  | None => assign Null Null transaction
  end.

Section Pipeline.
Context `{Runtime}.
Variable encryptionService : EncryptionService.

(** [x ? this.encryptionService.decrypt(x) : fallback] *)
Definition decryptIfPresent {A} (encrypted : jsstring)
  (present : jsstring -> A) (absent : A) : outcome A :=
  if truthy encrypted
  then match decrypt encryptionService encrypted with
       | Returned plain => Returned (present plain)
       | Thrown e => Thrown e
       end
  else Returned absent.

(** The classification context [processBatch] builds for one parsed
    transaction, once both of its fields are decrypted. *)
Definition contextOf (request : Request.TransactionClassificationRequest)
  (parsedTransaction : Parsed.ParsedTransaction)
  (decryptedDescription : jsstring) (decryptedBranch : option jsstring)
  : ClassificationContext :=
  {| companyId := Request.companyId request;
     userType := Some (Request.userType request);
     transactionData :=
       {| description := decryptedDescription;
          depositAmount := Parsed.deposit_amount parsedTransaction;
          withdrawalAmount := Parsed.withdrawal_amount parsedTransaction;
          transactionDate := Parsed.transaction_date parsedTransaction;
          branch := decryptedBranch |} |}.

(** The [try] block of the loop of [processBatch] for one transaction:
    the entity it pushes and the classification result it obtained. *)
Definition processOneTry (request : Request.TransactionClassificationRequest)
  (parsedTransaction : Parsed.ParsedTransaction) (env : StepEnv)
  (st : ServiceState)
  : outcome (Entity.Transaction * ClassificationResult) * ServiceState :=
  match decryptIfPresent (Parsed.description_encrypted parsedTransaction)
          (fun plain => plain) [] with
  | Thrown e => (Thrown e, st)
  | Returned decryptedDescription =>
      match decryptIfPresent (Parsed.branch_encrypted parsedTransaction)
              Some None with
      | Thrown e => (Thrown e, st)
      | Returned decryptedBranch =>
          let classificationContext :=
            contextOf request parsedTransaction decryptedDescription
              decryptedBranch in
          match classifyTransaction classificationContext (classifyEnv env) st
          with
          | (Thrown e, st) => (Thrown e, st)
          | (Returned classificationResult, st) =>
              (Returned
                 (buildEntity request parsedTransaction classificationResult
                    (today env),
                  classificationResult), st)
          end
      end
  end.

(** An entity some turn of the loop builds for a transaction of the
    group, the turn going through. *)
Definition builtFrom (request : Request.TransactionClassificationRequest)
  (transactions : list Parsed.ParsedTransaction)
  (transaction : Entity.Transaction) : Prop :=
  exists parsed env st st' result,
    In parsed transactions
    /\ processOneTry request parsed env st
       = (Returned (transaction, result), st').

(** The loop of [processBatch]: the counters, the entities collected so
    far and the engine's state go round; [envs i] is what the [i]-th turn
    observes. *)
Fixpoint processLoop (request : Request.TransactionClassificationRequest)
  (transactions : list Parsed.ParsedTransaction) (envs : nat -> StepEnv)
  (result : Batch.ClassificationResult)
  (transactionEntities : list Entity.Transaction) (st : ServiceState)
  : Batch.ClassificationResult * list Entity.Transaction * ServiceState :=
  match transactions with
  | [] => (result, transactionEntities, st)
  | parsedTransaction :: rest =>
      let envs' := fun i => envs (S i) in
      match processOneTry request parsedTransaction (envs 0%nat) st with
      | (Returned (transaction, classificationResult), st) =>
          let counted :=
            if classifiedWithCategory classificationResult
            then
              {| Batch.totalProcessed := Batch.totalProcessed result + 1;
                 Batch.classifiedCount := Batch.classifiedCount result + 1;
                 Batch.unclassifiedCount := Batch.unclassifiedCount result;
                 Batch.errors := Batch.errors result |}
            else
              {| Batch.totalProcessed := Batch.totalProcessed result + 1;
                 Batch.classifiedCount := Batch.classifiedCount result;
                 Batch.unclassifiedCount := Batch.unclassifiedCount result + 1;
                 Batch.errors := Batch.errors result |} in
          processLoop request rest envs' counted
            (transactionEntities ++ [transaction]) st
      | (Thrown errorMessage, st) =>
          let failed :=
            {| Batch.totalProcessed := Batch.totalProcessed result;
               Batch.classifiedCount := Batch.classifiedCount result;
               Batch.unclassifiedCount := Batch.unclassifiedCount result;
               Batch.errors :=
                 Batch.errors result
                   ++ [classificationErrorPrefix ++ errorMessage] |} in
          processLoop request rest envs' failed transactionEntities st
      end
  end.

Definition emptyResult : Batch.ClassificationResult :=
  {| Batch.totalProcessed := 0;
     Batch.classifiedCount := 0;
     Batch.unclassifiedCount := 0;
     Batch.errors := [] |}.

Definition processBatch (request : Request.TransactionClassificationRequest)
  (transactions : list Parsed.ParsedTransaction) (envs : nat -> StepEnv)
  (transactionRepository : TransactionRepository) (st : PipelineState)
  : outcome Batch.ClassificationResult * PipelineState :=
  match processLoop request transactions envs emptyResult [] (engine st) with
  | (result, transactionEntities, engine') =>
      match transactionEntities with
      | [] =>
          (Returned result,
           {| engine := engine'; persisted := persisted st |})
      | _ :: _ =>
          match save transactionRepository transactionEntities with
          | Returned _ =>
              (Returned result,
               {| engine := engine';
                  persisted := persisted st ++ transactionEntities |})
          | Thrown _ =>
              (Thrown saveErrorMessage,
               {| engine := engine'; persisted := persisted st |})
          end
      end
  end.

(** The groups [transactions.slice(i, i + BATCH_SIZE)] for
    [i = 0, BATCH_SIZE, ...]; there are never more of them than
    transactions, which bounds the recursion. *)
Fixpoint slices (bound : nat) (transactions : list Parsed.ParsedTransaction)
  : list (list Parsed.ParsedTransaction) :=
  match bound, transactions with
  | S bound', _ :: _ =>
      take BATCH_SIZE transactions
        :: slices bound' (drop BATCH_SIZE transactions)
  | _, _ => []
  end.

(** The loop of [classifyAndSaveTransactions] over the groups; [envs g]
    and [repositories g] are what the processing of the [g]-th group
    observes. *)
Fixpoint saveLoop (request : Request.TransactionClassificationRequest)
  (groups : list (list Parsed.ParsedTransaction))
  (envs : nat -> nat -> StepEnv) (repositories : nat -> TransactionRepository)
  (result : Batch.ClassificationResult) (st : PipelineState)
  : outcome Batch.ClassificationResult * PipelineState :=
  match groups with
  | [] => (Returned result, st)
  | batch :: rest =>
      match processBatch request batch (envs 0%nat) (repositories 0%nat) st
      with
      | (Thrown e, st) => (Thrown e, st)
      | (Returned batchResult, st) =>
          saveLoop request rest (fun g => envs (S g))
            (fun g => repositories (S g))
            {| Batch.totalProcessed :=
                 Batch.totalProcessed result
                 + Batch.totalProcessed batchResult;
               Batch.classifiedCount :=
                 Batch.classifiedCount result
                 + Batch.classifiedCount batchResult;
               Batch.unclassifiedCount :=
                 Batch.unclassifiedCount result
                 + Batch.unclassifiedCount batchResult;
               Batch.errors :=
                 Batch.errors result ++ Batch.errors batchResult |}
            st
      end
  end.

Definition classifyAndSaveTransactions
  (request : Request.TransactionClassificationRequest)
  (envs : nat -> nat -> StepEnv) (repositories : nat -> TransactionRepository)
  (st : PipelineState) : outcome Batch.ClassificationResult * PipelineState :=
  let transactions := Request.transactions request in
  match saveLoop request (slices (length transactions) transactions)
          envs repositories emptyResult st with
  | (Thrown _, st) => (Thrown pipelineErrorMessage, st)
  | (Returned result, st) => (Returned result, st)
  end.

End Pipeline.

(** *** The loop of [processBatch], transaction by transaction *)

Section Turns.
Context `{Runtime}.
Variable encryptionService : EncryptionService.




End Turns.

(** ** Sample data

    The rule, the transactions and the collaborators of the engine's unit
    tests, used below to run the embedding. *)

Module Sample.

Definition basicLatin : Runtime := {| toLowerCase := lowerBasicLatin |}.

(** An encryption service whose cipher text is the plain text. *)
Definition plainText : EncryptionService := {| decrypt := Returned |}.

Definition com_1 : jsstring := js "com_1".
Definition com_2 : jsstring := js "com_2".

(** ['스타벅스'] *)
Definition starbucks : jsstring := [49828; 53440; 48261; 49828]%N.

(** ['환불'] *)
Definition refund : jsstring := [54872; 48520]%N.

(** The rule of the tests: withdrawals from 1000 to 50000 that mention
    ['스타벅스'] and not ['환불'], priority 1. *)
Definition starbucksRule : ClassificationRule :=
  {| rule_id := 1;
     company_id := com_1;
     category_id := js "cat_1";
     min_amount := Some 1000;
     max_amount := Some 50000;
     transaction_type := WITHDRAWAL;
     priority := 1;
     is_active := true;
     category := Some {| category_name := [49885; 48708]%N |};
     keywords :=
       [ {| keyword_id := 1; keyword := starbucks; keyword_type := INCLUDE |};
         {| keyword_id := 2; keyword := refund; keyword_type := EXCLUDE |} ] |}.

(** The same rule with priority 2 and another category. *)
Definition lowPriorityRule : ClassificationRule :=
  {| rule_id := 2;
     company_id := com_1;
     category_id := js "cat_2";
     min_amount := Some 1000;
     max_amount := Some 50000;
     transaction_type := WITHDRAWAL;
     priority := 2;
     is_active := true;
     category := Some {| category_name := [44592; 53440]%N |};
     keywords := keywords starbucksRule |}.

(** A rule of another tenant that matches every transaction. *)
Definition otherTenantRule : ClassificationRule :=
  {| rule_id := 3;
     company_id := com_2;
     category_id := js "cat_9";
     min_amount := None;
     max_amount := None;
     transaction_type := ALL;
     priority := 1;
     is_active := true;
     category := None;
     keywords := [] |}.

(** ['스타벅스 강남2호점'], a withdrawal of 5500. *)
Definition purchase : TransactionData :=
  {| description :=
       [49828; 53440; 48261; 49828; 32; 44053; 45224; 50; 54840; 51216]%N;
     depositAmount := 0;
     withdrawalAmount := 5500;
     transactionDate := 1752969600000;
     branch := None |}.

(** ['스타벅스 환불'], a deposit of 5500. *)
Definition refunded : TransactionData :=
  {| description := [49828; 53440; 48261; 49828; 32; 54872; 48520]%N;
     depositAmount := 5500;
     withdrawalAmount := 0;
     transactionDate := 1752969600000;
     branch := None |}.

(** A withdrawal of the given amount at the same shop. *)
Definition purchaseOf (amount : Z) : TransactionData :=
  {| description := description purchase;
     depositAmount := 0;
     withdrawalAmount := amount;
     transactionDate := transactionDate purchase;
     branch := None |}.

(** A rule store in which the first tenant owns [starbucksRule] and the
    second one [otherTenantRule]. *)
Definition store : RuleDataService :=
  {| getRulesByCompany :=
       fun tenant =>
         Returned
           (if strictEq tenant com_1 then [starbucksRule]
            else if strictEq tenant com_2 then [otherTenantRule]
            else []);
     getAllActiveRules := Returned [starbucksRule; otherTenantRule] |}.

(** A rule store in which only the second tenant has a rule. *)
Definition otherStore : RuleDataService :=
  {| getRulesByCompany :=
       fun tenant =>
         Returned (if strictEq tenant com_2 then [otherTenantRule] else []);
     getAllActiveRules := Returned [otherTenantRule] |}.

(** A rule store without rules. *)
Definition emptyStore : RuleDataService :=
  {| getRulesByCompany := fun _ => Returned [];
     getAllActiveRules := Returned [] |}.

Definition envAt (clock : Z) (s : RuleDataService) : Env :=
  {| now := clock; ruleDataService := s |}.

(** The first tenant's own classification of [purchase]. *)
Definition ownContext : ClassificationContext :=
  {| companyId := com_1; transactionData := purchase; userType := None |}.

(** An administrator's classification of [purchase], requested for the
    first tenant. *)
Definition adminContext : ClassificationContext :=
  {| companyId := com_1;
     transactionData := purchase;
     userType := Some ADMIN |}.

(** [purchase] as the parser delivers it. *)
Definition parsedPurchase : Parsed.ParsedTransaction :=
  {| Parsed.transaction_date := transactionDate purchase;
     Parsed.description_encrypted := description purchase;
     Parsed.deposit_amount := 0;
     Parsed.withdrawal_amount := 5500;
     Parsed.balance_after := 100000;
     Parsed.branch_encrypted := [] |}.

(** An administrator's request, as the controller builds it. *)
Definition adminRequest : Request.TransactionClassificationRequest :=
  {| Request.companyId := js "ADMIN_ALL_COMPANIES";
     Request.transactions := [parsedPurchase];
     Request.userType := ADMIN |}.

Definition stepAt (clock : Z) (s : RuleDataService) : StepEnv :=
  {| classifyEnv := envAt clock s; today := clock |}.

(** A repository whose [save] succeeds. *)
Definition repository : TransactionRepository :=
  {| save := fun _ => Returned () |}.

Definition newPipeline : PipelineState :=
  {| engine := newService; persisted := [] |}.

(** ['다른 상점'], a withdrawal of 5500. *)
Definition elsewhere : TransactionData :=
  {| description := [45796; 47480; 32; 49345; 51216]%N;
     depositAmount := 0;
     withdrawalAmount := 5500;
     transactionDate := transactionDate purchase;
     branch := None |}.

(** ['투썸플레이스카페 결제'], a withdrawal of 5500. *)
Definition cafePayment : TransactionData :=
  {| description :=
       [53804; 50040; 54540; 47112; 51060; 49828; 52852; 54168; 32; 44208;
        51228]%N;
     depositAmount := 0;
     withdrawalAmount := 5500;
     transactionDate := transactionDate purchase;
     branch := None |}.

(** The rule of the tests with the single keyword ['카페']. *)
Definition cafeRule : ClassificationRule :=
  {| rule_id := 1;
     company_id := com_1;
     category_id := js "cat_1";
     min_amount := Some 1000;
     max_amount := Some 50000;
     transaction_type := WITHDRAWAL;
     priority := 1;
     is_active := true;
     category := category starbucksRule;
     keywords :=
       [ {| keyword_id := 1;
            keyword := [52852; 54168]%N;
            keyword_type := INCLUDE |} ] |}.

(** A rule store that returns the given rules for every tenant. *)
Definition storeOf (rules : list ClassificationRule) : RuleDataService :=
  {| getRulesByCompany := fun _ => Returned rules;
     getAllActiveRules := Returned rules |}.

(** A rule store that is out of reach. *)
Definition brokenStore : RuleDataService :=
  {| getRulesByCompany := fun _ => Thrown (js "connection lost");
     getAllActiveRules := Thrown (js "connection lost") |}.

Definition contextFor (tx : TransactionData) : ClassificationContext :=
  {| companyId := com_1; transactionData := tx; userType := None |}.

End Sample.

(** ** Derived notions used by the further properties *)

(** The key of the all-tenant entry, as [getAllCompanyRules] spells it. *)
Definition allCompaniesKey : jsstring := js "rules_all_companies".

(** The two maps of the cache have an entry for the same keys. *)
Definition coherent (st : ServiceState) : Prop :=
  forall key,
    is_Some (rulesCache st !! key) <-> is_Some (cacheExpiry st !! key).

Section OneByOne.
Context `{Runtime}.

(** One call of [classifyTransaction] per transaction, one after the
    other, for one tenant and one kind of user: the way a caller that does
    not use the batch classifies a list. *)
Fixpoint classifyOneByOne (tenant : jsstring) (user : option jsstring)
  (transactions : list TransactionData) (env : Env) (st : ServiceState)
  : list (outcome ClassificationResult) * ServiceState :=
  match transactions with
  | [] => ([], st)
  | tx :: rest =>
      let '(result, st) :=
        classifyTransaction
          {| companyId := tenant; transactionData := tx; userType := user |}
          env st in
      let '(results, st) := classifyOneByOne tenant user rest env st in
      (result :: results, st)
  end.

End OneByOne.

(** The number of classified results filed under a category. *)
Definition filedUnder (id : jsstring) (results : list ClassificationResult)
  : nat :=
  length
    (List.filter
       (fun r => isClassified r && bool_decide (categoryId r = Some id))
       results).

(** What the parser delivers for a transaction and what an entity keeps of
    it: the date, the encrypted description, the amounts, the balance and
    the encrypted branch. *)
Definition payloadOfParsed (p : Parsed.ParsedTransaction)
  : Z * jsstring * Z * Z * Z * jsstring :=
  (Parsed.transaction_date p, Parsed.description_encrypted p,
   Parsed.deposit_amount p, Parsed.withdrawal_amount p,
   Parsed.balance_after p, Parsed.branch_encrypted p).

Definition payloadOfEntity (e : Entity.Transaction)
  : Z * jsstring * Z * Z * Z * jsstring :=
  (Entity.transaction_date e, Entity.description_encrypted e,
   Entity.deposit_amount e, Entity.withdrawal_amount e,
   Entity.balance_after e, Entity.branch_encrypted e).

(** The one call of the rule store a request can cause: for an
    administrator the all-tenant query, for anybody else the query for the
    requested tenant. *)
Definition storeCallOf (request : Request.TransactionClassificationRequest)
  : StoreCall :=
  if strictEq (Request.userType request) ADMIN
  then CallGetAllActiveRules
  else CallGetRulesByCompany (Request.companyId request).

(** ** Reclassification ([reclassifyUnclassifiedTransactions]) *)

(** [`${n}`] for an integer [n] of magnitude below [10^21], which a
    generated identifier is. *)
Definition numberToString (n : Z) : jsstring :=
  js (NilZero.string_of_int (Z.to_int n)).

Module Stored.

(** A row of the [transactions] table as [find] returns it: the generated
    identifier and the columns. *)
Record Row := {
  transaction_id : Z;
  columns : Entity.Transaction
}.

End Stored.

(** The repository as the reclassification uses it:
    [find({ where: { company_id: IsNull() }, take: limit,
            order: { transaction_date: 'DESC' } })]
    and [save(transaction)] of one row. *)
Record UnclassifiedRepository := {
  findUnclassified : Z -> outcome (list Stored.Row);
  saveRow : Stored.Row -> outcome ()
}.

(** The rule engine's state together with the rows a successful
    [save(transaction)] has written back. *)
Record ReclassifyState := {
  engineState : ServiceState;
  written : list Stored.Row
}.

(** [`거래 ${transaction.transaction_id} 재분류 오류: ${errorMessage}`] *)
Definition reclassifyErrorOf (transaction : Stored.Row)
  (errorMessage : jsstring) : jsstring :=
  [44144; 47000; 32]%N
    ++ numberToString (Stored.transaction_id transaction)
    ++ [32; 51116; 48516; 47448; 32; 50724; 47448; 58; 32]%N
    ++ errorMessage.

(** ['거래 재분류 중 오류가 발생했습니다.'] *)
Definition reclassifyErrorMessage : jsstring :=
  [44144; 47000; 32; 51116; 48516; 47448; 32; 51473; 32; 50724; 47448;
   44032; 32; 48156; 49373; 54664; 49845; 45768; 45796; 46]%N.

(** [transaction.company_id = companyId; transaction.category_id = id;
    transaction.processed_at = new Date()] on a row. *)
Definition reassign (companyId id : jsstring) (today : Z)
  (transaction : Stored.Row) : Stored.Row :=
  {| Stored.transaction_id := Stored.transaction_id transaction;
     Stored.columns :=
       {| Entity.company_id := Value companyId;
          Entity.category_id := Value id;
          Entity.transaction_date :=
            Entity.transaction_date (Stored.columns transaction);
          Entity.description_encrypted :=
            Entity.description_encrypted (Stored.columns transaction);
          Entity.deposit_amount :=
            Entity.deposit_amount (Stored.columns transaction);
          Entity.withdrawal_amount :=
            Entity.withdrawal_amount (Stored.columns transaction);
          Entity.balance_after :=
            Entity.balance_after (Stored.columns transaction);
          Entity.branch_encrypted :=
            Entity.branch_encrypted (Stored.columns transaction);
          Entity.processed_at := today |} |}.

(** A row the reclassification writes back for a tenant: a row that was
    found, with the tenant, a non-empty category and a processing date set
    and nothing else changed. *)
Definition rewritten (companyId : jsstring) (found : list Stored.Row)
  (saved : Stored.Row) : Prop :=
  exists original id today,
    In original found
    /\ id <> []
    /\ saved = reassign companyId id today original.

Section Reclassify.
Context `{Runtime}.
Variable encryptionService : EncryptionService.

(** The classification context the reclassification builds for a row: the
    target tenant, no user type. *)
Definition reclassifyContextOf (companyId : jsstring)
  (transaction : Stored.Row) (decryptedDescription : jsstring)
  (decryptedBranch : option jsstring) : ClassificationContext :=
  {| companyId := companyId;
     userType := None;
     transactionData :=
       {| description := decryptedDescription;
          depositAmount := Entity.deposit_amount (Stored.columns transaction);
          withdrawalAmount :=
            Entity.withdrawal_amount (Stored.columns transaction);
          transactionDate :=
            Entity.transaction_date (Stored.columns transaction);
          branch := decryptedBranch |} |}.

(** The [try] block of the loop for one row: [Some] of the row written
    back when the row is newly classified, [None] when it stays
    unclassified. *)
Definition reclassifyOneTry (companyId : jsstring)
  (transaction : Stored.Row) (env : StepEnv)
  (repository : UnclassifiedRepository) (st : ServiceState)
  : outcome (option Stored.Row) * ServiceState :=
  match decrypt encryptionService
          (Entity.description_encrypted (Stored.columns transaction)) with
  | Thrown e => (Thrown e, st)
  | Returned decryptedDescription =>
      match decryptIfPresent encryptionService
              (Entity.branch_encrypted (Stored.columns transaction))
              Some None with
      | Thrown e => (Thrown e, st)
      | Returned decryptedBranch =>
          let classificationContext :=
            reclassifyContextOf companyId transaction decryptedDescription
              decryptedBranch in
          match classifyTransaction classificationContext (classifyEnv env) st
          with
          | (Thrown e, st) => (Thrown e, st)
          | (Returned classificationResult, st) =>
              match classifiedCategory classificationResult with
              | Some id =>
                  let transaction :=
                    reassign companyId id (today env) transaction in
                  match saveRow repository transaction with
                  | Thrown e => (Thrown e, st)
                  | Returned _ => (Returned (Some transaction), st)
                  end
              | None => (Returned None, st)
              end
          end
      end
  end.

(** The loop over the rows found; [envs i] is what the [i]-th turn
    observes. *)
Fixpoint reclassifyLoop (companyId : jsstring)
  (transactions : list Stored.Row) (envs : nat -> StepEnv)
  (repository : UnclassifiedRepository)
  (result : Batch.ClassificationResult) (st : ReclassifyState)
  : Batch.ClassificationResult * ReclassifyState :=
  match transactions with
  | [] => (result, st)
  | transaction :: rest =>
      let envs' := fun i => envs (S i) in
      match reclassifyOneTry companyId transaction (envs 0%nat) repository
              (engineState st) with
      | (Returned (Some saved), engine') =>
          reclassifyLoop companyId rest envs' repository
            {| Batch.totalProcessed := Batch.totalProcessed result + 1;
               Batch.classifiedCount := Batch.classifiedCount result + 1;
               Batch.unclassifiedCount := Batch.unclassifiedCount result;
               Batch.errors := Batch.errors result |}
            {| engineState := engine'; written := written st ++ [saved] |}
      | (Returned None, engine') =>
          reclassifyLoop companyId rest envs' repository
            {| Batch.totalProcessed := Batch.totalProcessed result + 1;
               Batch.classifiedCount := Batch.classifiedCount result;
               Batch.unclassifiedCount := Batch.unclassifiedCount result + 1;
               Batch.errors := Batch.errors result |}
            {| engineState := engine'; written := written st |}
      | (Thrown errorMessage, engine') =>
          reclassifyLoop companyId rest envs' repository
            {| Batch.totalProcessed := Batch.totalProcessed result;
               Batch.classifiedCount := Batch.classifiedCount result;
               Batch.unclassifiedCount := Batch.unclassifiedCount result;
               Batch.errors :=
                 Batch.errors result
                   ++ [reclassifyErrorOf transaction errorMessage] |}
            {| engineState := engine'; written := written st |}
      end
  end.

Definition reclassifyUnclassifiedTransactions (companyId : jsstring)
  (limit : Z) (envs : nat -> StepEnv) (repository : UnclassifiedRepository)
  (st : ReclassifyState)
  : outcome Batch.ClassificationResult * ReclassifyState :=
  match findUnclassified repository limit with
  | Thrown _ => (Thrown reclassifyErrorMessage, st)
  | Returned unclassifiedTransactions =>
      match unclassifiedTransactions with
      | [] => (Returned emptyResult, st)
      | _ :: _ =>
          let '(result, st) :=
            reclassifyLoop companyId unclassifiedTransactions envs repository
              emptyResult st in
          (Returned result, st)
      end
  end.

End Reclassify.

(** ** Rule ingestion ([RuleDataService]) *)

Module Dto.

(** The validated shapes of [rules-file.dto.ts].  The validation lets an
    optional property be absent or [null]; the bounds of a range keep the
    difference, which [validateAmountRange] observes, and for the other
    optional properties, which the code only tests for truthiness or
    switches on, [None] stands for both. *)
Record AmountRangeDto := {
  min : nullable Z;
  max : nullable Z
}.

Record CategoryRuleDto := {
  category_id : jsstring;
  category_name : jsstring;
  keywords : list jsstring;
  exclude_keywords : option (list jsstring);
  amount_range : option AmountRangeDto;
  transaction_type : option jsstring;
  priority : nullable Z
}.

Record CompanyRuleDto := {
  company_id : jsstring;
  company_name : jsstring;
  categories : list CategoryRuleDto
}.

Record RulesFileDto := {
  companies : list CompanyRuleDto
}.

End Dto.

(** The message of the [BadRequestException] of [validateAmountRange]. *)
Definition amountRangeMessage : jsstring :=
  js "amount_range.min cannot be greater than amount_range.max".

(** The number a bound counts as under [>]: [null] converts to 0.  An
    [undefined] bound never reaches the comparison. *)
Definition toNumber (x : nullable Z) : Z :=
  match x with
  | Value v => v
  | Null | Undefined => 0
  end.

Definition validateAmountRange (amountRange : Dto.AmountRangeDto)
  : outcome () :=
  match Dto.min amountRange, Dto.max amountRange with
  | Undefined, _ | _, Undefined => Returned ()
  | lo, hi =>
      if toNumber lo >? toNumber hi then Thrown amountRangeMessage
      else Returned ()
  end.

(** The inner loop of [validateBusinessRules], over the categories of one
    company. *)
Fixpoint validateCategories (categories : list Dto.CategoryRuleDto)
  : outcome () :=
  match categories with
  | [] => Returned ()
  | category :: rest =>
      match
        match Dto.amount_range category with
        | Some amountRange => validateAmountRange amountRange
        | None => Returned ()
        end
      with
      | Thrown e => Thrown e
      | Returned _ => validateCategories rest
      end
  end.

(** The outer loop, over the companies. *)
Fixpoint validateCompanies (companies : list Dto.CompanyRuleDto)
  : outcome () :=
  match companies with
  | [] => Returned ()
  | company :: rest =>
      match validateCategories (Dto.categories company) with
      | Thrown e => Thrown e
      | Returned _ => validateCompanies rest
      end
  end.

Definition validateBusinessRules (rulesData : Dto.RulesFileDto)
  : outcome () :=
  validateCompanies (Dto.companies rulesData).

Definition mapTransactionType (type : option jsstring) : TransactionType :=
  match type with
  | Some name =>
      if strictEq name (js "DEPOSIT") then DEPOSIT
      else if strictEq name (js "WITHDRAWAL") then WITHDRAWAL
      else ALL
  | None => ALL
  end.

(** [x || fallback] for an optional number: the fallback replaces
    [undefined], [null] and zero. *)
Definition numberOr {A} (x : nullable Z) (some : Z -> A) (fallback : A) : A :=
  match x with
  | Value v => if v =? 0 then fallback else some v
  | Null | Undefined => fallback
  end.

(** [amount_range?.bound]. *)
Definition boundOf (amountRange : option Dto.AmountRangeDto)
  (bound : Dto.AmountRangeDto -> nullable Z) : nullable Z :=
  match amountRange with
  | Some range => bound range
  | None => Undefined
  end.

(** The [ClassificationRule] that [saveCategoryRules] saves for a category
    of a company, under the identifier the database generates for it; its
    keywords and its category are rows of their own. *)
Definition savedRule (companyId : jsstring)
  (categoryData : Dto.CategoryRuleDto) (generatedId : Z)
  : ClassificationRule :=
  {| rule_id := generatedId;
     company_id := companyId;
     category_id := Dto.category_id categoryData;
     min_amount :=
       numberOr (boundOf (Dto.amount_range categoryData) Dto.min) Some None;
     max_amount :=
       numberOr (boundOf (Dto.amount_range categoryData) Dto.max) Some None;
     transaction_type :=
       mapTransactionType (Dto.transaction_type categoryData);
     priority := numberOr (Dto.priority categoryData) (fun p => p) 1;
     is_active := true;
     category := None;
     keywords := [] |}.

(** ** More sample data *)

Module Fixture.
Import Sample.

(** A keyword of two blanks. *)
Definition blankKeyword : RuleKeyword :=
  {| keyword_id := 3; keyword := js "  "; keyword_type := EXCLUDE |}.

(** [starbucksRule] with a blank EXCLUDE keyword instead of ['환불']. *)
Definition mutedRule : ClassificationRule :=
  {| rule_id := 4;
     company_id := com_1;
     category_id := js "cat_1";
     min_amount := Some 1000;
     max_amount := Some 50000;
     transaction_type := WITHDRAWAL;
     priority := 1;
     is_active := true;
     category := category starbucksRule;
     keywords :=
       [ {| keyword_id := 1; keyword := starbucks; keyword_type := INCLUDE |};
         blankKeyword ] |}.

(** A rule of the first tenant that matches every transaction and files
    it under the given category. *)
Definition ruleFiledUnder (id : jsstring) : ClassificationRule :=
  {| rule_id := 5;
     company_id := com_1;
     category_id := id;
     min_amount := None;
     max_amount := None;
     transaction_type := ALL;
     priority := 1;
     is_active := true;
     category := None;
     keywords := [] |}.

(** The statistics of the batch of two purchases when the tenant's one
    rule files under the given category. *)
Definition statsFiledUnder (id : jsstring) : Stats.ClassificationStats :=
  generateClassificationStats
    (match
       (classifyTransactionsBatch (H := basicLatin) com_1
          [purchase; purchase] (envAt 1000 (storeOf [ruleFiledUnder id]))
          newService).1
     with
     | Returned results => results
     | Thrown _ => []
     end).

(** A business user's request of the first tenant. *)
Definition ownRequest : Request.TransactionClassificationRequest :=
  {| Request.companyId := com_1;
     Request.transactions := [parsedPurchase];
     Request.userType := js "BUSINESS" |}.

(** [purchase] as a stored row of no tenant. *)
Definition orphanRow : Stored.Row :=
  {| Stored.transaction_id := 7;
     Stored.columns :=
       {| Entity.company_id := Null;
          Entity.category_id := Null;
          Entity.transaction_date := transactionDate purchase;
          Entity.description_encrypted := description purchase;
          Entity.deposit_amount := 0;
          Entity.withdrawal_amount := 5500;
          Entity.balance_after := 100000;
          Entity.branch_encrypted := [];
          Entity.processed_at := 0 |} |}.

(** A repository that finds [orphanRow] and whose [save] succeeds. *)
Definition orphanRepository : UnclassifiedRepository :=
  {| findUnclassified := fun _ => Returned [orphanRow];
     saveRow := fun _ => Returned () |}.

Definition newReclassification : ReclassifyState :=
  {| engineState := newService; written := [] |}.

(** A category whose amount range is from 0 to 0. *)
Definition zeroRangeCategory : Dto.CategoryRuleDto :=
  {| Dto.category_id := js "cat_1";
     Dto.category_name := js "free";
     Dto.keywords := [js "gift"];
     Dto.exclude_keywords := None;
     Dto.amount_range := Some {| Dto.min := Value 0; Dto.max := Value 0 |};
     Dto.transaction_type := None;
     Dto.priority := Undefined |}.

End Fixture.

(** * Properties *)

(** ** Strings *)

Example split_sample :
  splitWhitespace (js " ab  c ") = [js ""; js "ab"; js "c"; js ""].
Proof. reflexivity. Qed.

Example includes_sample :
  includes (js "starbucks gangnam") (js "bucks g") = true
  /\ includes (js "starbucks") (js "") = true
  /\ includes (js "") (js "a") = false.
Proof. repeat split; reflexivity. Qed.

Lemma startsWith_spec (s k : jsstring) :
  startsWith s k = true <-> exists b, s = k ++ b.
Proof.
  revert s. induction k as [|a k IH]; intros s; simpl.
  - split; [intros _; exists s; reflexivity | intros _; destruct s; reflexivity].
  - destruct s as [|b s]; simpl.
    + split; [discriminate | intros [t Ht]; discriminate].
    + rewrite andb_true_iff, N.eqb_eq, IH. split.
      * intros [-> [t ->]]. exists t. reflexivity.
      * intros [t Ht]. injection Ht as -> ->. split; [reflexivity | eauto].
Qed.

Lemma includes_spec (s k : jsstring) :
  includes s k = true <-> exists a b, s = a ++ k ++ b.
Proof.
  induction s as [|c s IH].
  - cbn [includes]. rewrite orb_false_r, startsWith_spec. split.
    + intros [b Hb]. exists [], b. exact Hb.
    + intros [a [b Hab]]. destruct a; [exists b; exact Hab | discriminate].
  - cbn [includes]. rewrite orb_true_iff, startsWith_spec, IH. split.
    + intros [[b Hb] | [a [b Hab]]].
      * exists [], b. exact Hb.
      * exists (c :: a), b. rewrite Hab. reflexivity.
    + intros [a [b Hab]]. destruct a as [|c' a].
      * left. exists b. exact Hab.
      * right. injection Hab as -> ->. eauto.
Qed.

(** Every piece [splitLoop] produces is a contiguous run of the string it
    is cutting: of the piece under construction followed by the rest. *)
Lemma splitLoop_infix (s : jsstring) :
  forall inGap cur w,
    (inGap = true -> cur = []) ->
    In w (splitLoop inGap cur s) ->
    exists a b, rev cur ++ s = a ++ w ++ b.
Proof.
  induction s as [|c s IH]; intros inGap cur w Hgap Hin; simpl in Hin.
  - destruct Hin as [<- | []]. exists [], []. rewrite !app_nil_r. reflexivity.
  - destruct (isWhiteSpace c).
    + destruct inGap.
      * rewrite (Hgap eq_refl) in *. simpl.
        destruct (IH true [] w (fun _ => eq_refl) Hin) as [a [b Hab]].
        simpl in Hab. exists (c :: a), b. rewrite Hab. reflexivity.
      * destruct Hin as [<- | Hin].
        -- exists [], (c :: s). reflexivity.
        -- destruct (IH true [] w (fun _ => eq_refl) Hin) as [a [b Hab]].
           simpl in Hab. exists (rev cur ++ c :: a), b.
           rewrite Hab, <- app_assoc. reflexivity.
    + destruct (IH false (c :: cur) w ltac:(discriminate) Hin)
        as [a [b Hab]].
      exists a, b. rewrite <- Hab. simpl. rewrite <- app_assoc. reflexivity.
Qed.

Lemma splitWhitespace_infix (s w : jsstring) :
  In w (splitWhitespace s) -> exists a b, s = a ++ w ++ b.
Proof.
  intros Hin.
  exact (splitLoop_infix s false [] w ltac:(discriminate) Hin).
Qed.

Lemma strictEq_true (a b : jsstring) : strictEq a b = true <-> a = b.
Proof. unfold strictEq. apply bool_decide_eq_true. Qed.

(** C10.  The keyword-match predicate of the engine, whole-word equality
    with a piece of the white-space split of the description or substring
    containment, is the same function as plain substring containment
    ([includes]): every piece of the split is itself a contiguous run of
    the description, so the whole-word branch never decides. *)
Theorem isKeywordMatch_is_includes :
  (forall description keyword : jsstring,
      isKeywordMatch description keyword = includes description keyword)
  /\ (forall description word : jsstring,
         In word (splitWhitespace description) ->
         exists before after, description = before ++ word ++ after).
Proof.
  split.
  - intros d k. unfold isKeywordMatch.
    destruct (existsb (fun word => strictEq word k) (splitWhitespace d))
      eqn:Hword; [| reflexivity].
    apply existsb_exists in Hword. destruct Hword as [w [Hin Heq]].
    apply strictEq_true in Heq. subst w.
    symmetry. apply includes_spec. apply splitWhitespace_infix, Hin.
  - intros d w. apply splitWhitespace_infix.
Qed.

(** ** Matcher *)

Section MatcherFacts.
Context `{Runtime}.

Lemma evaluateRule_true (tx : TransactionData) (rule : ClassificationRule) :
  evaluateRule tx rule = true <->
  checkTransactionType tx (transaction_type rule) = true
  /\ checkAmountRange tx rule = true
  /\ checkKeywordMatching tx rule = true.
Proof.
  unfold evaluateRule.
  destruct (checkTransactionType tx (transaction_type rule)),
    (checkAmountRange tx rule), (checkKeywordMatching tx rule);
    simpl; intuition congruence.
Qed.

Lemma checkTransactionType_DEPOSIT (tx : TransactionData) :
  checkTransactionType tx DEPOSIT = true <->
  depositAmount tx > 0 /\ ~ withdrawalAmount tx > 0.
Proof.
  unfold checkTransactionType.
  rewrite andb_true_iff, negb_true_iff.
  destruct (Z.gtb_spec (depositAmount tx) 0),
    (Z.gtb_spec (withdrawalAmount tx) 0); intuition (try lia; congruence).
Qed.

Lemma checkTransactionType_WITHDRAWAL (tx : TransactionData) :
  checkTransactionType tx WITHDRAWAL = true <->
  withdrawalAmount tx > 0 /\ ~ depositAmount tx > 0.
Proof.
  unfold checkTransactionType.
  rewrite andb_true_iff, negb_true_iff.
  destruct (Z.gtb_spec (depositAmount tx) 0),
    (Z.gtb_spec (withdrawalAmount tx) 0); intuition (try lia; congruence).
Qed.

Lemma checkAmountRange_true (tx : TransactionData)
  (rule : ClassificationRule) :
  checkAmountRange tx rule = true <->
  (forall m, min_amount rule = Some m ->
             m <= Z.max (depositAmount tx) (withdrawalAmount tx))
  /\ (forall m, max_amount rule = Some m ->
                Z.max (depositAmount tx) (withdrawalAmount tx) <= m).
Proof.
  unfold checkAmountRange.
  set (amount := Z.max (depositAmount tx) (withdrawalAmount tx)).
  destruct (min_amount rule) as [lo|], (max_amount rule) as [hi|].
  - destruct (Z.ltb_spec amount lo), (Z.gtb_spec amount hi); split;
      try discriminate; try reflexivity.
    all: try (intros [Hlo Hhi]; specialize (Hlo _ eq_refl);
              specialize (Hhi _ eq_refl); lia).
    intros _. split; intros m [= <-]; lia.
  - destruct (Z.ltb_spec amount lo); split;
      try discriminate; try reflexivity.
    + intros [Hlo _]. specialize (Hlo _ eq_refl). lia.
    + intros _. split; [intros m [= <-]; lia | discriminate].
  - destruct (Z.gtb_spec amount hi); split;
      try discriminate; try reflexivity.
    + intros [_ Hhi]. specialize (Hhi _ eq_refl). lia.
    + intros _. split; [discriminate | intros m [= <-]; lia].
  - split; [intros _; split; discriminate | reflexivity].
Qed.

(** The keywords of one kind that [checkKeywordMatching] filters out of a
    rule. *)
Lemma In_filter_kind (kind : KeywordType) (ks : list RuleKeyword)
  (k : RuleKeyword) :
  In k (filter (fun k => keyword_type k = kind) ks) <->
  In k ks /\ keyword_type k = kind.
Proof.
  rewrite <- !list_elem_of_In, list_elem_of_filter. tauto.
Qed.

(** C2.  Exclude dominance.  With the description lower-cased and trimmed,
    a rule one of whose EXCLUDE keywords (lower-cased and trimmed) matches
    it, as a whole word or as a substring, fails the keyword stage and
    therefore does not match, whatever its INCLUDE keywords do; and when no
    EXCLUDE keyword fires and the rule has no INCLUDE keyword, the keyword
    stage passes. *)
Theorem exclude_dominance (tx : TransactionData) (rule : ClassificationRule) :
  let normalized := trim (toLowerCase (description tx)) in
  let fires k :=
    isKeywordMatch normalized (trim (toLowerCase (keyword k))) = true in
  ((exists k, In k (keywords rule) /\ keyword_type k = EXCLUDE /\ fires k) ->
   checkKeywordMatching tx rule = false /\ evaluateRule tx rule = false)
  /\ ((forall k, In k (keywords rule) -> keyword_type k = EXCLUDE ->
                 ~ fires k) ->
      (forall k, In k (keywords rule) -> keyword_type k <> INCLUDE) ->
      checkKeywordMatching tx rule = true).
Proof.
  intros normalized fires. split.
  - intros [k [Hin [Hkind Hfires]]].
    assert (Hstage : checkKeywordMatching tx rule = false).
    { unfold checkKeywordMatching.
      destruct (keywords rule) as [|k0 ks] eqn:Hks; [destruct Hin |].
      rewrite <- Hks in *. fold normalized.
      replace (existsb _ (filter (fun k => keyword_type k = EXCLUDE)
                            (keywords rule))) with true; [reflexivity |].
      symmetry. apply existsb_exists. exists k. split; [| exact Hfires].
      apply In_filter_kind. tauto. }
    split; [exact Hstage |].
    destruct (evaluateRule tx rule) eqn:Hev; [| reflexivity].
    apply evaluateRule_true in Hev. destruct Hev as [_ [_ Hkw]]. congruence.
  - intros Hquiet Hnone. unfold checkKeywordMatching.
    destruct (keywords rule) as [|k0 ks] eqn:Hks; [reflexivity |].
    rewrite <- Hks in *. fold normalized.
    destruct (existsb _ (filter (fun k => keyword_type k = EXCLUDE)
                           (keywords rule))) eqn:Hex.
    + apply existsb_exists in Hex. destruct Hex as [k [Hin Hfires]].
      apply In_filter_kind in Hin. destruct Hin as [Hin Hkind].
      destruct (Hquiet k Hin Hkind Hfires).
    + destruct (filter (fun k => keyword_type k = INCLUDE) (keywords rule))
        as [|k ks'] eqn:Hinc; [reflexivity |].
      assert (Hk : In k (filter (fun k => keyword_type k = INCLUDE)
                           (keywords rule))) by (rewrite Hinc; left; reflexivity).
      apply In_filter_kind in Hk. destruct Hk as [Hin Hkind].
      destruct (Hnone k Hin Hkind).
Qed.

(** C3.  The amount check compares
    [amount = max(depositAmount, withdrawalAmount)] with inclusive bounds:
    it passes exactly when a set [min_amount] is at most the amount and a
    set [max_amount] is at least the amount, a [null] bound imposing
    nothing; so with bounds 1000 and 50000 the amounts 1000 and 50000 pass
    and the amounts 999 and 50001 fail. *)
Theorem amount_range_inclusive (tx : TransactionData)
  (rule : ClassificationRule) :
  let amount := Z.max (depositAmount tx) (withdrawalAmount tx) in
  (checkAmountRange tx rule = true <->
   (forall m, min_amount rule = Some m -> amount >= m)
   /\ (forall m, max_amount rule = Some m -> amount <= m))
  /\ (min_amount rule = Some 1000 -> max_amount rule = Some 50000 ->
      (amount = 1000 -> checkAmountRange tx rule = true)
      /\ (amount = 50000 -> checkAmountRange tx rule = true)
      /\ (amount = 999 -> checkAmountRange tx rule = false)
      /\ (amount = 50001 -> checkAmountRange tx rule = false)).
Proof.
  intros amount. split.
  - rewrite checkAmountRange_true. fold amount. split.
    + intros [Hlo Hhi]. split; [intros m Hm; specialize (Hlo m Hm); lia | exact Hhi].
    + intros [Hlo Hhi]. split; [intros m Hm; specialize (Hlo m Hm); lia | exact Hhi].
  - intros Hlo Hhi. unfold checkAmountRange. fold amount. rewrite Hlo, Hhi.
    repeat split; intros ->; reflexivity.
Qed.

(** C4.  The transaction-type filter: ALL passes unconditionally; for the
    non-negative amounts of a transaction, DEPOSIT passes exactly when
    [depositAmount > 0] and [withdrawalAmount = 0], WITHDRAWAL exactly when
    [withdrawalAmount > 0] and [depositAmount = 0], and a transaction with
    both amounts non-zero fails both; and a DEPOSIT rule does not match a
    transaction with [withdrawalAmount > 0] and [depositAmount = 0]. *)
Theorem transaction_type_filter (tx : TransactionData) :
  checkTransactionType tx ALL = true
  /\ (0 <= depositAmount tx -> 0 <= withdrawalAmount tx ->
      (checkTransactionType tx DEPOSIT = true <->
       depositAmount tx > 0 /\ withdrawalAmount tx = 0)
      /\ (checkTransactionType tx WITHDRAWAL = true <->
          withdrawalAmount tx > 0 /\ depositAmount tx = 0)
      /\ (depositAmount tx <> 0 -> withdrawalAmount tx <> 0 ->
          checkTransactionType tx DEPOSIT = false
          /\ checkTransactionType tx WITHDRAWAL = false))
  /\ (forall rule,
         transaction_type rule = DEPOSIT ->
         withdrawalAmount tx > 0 -> depositAmount tx = 0 ->
         checkTransactionType tx DEPOSIT = false
         /\ evaluateRule tx rule = false).
Proof.
  split; [reflexivity |]. split.
  - intros Hd Hw.
    rewrite checkTransactionType_DEPOSIT, checkTransactionType_WITHDRAWAL.
    repeat split; try lia.
    + destruct (checkTransactionType tx DEPOSIT) eqn:E; [| reflexivity].
      apply checkTransactionType_DEPOSIT in E. lia.
    + destruct (checkTransactionType tx WITHDRAWAL) eqn:E; [| reflexivity].
      apply checkTransactionType_WITHDRAWAL in E. lia.
  - intros rule Hty Hw Hd.
    assert (Hfail : checkTransactionType tx DEPOSIT = false).
    { destruct (checkTransactionType tx DEPOSIT) eqn:E; [| reflexivity].
      apply checkTransactionType_DEPOSIT in E. lia. }
    split; [exact Hfail |].
    destruct (evaluateRule tx rule) eqn:Hev; [| reflexivity].
    apply evaluateRule_true in Hev. rewrite Hty in Hev.
    destruct Hev as [Hev _]. congruence.
Qed.

End MatcherFacts.

(** ** Resolver *)

Section SortFacts.
Context {A : Type} (key : A -> Z).

(** The comparator [(a, b) => key(a) - key(b)]. *)
Local Abbreviation byKey := (fun a b : A => key a - key b).

Lemma sortedInsert_Permutation (x : A) (l : list A) :
  Permutation (sortedInsert byKey x l) (x :: l).
Proof.
  induction l as [|y l IH]; simpl; [reflexivity |].
  destruct (key x - key y >? 0); [| reflexivity].
  rewrite IH. apply perm_swap.
Qed.

Lemma toSorted_Permutation (l : list A) : Permutation (toSorted byKey l) l.
Proof.
  induction l as [|x l IH]; simpl; [reflexivity |].
  rewrite sortedInsert_Permutation, IH. reflexivity.
Qed.

Lemma sortedInsert_sorted (x : A) (l : list A) :
  StronglySorted (fun a b => key a <= key b) l ->
  StronglySorted (fun a b => key a <= key b) (sortedInsert byKey x l).
Proof.
  induction 1 as [|y l Hl IH Hy]; simpl.
  - constructor; [constructor | constructor].
  - destruct (Z.gtb_spec (key x - key y) 0).
    + constructor; [exact IH |].
      rewrite sortedInsert_Permutation. constructor; [lia | exact Hy].
    + constructor; [constructor; assumption |].
      constructor; [lia |].
      eapply Forall_impl; [exact Hy |]. simpl. intros; lia.
Qed.

Lemma toSorted_sorted (l : list A) :
  StronglySorted (fun a b => key a <= key b) (toSorted byKey l).
Proof.
  induction l as [|x l IH]; simpl; [constructor |].
  apply sortedInsert_sorted, IH.
Qed.

(** Stability: the elements of one key keep their input order. *)
Lemma sortedInsert_stable (p : Z) (x : A) (l : list A) :
  List.filter (fun a => key a =? p) (sortedInsert byKey x l)
  = List.filter (fun a => key a =? p) (x :: l).
Proof.
  induction l as [|y l IH]; [reflexivity |].
  cbn [sortedInsert]. cbv beta.
  destruct (Z.gtb_spec (key x - key y) 0) as [Hgt|]; [| reflexivity].
  cbn [List.filter] in *. rewrite IH.
  destruct (Z.eqb_spec (key x) p), (Z.eqb_spec (key y) p);
    try reflexivity; lia.
Qed.

Lemma toSorted_stable (p : Z) (l : list A) :
  List.filter (fun a => key a =? p) (toSorted byKey l)
  = List.filter (fun a => key a =? p) l.
Proof.
  induction l as [|x l IH]; [reflexivity |].
  cbn [toSorted]. rewrite sortedInsert_stable.
  cbn [List.filter]. rewrite IH. reflexivity.
Qed.

(** The first element of the sorted array: the first of the input among
    those of least key. *)
Lemma head_toSorted (l : list A) :
  l <> [] ->
  exists r before after,
    head (toSorted byKey l) = Some r
    /\ l = before ++ r :: after
    /\ (forall x, In x before -> key r < key x)
    /\ (forall x, In x after -> key r <= key x).
Proof.
  induction l as [|x l IH]; [congruence |]. intros _.
  destruct l as [|y l'].
  - exists x, [], []. simpl. repeat split; intros z [].
  - destruct IH as [r [before [after [Hhead [Hl [Hb Ha]]]]]]; [congruence |].
    cbn [toSorted] in *.
    destruct (sortedInsert byKey y (toSorted byKey l')) as [|r' t];
      [discriminate |].
    injection Hhead as ->. cbn [sortedInsert]. cbv beta.
    destruct (Z.gtb_spec (key x - key r) 0) as [Hgt | Hle].
    + exists r, (x :: before), after. rewrite Hl. repeat split.
      * intros z [<- | Hz]; [lia | exact (Hb z Hz)].
      * exact Ha.
    + exists x, [], (y :: l'). repeat split; [intros z [] |].
      intros z Hz. rewrite Hl in Hz. apply in_app_or in Hz.
      destruct Hz as [Hz | [<- | Hz]].
      * specialize (Hb z Hz). lia.
      * lia.
      * specialize (Ha z Hz). lia.
Qed.

End SortFacts.

(** C5.  For a non-empty list of matched rules the resolver returns a rule
    of least priority number, and among the rules of that priority the one
    that comes first in the matched order: every rule before it in the
    list has a strictly greater priority number and every rule after it an
    equal or greater one.  In particular, of two rules with priorities 1
    and 2 the one with priority 1 is selected, in whichever order they
    matched. *)
Theorem selectBestRule_least_priority_first :
  (forall matchedRules : list ClassificationRule,
      matchedRules <> [] ->
      exists selected before after,
        selectBestRule matchedRules = Some selected
        /\ matchedRules = before ++ selected :: after
        /\ (forall r, In r matchedRules -> priority selected <= priority r)
        /\ (forall r, In r before -> priority selected < priority r)
        /\ (forall r, In r after -> priority selected <= priority r))
  /\ (forall r1 r2 : ClassificationRule,
         priority r1 = 1 -> priority r2 = 2 ->
         selectBestRule [r1; r2] = Some r1
         /\ selectBestRule [r2; r1] = Some r1).
Proof.
  split.
  - intros matchedRules Hne.
    destruct (head_toSorted priority matchedRules Hne)
      as [r [before [after [Hhead [Hl [Hb Ha]]]]]].
    exists r, before, after. repeat split; try assumption.
    intros x Hx. rewrite Hl in Hx. apply in_app_or in Hx.
    destruct Hx as [Hx | [<- | Hx]].
    + specialize (Hb x Hx). lia.
    + lia.
    + exact (Ha x Hx).
  - intros r1 r2 H1 H2. unfold selectBestRule. simpl.
    rewrite H1, H2. split; reflexivity.
Qed.

(** ** Rule cache *)

Lemma CACHE_TTL_value : CACHE_TTL = 300000.
Proof. reflexivity. Qed.

(** At a clock reading that is not negative, the cache check succeeds
    exactly on an entry whose expiry lies strictly ahead. *)
Lemma cachedRules_Some (cacheKey : jsstring) (now : Z) (st : ServiceState)
  (rules : list ClassificationRule) :
  0 <= now ->
  cachedRules cacheKey now st = Some rules <->
  rulesCache st !! cacheKey = Some rules
  /\ exists expiresAt,
      cacheExpiry st !! cacheKey = Some expiresAt /\ now < expiresAt.
Proof.
  intros Hnow. unfold cachedRules.
  destruct (rulesCache st !! cacheKey) as [cached|];
    [| split; [discriminate | intros [? _]; discriminate]].
  destruct (cacheExpiry st !! cacheKey) as [expiry|];
    [| split; [discriminate | intros [_ [? [? _]]]; discriminate]].
  split.
  - intros Hc.
    destruct (Z.eqb_spec expiry 0), (Z.gtb_spec expiry now); simpl in Hc;
      try discriminate.
    injection Hc as ->. split; [reflexivity |].
    exists expiry. split; [reflexivity | lia].
  - intros [[= ->] [e [[= <-] He]]].
    destruct (Z.eqb_spec expiry 0), (Z.gtb_spec expiry now); simpl;
      try reflexivity; lia.
Qed.

Lemma cachedRules_updateCache (cacheKey : jsstring)
  (rules : list ClassificationRule) (fetchedAt now : Z) (st : ServiceState) :
  0 <= fetchedAt -> fetchedAt <= now < fetchedAt + CACHE_TTL ->
  cachedRules cacheKey now (updateCache cacheKey rules fetchedAt st)
  = Some rules.
Proof.
  intros H0 Hwin. unfold cachedRules, updateCache. simpl.
  rewrite !lookup_insert_eq.
  destruct (Z.eqb_spec (fetchedAt + CACHE_TTL) 0) as [E|_].
  - unfold CACHE_TTL in *. lia.
  - destruct (Z.gtb_spec (fetchedAt + CACHE_TTL) now); [reflexivity | lia].
Qed.

Lemma cachedRules_invalidate (companyId : jsstring) (now : Z)
  (st : ServiceState) :
  cachedRules (cacheKeyOf companyId) now (invalidateRulesCache companyId st)
  = None.
Proof.
  unfold cachedRules, invalidateRulesCache. simpl.
  rewrite lookup_delete_eq. reflexivity.
Qed.

(** The cache check does not read the invocation log. *)
Lemma cachedRules_recordCall (cacheKey : jsstring) (now : Z)
  (call : StoreCall) (st : ServiceState) :
  cachedRules cacheKey now (recordCall call st) = cachedRules cacheKey now st.
Proof. reflexivity. Qed.

Lemma getCachedRules_hit (companyId : jsstring) (env : Env)
  (st : ServiceState) (rules : list ClassificationRule) :
  cachedRules (cacheKeyOf companyId) (now env) st = Some rules ->
  getCachedRules companyId env st = (Returned rules, st).
Proof. intros Hhit. unfold getCachedRules. rewrite Hhit. reflexivity. Qed.

Lemma getCachedRules_miss (companyId : jsstring) (env : Env)
  (st : ServiceState) :
  cachedRules (cacheKeyOf companyId) (now env) st = None ->
  getCachedRules companyId env st =
  let st1 := recordCall (CallGetRulesByCompany companyId) st in
  match getRulesByCompany (ruleDataService env) companyId with
  | Thrown e => (Thrown e, st1)
  | Returned rules =>
      (Returned rules,
       updateCache (cacheKeyOf companyId) rules (now env) st1)
  end.
Proof. intros Hmiss. unfold getCachedRules. rewrite Hmiss. reflexivity. Qed.

(** A call of [getCachedRules] invokes the store once or not at all. *)
Lemma getCachedRules_calls (companyId : jsstring) (env : Env)
  (st : ServiceState) :
  let st' := (getCachedRules companyId env st).2 in
  storeCalls st' = storeCalls st
  \/ storeCalls st' = storeCalls st ++ [CallGetRulesByCompany companyId].
Proof.
  unfold getCachedRules.
  destruct (cachedRules _ _ st); [left; reflexivity |].
  destruct (getRulesByCompany _ _); right; reflexivity.
Qed.

Lemma getAllCompanyRules_calls (env : Env) (st : ServiceState) :
  let st' := (getAllCompanyRules env st).2 in
  storeCalls st' = storeCalls st
  \/ storeCalls st' = storeCalls st ++ [CallGetAllActiveRules].
Proof.
  unfold getAllCompanyRules.
  destruct (cachedRules _ _ st); [left; reflexivity |].
  destruct (getAllActiveRules _); right; reflexivity.
Qed.

(** C7.  With the clock at or after the epoch: [getCachedRules] serves a
    tenant from the cache exactly when the tenant's entry is strictly
    fresh ([now < expiresAt]), and then touches neither the store nor the
    state; otherwise it invokes the store, and stores what the store
    returns with the expiry [now + 300000] (five minutes).  Hence of two
    calls for one tenant, the second less than one TTL after the first,
    at most one invokes the store, a fetch by the first being served back
    by the second; and the call that follows [invalidateRulesCache] for
    the tenant invokes the store. *)
Theorem rule_cache_freshness (tenant : jsstring) (env : Env)
  (st : ServiceState) :
  0 <= now env ->
  let key := cacheKeyOf tenant in
  let fetch := CallGetRulesByCompany tenant in
  (forall rules,
      cachedRules key (now env) st = Some rules <->
      rulesCache st !! key = Some rules
      /\ exists expiresAt,
          cacheExpiry st !! key = Some expiresAt /\ now env < expiresAt)
  /\ (forall rules,
         cachedRules key (now env) st = Some rules ->
         getCachedRules tenant env st = (Returned rules, st))
  /\ (cachedRules key (now env) st = None ->
      storeCalls (getCachedRules tenant env st).2 = storeCalls st ++ [fetch]
      /\ forall rules,
          getRulesByCompany (ruleDataService env) tenant = Returned rules ->
          exists st',
            getCachedRules tenant env st = (Returned rules, st')
            /\ rulesCache st' !! key = Some rules
            /\ cacheExpiry st' !! key = Some (now env + 300000))
  /\ (forall env2 rules1 st1,
         getCachedRules tenant env st = (Returned rules1, st1) ->
         now env <= now env2 < now env + CACHE_TTL ->
         let st2 := (getCachedRules tenant env2 st1).2 in
         (length (storeCalls st2) <= length (storeCalls st) + 1)%nat
         /\ (storeCalls st1 = storeCalls st ++ [fetch] ->
             getCachedRules tenant env2 st1 = (Returned rules1, st1)))
  /\ (forall env',
         storeCalls
           (getCachedRules tenant env' (invalidateRulesCache tenant st)).2
         = storeCalls st ++ [fetch]).
Proof.
  intros Hnow key fetch.
  split; [intros rules; apply cachedRules_Some, Hnow |].
  split; [intros rules; apply getCachedRules_hit |].
  split; [| split].
  - intros Hmiss. rewrite (getCachedRules_miss _ _ _ Hmiss). simpl. split.
    + destruct (getRulesByCompany _ _); reflexivity.
    + intros rules ->. eexists. split; [reflexivity |].
      simpl. rewrite !lookup_insert_eq. split; reflexivity.
  - intros env2 rules1 st1 Hfirst Hwindow. cbv zeta.
    destruct (cachedRules key (now env) st) as [cached|] eqn:Hc.
    + rewrite (getCachedRules_hit _ _ _ _ Hc) in Hfirst.
      injection Hfirst as <- <-. split.
      * destruct (getCachedRules_calls tenant env2 st) as [-> | ->];
          [lia | rewrite length_app; simpl; lia].
      * intros Hfetched. exfalso. apply (f_equal length) in Hfetched.
        rewrite length_app in Hfetched. simpl in Hfetched. lia.
    + rewrite (getCachedRules_miss _ _ _ Hc) in Hfirst. simpl in Hfirst.
      destruct (getRulesByCompany _ _) as [fetched|]; [| discriminate].
      injection Hfirst as <- <-.
      assert (Hhit : getCachedRules tenant env2
                       (updateCache key fetched (now env)
                          (recordCall fetch st))
                     = (Returned fetched,
                        updateCache key fetched (now env)
                          (recordCall fetch st))).
      { apply getCachedRules_hit, cachedRules_updateCache; assumption. }
      split; [| intros _; exact Hhit].
      unfold key, fetch in Hhit. rewrite Hhit. simpl. rewrite length_app. simpl. lia.
  - intros env'.
    rewrite (getCachedRules_miss _ _ _ (cachedRules_invalidate tenant _ st)).
    simpl. destruct (getRulesByCompany _ _); reflexivity.
Qed.

(** ** Classifier *)

Lemma selectBestRule_nonempty (matchedRules : list ClassificationRule) :
  matchedRules <> [] -> exists r, selectBestRule matchedRules = Some r.
Proof.
  intros Hne.
  destruct (head_toSorted priority matchedRules Hne) as [r [_ [_ [Hr _]]]].
  exists r. exact Hr.
Qed.

Lemma selectBestRule_In (matchedRules : list ClassificationRule)
  (r : ClassificationRule) :
  selectBestRule matchedRules = Some r -> In r matchedRules.
Proof.
  unfold selectBestRule. intros Hhead.
  assert (Hin : In r (toSorted (fun a b => priority a - priority b)
                        matchedRules)).
  { destruct (toSorted _ matchedRules) as [|x t]; [discriminate |].
    injection Hhead as ->. left. reflexivity. }
  eapply Permutation_in; [apply (toSorted_Permutation priority) | exact Hin].
Qed.

Section ClassifierFacts.
Context `{Runtime}.

Lemma classifyTransactionTry_loaded (context : ClassificationContext)
  (env : Env) (st st' : ServiceState) (rules : list ClassificationRule) :
  candidateRules context env st = (Returned rules, st') ->
  classifyTransactionTry context env st =
  (match rules with
   | [] =>
       Returned
         (unclassified
            (if isAdmin (userType context)
             then js "No active rules found for any company"
             else js "No active rules found for company"))
   | _ :: _ =>
       match findMatchingRules (transactionData context) rules with
       | [] => Returned (unclassified (js "No matching rules found"))
       | _ :: _ =>
           match selectBestRule
                   (findMatchingRules (transactionData context) rules) with
           | Some selected =>
               Returned (successOf (transactionData context) selected)
           | None => Thrown typeError
           end
       end
   end, st').
Proof.
  intros Hload. unfold classifyTransactionTry. rewrite Hload.
  destruct rules as [|r rules]; [reflexivity |].
  destruct (findMatchingRules _ _) as [|m ms]; [reflexivity |].
  destruct (selectBestRule _); reflexivity.
Qed.

Lemma classifyTransactionTry_failed (context : ClassificationContext)
  (env : Env) (st st' : ServiceState) (e : jsstring) :
  candidateRules context env st = (Thrown e, st') ->
  classifyTransactionTry context env st = (Thrown e, st').
Proof.
  intros Hload. unfold classifyTransactionTry. rewrite Hload. reflexivity.
Qed.


Lemma classifyTransaction_returns (context : ClassificationContext)
  (env : Env) (st : ServiceState) :
  exists result st',
    classifyTransaction context env st = (Returned result, st').
Proof.
  unfold classifyTransaction.
  destruct (classifyTransactionTry context env st) as [[result|e] st'];
    eauto.
Qed.

(** C6.  [classifyTransaction] always returns a result and never throws:
    an empty candidate rule list gives an unclassified result with the
    no-active-rules reason, a rule list none of whose rules matches gives
    an unclassified result with the no-matching-rule reason, and whatever
    is thrown inside, a failure of the rule store included, becomes an
    unclassified result with the classification-error reason. *)
Theorem classifyTransaction_never_throws (context : ClassificationContext)
  (env : Env) (st : ServiceState) :
  (exists result st',
      classifyTransaction context env st = (Returned result, st'))
  /\ (forall st',
         candidateRules context env st = (Returned [], st') ->
         exists why,
           classifyTransaction context env st
           = (Returned (unclassified why), st')
           /\ isClassified (unclassified why) = false
           /\ why = if isAdmin (userType context)
                    then js "No active rules found for any company"
                    else js "No active rules found for company")
  /\ (forall rules st',
         candidateRules context env st = (Returned rules, st') ->
         rules <> [] ->
         findMatchingRules (transactionData context) rules = [] ->
         classifyTransaction context env st
         = (Returned (unclassified (js "No matching rules found")), st'))
  /\ (forall e st',
         classifyTransactionTry context env st = (Thrown e, st') ->
         classifyTransaction context env st
         = (Returned (unclassified (js "Classification error occurred")),
            st'))
  /\ (forall e st',
         candidateRules context env st = (Thrown e, st') ->
         classifyTransaction context env st
         = (Returned (unclassified (js "Classification error occurred")),
            st')).
Proof.
  split; [| split; [| split; [| split]]].
  - apply classifyTransaction_returns.
  - intros st' Hload. eexists. split; [| split; reflexivity].
    unfold classifyTransaction.
    rewrite (classifyTransactionTry_loaded _ _ _ _ _ Hload). reflexivity.
  - intros rules st' Hload Hne Hnone. unfold classifyTransaction.
    rewrite (classifyTransactionTry_loaded _ _ _ _ _ Hload), Hnone.
    destruct rules; [congruence | reflexivity].
  - intros e st' Hthrown. unfold classifyTransaction. rewrite Hthrown.
    reflexivity.
  - intros e st' Hload. unfold classifyTransaction.
    rewrite (classifyTransactionTry_failed _ _ _ _ _ Hload). reflexivity.
Qed.

End ClassifierFacts.

(** ** Statistics *)

Lemma sumCounts_empty : sumCounts ∅ = 0.
Proof. unfold sumCounts. apply map_fold_empty. Qed.

Lemma sumCounts_insert (m : gmap jsstring Z) (k : jsstring) (v : Z) :
  sumCounts (<[k := v]> m) = sumCounts m + v - default 0 (m !! k).
Proof.
  unfold sumCounts.
  assert (Hcomm : forall (m' : gmap jsstring Z) (j1 j2 : jsstring)
                         (z1 z2 y : Z),
             j1 <> j2 -> m' !! j1 = Some z1 -> m' !! j2 = Some z2 ->
             z1 + (z2 + y) = z2 + (z1 + y)) by (intros; lia).
  destruct (m !! k) as [x|] eqn:Hk; simpl.
  - rewrite <- (insert_delete_eq m k v).
    rewrite map_fold_insert_L;
      [| apply Hcomm | apply lookup_delete_eq].
    rewrite (map_fold_delete_L _ 0 k x m); [lia | apply Hcomm | exact Hk].
  - rewrite map_fold_insert_L; [lia | apply Hcomm | exact Hk].
Qed.

Lemma not_inherited (id : jsstring) :
  id ∉ inheritedNames ->
  strictEq id protoAccessor = false
  /\ bool_decide (id ∈ prototypeMethods) = false.
Proof.
  unfold inheritedNames. intros Hid. split.
  - unfold strictEq. apply bool_decide_eq_false. intros ->.
    apply Hid. left.
  - apply bool_decide_eq_false. intros Hin. apply Hid. right. exact Hin.
Qed.

(** Away from the inherited names the object behaves as a table of
    numbers. *)
Lemma increment_counts (counts : gmap jsstring Z) (id : jsstring) :
  id ∉ inheritedNames ->
  increment (Count <$> counts) id
  = Count <$> <[id := default 0 (counts !! id) + 1]> counts.
Proof.
  intros Hid. destruct (not_inherited id Hid) as [Hproto Hmethod].
  unfold increment. rewrite Hproto, lookup_fmap, fmap_insert.
  destruct (counts !! id) as [n|]; cbn [fmap option_fmap option_map default].
  - destruct (Z.eqb_spec n 0) as [-> |]; reflexivity.
  - rewrite Hmethod. reflexivity.
Qed.

Lemma countable_hasCategory (r : ClassificationResult) :
  countable r -> hasCategory r = true.
Proof.
  intros [id [Hid [Hne _]]]. unfold hasCategory. rewrite Hid.
  destruct id; [congruence | reflexivity].
Qed.

Lemma countCategory_counts (counts : gmap jsstring Z)
  (r : ClassificationResult) :
  (hasCategory r = true -> countable r) ->
  exists counts',
    countCategory (Count <$> counts) r = Count <$> counts'
    /\ sumCounts counts'
       = sumCounts counts + (if hasCategory r then 1 else 0).
Proof.
  intros Hr. unfold countCategory, hasCategory in *.
  destruct (categoryId r) as [id|] eqn:Hid;
    [| exists counts; split; [reflexivity | lia]].
  destruct (truthy id) eqn:Htruthy;
    [| exists counts; split; [reflexivity | lia]].
  destruct (Hr eq_refl) as [id' [Hid' [_ Hown]]].
  rewrite Hid in Hid'. injection Hid' as <-.
  eexists. split; [apply increment_counts; exact Hown |].
  rewrite sumCounts_insert. lia.
Qed.

Lemma foldl_countCategory_counts (rs : list ClassificationResult) :
  (forall r, In r rs -> hasCategory r = true -> countable r) ->
  forall counts,
    exists counts',
      foldl countCategory (Count <$> counts) rs = Count <$> counts'
      /\ sumCounts counts'
         = sumCounts counts + Z.of_nat (length (List.filter hasCategory rs)).
Proof.
  induction rs as [|r rs IH]; intros Hall counts.
  - exists counts. split; [reflexivity | simpl; lia].
  - destruct (countCategory_counts counts r (Hall r (or_introl eq_refl)))
      as [counts1 [Hstep Hsum1]].
    destruct (IH (fun x Hx => Hall x (or_intror Hx)) counts1)
      as [counts' [Hrest Hsum]].
    exists counts'. cbn [foldl]. rewrite Hstep. split; [exact Hrest |].
    rewrite Hsum, Hsum1. cbn [List.filter].
    destruct (hasCategory r); cbn [length]; lia.
Qed.

Lemma filter_all {A} (f : A -> bool) (l : list A) :
  (forall x, In x l -> f x = true) -> List.filter f l = l.
Proof.
  induction l as [|x l IH]; intros Hall; [reflexivity |].
  simpl. rewrite (Hall x (or_introl eq_refl)).
  f_equal. apply IH. intros y Hy. apply Hall. right. exact Hy.
Qed.

(** When every classified result carries a category identifier that is
    not empty and not an inherited name, [categoryStats] holds numbers
    only and they add up to [classifiedCount]. *)
Lemma stats_sum_when_countable (results : list ClassificationResult) :
  (forall r, In r results -> isClassified r = true -> countable r) ->
  exists counts,
    Stats.categoryStats (generateClassificationStats results)
    = Count <$> counts
    /\ sumCounts counts
       = Stats.classifiedCount (generateClassificationStats results).
Proof.
  intros Hcat. unfold generateClassificationStats.
  cbn [Stats.categoryStats Stats.classifiedCount].
  assert (Hall : forall r, In r (List.filter isClassified results) ->
                           countable r).
  { intros r Hr. apply filter_In in Hr. destruct Hr as [Hr Hc].
    exact (Hcat r Hr Hc). }
  destruct (foldl_countCategory_counts (List.filter isClassified results)
              (fun r Hr _ => Hall r Hr) ∅) as [counts [Hfold Hsum]].
  rewrite fmap_empty in Hfold.
  exists counts. split; [exact Hfold |].
  rewrite Hsum, sumCounts_empty.
  rewrite (filter_all hasCategory);
    [lia | intros r Hr; apply countable_hasCategory, Hall, Hr].
Qed.

Section BatchFacts.
Context `{Runtime}.

Lemma classifyInBatch_countable (rules : list ClassificationRule)
  (tx : TransactionData) :
  (forall r, In r rules ->
             category_id r <> [] /\ category_id r ∉ inheritedNames) ->
  isClassified (classifyInBatch rules tx) = true ->
  countable (classifyInBatch rules tx).
Proof.
  intros Hids. unfold classifyInBatch, classifyInBatchTry.
  destruct (findMatchingRules tx rules) as [|m ms] eqn:Hm; [discriminate |].
  destruct (selectBestRule (m :: ms)) as [selected|] eqn:Hsel;
    [| discriminate].
  intros _.
  apply selectBestRule_In in Hsel. rewrite <- Hm in Hsel.
  apply filter_In in Hsel. destruct Hsel as [Hin _].
  destruct (Hids selected Hin) as [Hne Hown].
  exists (category_id selected). split; [reflexivity |]. tauto.
Qed.

Lemma batch_results_countable (companyId : jsstring)
  (transactions : list TransactionData) (env : Env) (st st' : ServiceState)
  (results : list ClassificationResult) :
  classifyTransactionsBatch companyId transactions env st
  = (Returned results, st') ->
  (forall rules st1,
      getCachedRules companyId env st = (Returned rules, st1) ->
      forall r, In r rules ->
                category_id r <> [] /\ category_id r ∉ inheritedNames) ->
  forall r, In r results -> isClassified r = true -> countable r.
Proof.
  unfold classifyTransactionsBatch. intros Hrun Hids.
  destruct transactions as [|tx txs].
  { injection Hrun as <- _. intros r []. }
  destruct (getCachedRules companyId env st) as [[rules|e] st1];
    [| discriminate].
  specialize (Hids rules st1 eq_refl).
  destruct rules as [|rule rules].
  - injection Hrun as <- _. intros r Hr.
    apply (in_map_iff
             (fun _ : TransactionData =>
                unclassified (js "No active rules found for company"))
             (tx :: txs) r) in Hr.
    destruct Hr as [x [<- _]]. discriminate.
  - injection Hrun as <- _. intros r Hr.
    apply (in_map_iff (classifyInBatch (rule :: rules)) (tx :: txs) r) in Hr.
    destruct Hr as [x [<- _]].
    apply classifyInBatch_countable, Hids.
Qed.

End BatchFacts.

(** ** Save-and-classify pipeline *)


Section PipelineFacts.
Context `{Runtime}.
Variable encryptionService : EncryptionService.

Lemma processOneTry_Returned
  (request : Request.TransactionClassificationRequest)
  (parsed : Parsed.ParsedTransaction) (env : StepEnv) (st st' : ServiceState)
  (transaction : Entity.Transaction) (result : ClassificationResult) :
  processOneTry encryptionService request parsed env st
  = (Returned (transaction, result), st') ->
  exists decryptedDescription decryptedBranch,
    classifyTransaction
      (contextOf request parsed decryptedDescription decryptedBranch)
      (classifyEnv env) st = (Returned result, st')
    /\ transaction = buildEntity request parsed result (today env).
Proof.
  unfold processOneTry.
  destruct (decryptIfPresent _ _ _ _) as [desc|]; [| discriminate].
  destruct (decryptIfPresent _ _ _ _) as [br|]; [| discriminate].
  destruct (classifyTransaction _ _ _) as [[cr|] st1] eqn:Hc; [| discriminate].
  intros [= <- <- <-]. exists desc, br. split; [exact Hc | reflexivity].
Qed.

Lemma processLoop_spec
  (request : Request.TransactionClassificationRequest)
  (transactions : list Parsed.ParsedTransaction) :
  forall envs result entities st result' entities' st',
    processLoop encryptionService request transactions envs result entities st
    = (result', entities', st') ->
    balance result' = balance result
    /\ exists added,
        entities' = entities ++ added
        /\ Batch.totalProcessed result'
           = Batch.totalProcessed result + Z.of_nat (length added)
        /\ (length added + length (Batch.errors result')
            = length transactions + length (Batch.errors result))%nat
        /\ Forall (builtFrom encryptionService request transactions) added.
Proof.
  induction transactions as [|parsed rest IH];
    intros envs result entities st result' entities' st' Hrun.
  - injection Hrun as <- <- <-. split; [reflexivity |].
    exists []. rewrite app_nil_r. simpl.
    repeat split; [lia | constructor].
  - cbn [processLoop] in Hrun.
    destruct (processOneTry _ request parsed (envs 0%nat) st)
      as [[[transaction cr]|e] st1] eqn:Hone.
    + apply IH in Hrun.
      destruct Hrun as [Hbal [added [-> [Htot [Herr Hall]]]]].
      split.
      * rewrite Hbal. unfold balance.
        destruct (classifiedWithCategory cr); simpl; lia.
      * exists (transaction :: added). rewrite <- app_assoc.
        split; [reflexivity |]. split; [| split].
        -- rewrite Htot. destruct (classifiedWithCategory cr); simpl length;
             simpl Batch.totalProcessed; lia.
        -- destruct (classifiedWithCategory cr); simpl in Herr |- *; lia.
        -- constructor.
           ++ exists parsed, (envs 0%nat), st, st1, cr.
              split; [left; reflexivity | exact Hone].
           ++ eapply Forall_impl; [exact Hall |].
              intros e [p [env [s [s' [r [Hin Hp]]]]]].
              exists p, env, s, s', r. split; [right; exact Hin | exact Hp].
    + apply IH in Hrun.
      destruct Hrun as [Hbal [added [-> [Htot [Herr Hall]]]]].
      split; [rewrite Hbal; reflexivity |].
      exists added. split; [reflexivity |]. split; [exact Htot |]. split.
      { simpl in Herr |- *. rewrite length_app in Herr. simpl in Herr. lia. }
      eapply Forall_impl; [exact Hall |].
      intros e' [p [env [s [s' [r [Hin Hp]]]]]].
      exists p, env, s, s', r. split; [right; exact Hin | exact Hp].
Qed.

Lemma processBatch_spec
  (request : Request.TransactionClassificationRequest)
  (transactions : list Parsed.ParsedTransaction) (envs : nat -> StepEnv)
  (repository : TransactionRepository) (st st' : PipelineState)
  (result : Batch.ClassificationResult) :
  processBatch encryptionService request transactions envs repository st
  = (Returned result, st') ->
  balance result = 0
  /\ exists saved,
      persisted st' = persisted st ++ saved
      /\ Batch.totalProcessed result = Z.of_nat (length saved)
      /\ (length saved + length (Batch.errors result)
          = length transactions)%nat
      /\ Forall (builtFrom encryptionService request transactions) saved.
Proof.
  unfold processBatch.
  destruct (processLoop _ request transactions envs emptyResult [] (engine st))
    as [[result' entities] engine'] eqn:Hloop.
  apply processLoop_spec in Hloop.
  destruct Hloop as [Hbal [added [Hent [Htot [Herr Hall]]]]].
  simpl in Hent, Herr. subst entities. rewrite Nat.add_0_r in Herr.
  destruct added as [|e added].
  - intros [= <- <-]. split; [exact Hbal |].
    exists []. simpl. rewrite app_nil_r.
    split; [reflexivity |]. split; [exact Htot |].
    split; [exact Herr | constructor].
  - destruct (save repository (e :: added)); [| discriminate].
    intros [= <- <-]. split; [exact Hbal |].
    exists (e :: added). simpl.
    split; [reflexivity |]. split; [exact Htot |].
    split; [exact Herr | exact Hall].
Qed.






Lemma slices_concat (bound : nat)
  (transactions : list Parsed.ParsedTransaction) :
  (length transactions <= bound)%nat ->
  concat (slices bound transactions) = transactions.
Proof.
  revert transactions.
  induction bound as [|bound IH]; intros transactions Hlen.
  - destruct transactions; [reflexivity | simpl in Hlen; lia].
  - destruct transactions as [|p rest]; [reflexivity |].
    change (slices (S bound) (p :: rest))
      with (take BATCH_SIZE (p :: rest)
              :: slices bound (drop BATCH_SIZE (p :: rest))).
    cbn [concat]. rewrite IH; [apply take_drop |].
    rewrite length_drop. unfold BATCH_SIZE. simpl in *. lia.
Qed.

Lemma slices_sizes (bound : nat)
  (transactions : list Parsed.ParsedTransaction) :
  Forall (fun group => (0 < length group <= BATCH_SIZE)%nat)
    (slices bound transactions).
Proof.
  revert transactions.
  induction bound as [|bound IH]; intros transactions; [constructor |].
  destruct transactions as [|p rest]; [constructor |].
  cbn [slices]. constructor; [| apply IH].
  rewrite length_take. unfold BATCH_SIZE. cbn [length]. lia.
Qed.

Lemma saveLoop_balance
  (request : Request.TransactionClassificationRequest)
  (groups : list (list Parsed.ParsedTransaction)) :
  forall envs repositories result st result' st',
    saveLoop encryptionService request groups envs repositories result st
    = (Returned result', st') ->
    balance result' = balance result.
Proof.
  induction groups as [|batch rest IH];
    intros envs repositories result st result' st' Hrun.
  - injection Hrun as <- _. reflexivity.
  - cbn [saveLoop] in Hrun.
    destruct (processBatch _ request batch (envs 0%nat) (repositories 0%nat) st)
      as [[batchResult|e] st1] eqn:Hbatch; [| discriminate].
    apply processBatch_spec in Hbatch. destruct Hbatch as [Hzero _].
    apply IH in Hrun. rewrite Hrun. unfold balance in *. simpl. lia.
Qed.

End PipelineFacts.

Section BatchTheorems.
Context `{Runtime}.

Lemma candidateRules_unprivileged (context : ClassificationContext)
  (env : Env) (st : ServiceState) :
  isAdmin (userType context) = false ->
  candidateRules context env st = getCachedRules (companyId context) env st.
Proof. intros Hu. unfold candidateRules. rewrite Hu. reflexivity. Qed.


(** On a loaded, non-empty rule set the turn of the batch loop and the
    single classification reach the same verdict, up to the
    [actualCompanyId] the batch leaves out. *)
Lemma classifyInBatch_classifyTransaction (context : ClassificationContext)
  (env : Env) (st st' : ServiceState) (rules : list ClassificationRule) :
  candidateRules context env st = (Returned rules, st') ->
  rules <> [] ->
  exists r,
    classifyTransaction context env st = (Returned r, st')
    /\ classifyInBatch rules (transactionData context)
       = withoutActualCompany r.
Proof.
  intros Hload Hne. unfold classifyTransaction.
  rewrite (classifyTransactionTry_loaded _ _ _ _ _ Hload).
  unfold classifyInBatch, classifyInBatchTry.
  destruct rules as [|rule rules]; [congruence |].
  destruct (findMatchingRules _ _) as [|m ms]; [eauto |].
  destruct (selectBestRule _); eauto.
Qed.

Lemma classifyTransactionsBatch_Returned (companyId : jsstring)
  (transactions : list TransactionData) (env : Env) (st st' : ServiceState)
  (results : list ClassificationResult) :
  classifyTransactionsBatch companyId transactions env st
  = (Returned results, st') ->
  exists verdict, results = verdict <$> transactions.
Proof.
  unfold classifyTransactionsBatch.
  destruct transactions as [|tx txs] eqn:Htxs.
  { intros [= <- _]. exists (fun _ => unclassified []). reflexivity. }
  rewrite <- Htxs.
  destruct (getCachedRules companyId env st) as [[rules|e] st1];
    [| discriminate].
  destruct rules; intros Hrun; eexists; symmetry;
    exact (f_equal (fun o => match o.1 with
                             | Returned l => l
                             | Thrown _ => []
                             end) Hrun).
Qed.

(** C1, as the code has it.  A batch call on no transaction returns no
    result and touches neither the cache nor the store.  A batch call on
    at least one transaction loads the rule set once, by
    [getCachedRules(companyId)], which is the loading policy of the single
    classification for a caller that is not an administrator: the store is
    invoked at most once, and only through [getRulesByCompany] for that
    tenant; a failure of the load is thrown to the caller; and every
    transaction gets the verdict of that one rule set, the one the single
    classification of an unprivileged caller returns from the same state,
    less its [actualCompanyId].  The batch has no privileged mode. *)
Theorem batch_loads_tenant_rules_once (tenant : jsstring)
  (transactions : list TransactionData) (env : Env) (st : ServiceState) :
  (transactions = [] ->
   classifyTransactionsBatch tenant transactions env st
   = (Returned [], st))
  /\ (transactions <> [] ->
      (forall e st',
          getCachedRules tenant env st = (Thrown e, st') ->
          classifyTransactionsBatch tenant transactions env st
          = (Thrown e, st'))
      /\ (forall rules st',
             getCachedRules tenant env st = (Returned rules, st') ->
             exists verdict,
               classifyTransactionsBatch tenant transactions env st
               = (Returned (verdict <$> transactions), st')
               /\ verdict
                  = match rules with
                    | [] =>
                        fun _ =>
                          unclassified
                            (js "No active rules found for company")
                    | _ :: _ => classifyInBatch rules
                    end
               /\ (storeCalls st' = storeCalls st
                   \/ storeCalls st'
                      = storeCalls st ++ [CallGetRulesByCompany tenant])
               /\ forall tx user,
                   isAdmin user = false ->
                   exists r,
                     classifyTransaction
                       {| companyId := tenant;
                          transactionData := tx;
                          userType := user |} env st
                     = (Returned r, st')
                     /\ verdict tx = withoutActualCompany r)).
Proof.
  split; [intros ->; reflexivity |].
  intros Hne. unfold classifyTransactionsBatch.
  destruct transactions as [|tx0 txs] eqn:Htxs; [congruence |].
  rewrite <- Htxs. clear Hne. split.
  - intros e st' ->. reflexivity.
  - intros rules st' Hload. rewrite Hload.
    eexists. split; [| split; [reflexivity |]].
    + destruct rules; reflexivity.
    + split.
      * pose proof (getCachedRules_calls tenant env st) as Hcalls.
        rewrite Hload in Hcalls. exact Hcalls.
      * intros tx user Huser.
        set (context := {| companyId := tenant;
                           transactionData := tx;
                           userType := user |}).
        assert (Hcand : candidateRules context env st = (Returned rules, st')).
        { rewrite candidateRules_unprivileged; [exact Hload | exact Huser]. }
        destruct rules as [|rule rules].
        -- eexists. split.
           ++ unfold classifyTransaction.
              rewrite (classifyTransactionTry_loaded _ _ _ _ _ Hcand).
              unfold context. simpl. rewrite Huser. reflexivity.
           ++ reflexivity.
        -- apply (classifyInBatch_classifyTransaction context env st st'
                    (rule :: rules) Hcand). discriminate.
Qed.

End BatchTheorems.

(** C8, where the code departs from it.  [categoryStats] is an object
    literal, so a category identifier that is a name every object inherits
    is not counted.  Two purchases classified by a rule filed under
    [__proto__] give [classifiedCount = 2] and no entry at all, the
    inherited setter dropping the write; filed under [constructor] they
    give one entry that is not a number but a string, the inherited
    method's text followed by ['11'].  In neither case do per-category
    counts add up to [classifiedCount]. *)
Theorem category_counts_miss_inherited_names :
  Stats.classifiedCount (Fixture.statsFiledUnder protoAccessor) = 2
  /\ Stats.unclassifiedCount (Fixture.statsFiledUnder protoAccessor) = 0
  /\ Stats.categoryStats (Fixture.statsFiledUnder protoAccessor) = ∅
  /\ Stats.classifiedCount (Fixture.statsFiledUnder (js "constructor")) = 2
  /\ Stats.categoryStats (Fixture.statsFiledUnder (js "constructor"))
     = {[ js "constructor" := MethodText 2 ]}
  /\ (forall counts,
         Stats.categoryStats (Fixture.statsFiledUnder protoAccessor)
         = Count <$> counts ->
         sumCounts counts
         <> Stats.classifiedCount (Fixture.statsFiledUnder protoAccessor))
  /\ (forall counts,
         Stats.categoryStats (Fixture.statsFiledUnder (js "constructor"))
         <> Count <$> counts).
Proof.
  assert (Hproto : Stats.categoryStats (Fixture.statsFiledUnder protoAccessor)
                   = ∅) by (vm_compute; reflexivity).
  assert (Hmethod :
            Stats.categoryStats (Fixture.statsFiledUnder (js "constructor"))
            !! js "constructor" = Some (MethodText 2))
    by (vm_compute; reflexivity).
  split; [vm_compute; reflexivity |]. split; [vm_compute; reflexivity |].
  split; [exact Hproto |]. split; [vm_compute; reflexivity |].
  split; [vm_compute; reflexivity |]. split.
  - intros counts Hcounts. rewrite Hproto in Hcounts.
    symmetry in Hcounts. apply fmap_empty_inv in Hcounts. subst counts.
    rewrite sumCounts_empty. vm_compute. discriminate.
  - intros counts Hcounts. rewrite Hcounts, lookup_fmap in Hmethod.
    destruct (counts !! js "constructor"); discriminate.
Qed.

Section PipelineTheorems.
Context `{Runtime}.
Variable encryptionService : EncryptionService.

(** X23.  The statistics of a batch run are consistent away from the
    inherited names.  Those [generateClassificationStats] computes satisfy
    [classifiedCount + unclassifiedCount = totalCount]; computed over the
    results of [classifyTransactionsBatch], their total is the number of
    transactions and, the rules of the loaded set carrying category
    identifiers that are not empty and not names an object literal
    inherits, [categoryStats] holds numbers only, which add up to
    [classifiedCount].  The counters [processBatch] and
    [classifyAndSaveTransactions] return satisfy
    [classifiedCount + unclassifiedCount = totalProcessed]. *)
Theorem batch_statistics_consistent :
  (forall results,
      let stats := generateClassificationStats results in
      Stats.classifiedCount stats + Stats.unclassifiedCount stats
      = Stats.totalCount stats)
  /\ (forall companyId transactions env st results st',
         classifyTransactionsBatch companyId transactions env st
         = (Returned results, st') ->
         (forall rules st1,
             getCachedRules companyId env st = (Returned rules, st1) ->
             forall r, In r rules ->
                       category_id r <> []
                       /\ category_id r ∉ inheritedNames) ->
         let stats := generateClassificationStats results in
         Stats.totalCount stats = Z.of_nat (length transactions)
         /\ exists counts,
             Stats.categoryStats stats = Count <$> counts
             /\ sumCounts counts = Stats.classifiedCount stats)
  /\ (forall request transactions envs repository st result st',
         processBatch encryptionService request transactions envs repository
           st = (Returned result, st') ->
         Batch.classifiedCount result + Batch.unclassifiedCount result
         = Batch.totalProcessed result)
  /\ (forall request envs repositories st result st',
         classifyAndSaveTransactions encryptionService request envs
           repositories st = (Returned result, st') ->
         Batch.classifiedCount result + Batch.unclassifiedCount result
         = Batch.totalProcessed result).
Proof.
  split; [| split; [| split]].
  - intros results. simpl. lia.
  - intros companyId transactions env st results st' Hrun Hids. split.
    + destruct (classifyTransactionsBatch_Returned _ _ _ _ _ _ Hrun)
        as [verdict ->].
      simpl. rewrite length_fmap. reflexivity.
    + apply stats_sum_when_countable.
      exact (batch_results_countable _ _ _ _ _ _ Hrun Hids).
  - intros request transactions envs repository st result st' Hrun.
    apply processBatch_spec in Hrun. destruct Hrun as [Hbal _].
    unfold balance in Hbal. lia.
  - intros request envs repositories st result st'.
    unfold classifyAndSaveTransactions.
    destruct (saveLoop _ _ _ _ _ _ _) as [[result'|e] st1] eqn:Hloop;
      [| discriminate].
    intros [= <- <-]. apply saveLoop_balance in Hloop.
    unfold balance in Hloop. simpl in Hloop. lia.
Qed.


End PipelineTheorems.

(** * Further properties of the engine *)

(** ** White space and substrings *)

Lemma isKeywordMatch_includes (description keyword : jsstring) :
  isKeywordMatch description keyword = includes description keyword.
Proof.
  unfold isKeywordMatch.
  destruct (existsb (fun word => strictEq word keyword)
              (splitWhitespace description)) eqn:Hword; [| reflexivity].
  apply existsb_exists in Hword. destruct Hword as [w [Hin Heq]].
  apply strictEq_true in Heq. subst w.
  symmetry. apply includes_spec, splitWhitespace_infix, Hin.
Qed.

Lemma includes_nil (s : jsstring) : includes s [] = true.
Proof. apply includes_spec. exists [], s. reflexivity. Qed.

(** What [trimStart] removes is white space, and what it leaves does not
    start with white space. *)
Lemma trimStart_split (s : jsstring) :
  exists p,
    s = p ++ trimStart s
    /\ Forall (fun c => isWhiteSpace c = true) p
    /\ (forall c t, trimStart s = c :: t -> isWhiteSpace c = false).
Proof.
  induction s as [|c s [p [Hs [Hp Hhead]]]].
  - exists []. repeat split; [constructor | discriminate].
  - simpl. destruct (isWhiteSpace c) eqn:Hc.
    + exists (c :: p). repeat split.
      * simpl. congruence.
      * constructor; assumption.
      * exact Hhead.
    + exists []. repeat split; [constructor |].
      intros c' t [= <- _]. exact Hc.
Qed.

(** The shape of a trimmed string: the string is white space, the trimmed
    string, white space; and the trimmed string, unless empty, begins and
    ends with a code unit that is not white space. *)
Lemma trim_split (s : jsstring) :
  exists p q,
    s = p ++ trim s ++ q
    /\ Forall (fun c => isWhiteSpace c = true) p
    /\ Forall (fun c => isWhiteSpace c = true) q
    /\ (forall c t, trim s = c :: t -> isWhiteSpace c = false)
    /\ (forall c t, trim s = t ++ [c] -> isWhiteSpace c = false).
Proof.
  unfold trim, trimEnd.
  destruct (trimStart_split s) as [p [Hs [Hp Hhead]]].
  set (u := trimStart s) in *.
  destruct (trimStart_split (rev u)) as [q [Hu [Hq Hlast]]].
  set (v := trimStart (rev u)) in *.
  assert (Hu' : u = rev v ++ rev q).
  { rewrite <- (rev_involutive u), Hu, rev_app_distr. reflexivity. }
  exists p, (rev q). split; [rewrite Hs, Hu' at 1; reflexivity |].
  split; [exact Hp |].
  split; [apply Forall_rev; exact Hq |]. split.
  - intros c t Hv. rewrite Hv in Hu'. apply (Hhead c (t ++ rev q)).
    rewrite Hu'. reflexivity.
  - intros c t Hv. apply (Hlast c (rev t)).
    rewrite <- (rev_involutive v), Hv, rev_app_distr. reflexivity.
Qed.

(** A run that starts with a code unit that is not white space lies
    beyond any white space the string starts with. *)
Lemma infix_after_whitespace (p r a w b : jsstring) (c : N) :
  Forall (fun c => isWhiteSpace c = true) p ->
  isWhiteSpace c = false ->
  a ++ (c :: w) ++ b = p ++ r ->
  exists a', r = a' ++ (c :: w) ++ b.
Proof.
  revert a. induction p as [|x p IH]; intros a Hp Hc Heq.
  - exists a. symmetry. exact Heq.
  - inversion Hp as [|? ? Hx Hp']; subst.
    destruct a as [|y a].
    + simpl in Heq. injection Heq as -> _. congruence.
    + simpl in Heq. injection Heq as _ Heq. exact (IH a Hp' Hc Heq).
Qed.

(** A non-empty run whose ends are not white space and that occurs in a
    string occurs in the trimmed string. *)
Lemma includes_trim (s w : jsstring) :
  (forall c t, w = c :: t -> isWhiteSpace c = false) ->
  (forall c t, w = t ++ [c] -> isWhiteSpace c = false) ->
  includes s w = true -> includes (trim s) w = true.
Proof.
  intros Hfirst Hlast Hin.
  destruct w as [|c w]; [apply includes_nil |].
  apply includes_spec in Hin. destruct Hin as [a [b Hs]].
  destruct (trim_split s) as [p [q [Hsplit [Hp [Hq _]]]]].
  rewrite Hsplit in Hs.
  destruct (infix_after_whitespace p (trim s ++ q) a w b c Hp
              (Hfirst c w eq_refl) (eq_sym Hs)) as [a' Ha'].
  (* the same from the right, on the reversed strings *)
  destruct (exists_last (l := c :: w) ltac:(discriminate)) as [w0 [d Hw]].
  assert (Hrev : rev b ++ (d :: rev w0) ++ rev a'
                 = rev q ++ rev (trim s)).
  { rewrite <- (rev_app_distr (trim s) q), Ha'.
    rewrite Hw, !rev_app_distr. simpl. rewrite <- !app_assoc. reflexivity. }
  destruct (infix_after_whitespace (rev q) (rev (trim s)) (rev b) (rev w0)
              (rev a') d (Forall_rev Hq) (Hlast d w0 Hw) Hrev)
    as [b' Hb'].
  apply includes_spec. exists a', (rev b'). rewrite Hw.
  apply (f_equal (@rev N)) in Hb'. rewrite rev_involutive in Hb'.
  rewrite Hb', !rev_app_distr. simpl.
  rewrite !rev_involutive, <- !app_assoc. reflexivity.
Qed.

Lemma includes_trans (s t u : jsstring) :
  includes s t = true -> includes t u = true -> includes s u = true.
Proof.
  rewrite !includes_spec. intros [a [b ->]] [c [d ->]].
  exists (a ++ c), (d ++ b). rewrite <- !app_assoc. reflexivity.
Qed.

Lemma includes_trim_self (s : jsstring) : includes s (trim s) = true.
Proof.
  destruct (trim_split s) as [p [q [Hs _]]].
  apply includes_spec. exists p, q. exact Hs.
Qed.

(** ** Matcher and classifier *)

Lemma filter_cons_inv {A} (f : A -> bool) (l before after : list A) (x : A) :
  List.filter f l = before ++ x :: after ->
  exists l1 l2,
    l = l1 ++ x :: l2
    /\ List.filter f l1 = before
    /\ List.filter f l2 = after.
Proof.
  revert before. induction l as [|y l IH]; intros before Heq.
  - destruct before; discriminate.
  - simpl in Heq. destruct (f y) eqn:Hy.
    + destruct before as [|b before].
      * injection Heq as -> Heq. exists [], l. repeat split. exact Heq.
      * injection Heq as -> Heq.
        destruct (IH before Heq) as [l1 [l2 [-> [H1 H2]]]].
        exists (b :: l1), l2. repeat split; [| exact H2].
        simpl. rewrite Hy, H1. reflexivity.
    + destruct (IH before Heq) as [l1 [l2 [-> [H1 H2]]]].
      exists (y :: l1), l2. repeat split; [| exact H2].
      simpl. rewrite Hy. exact H1.
Qed.

Section EngineFacts.
Context `{Runtime}.

(** The keyword stage in terms of the normalized description and
    keywords. *)
Lemma checkKeywordMatching_true (tx : TransactionData)
  (rule : ClassificationRule) :
  let normalized := trim (toLowerCase (description tx)) in
  let fires k :=
    isKeywordMatch normalized (trim (toLowerCase (keyword k))) = true in
  checkKeywordMatching tx rule = true <->
  (forall k, In k (keywords rule) -> keyword_type k = EXCLUDE -> ~ fires k)
  /\ ((forall k, In k (keywords rule) -> keyword_type k <> INCLUDE)
      \/ exists k,
          In k (keywords rule) /\ keyword_type k = INCLUDE /\ fires k).
Proof.
  intros normalized fires. unfold checkKeywordMatching.
  destruct (keywords rule) as [|k0 ks] eqn:Hks.
  { split; [| reflexivity]. intros _. split; [intros k [] | left; intros k []]. }
  rewrite <- Hks. fold normalized.
  destruct (existsb _ (filter (fun k => keyword_type k = EXCLUDE)
                         (keywords rule))) eqn:Hex.
  - split; [discriminate |]. intros [Hquiet _]. exfalso.
    apply existsb_exists in Hex. destruct Hex as [k [Hin Hk]].
    apply In_filter_kind in Hin. destruct Hin as [Hin Hkind].
    exact (Hquiet k Hin Hkind Hk).
  - assert (Hquiet : forall k, In k (keywords rule) ->
                               keyword_type k = EXCLUDE -> ~ fires k).
    { intros k Hin Hkind Hk.
      assert (Htrue : existsb
                        (fun e => isKeywordMatch normalized
                                    (trim (toLowerCase (keyword e))))
                        (filter (fun k => keyword_type k = EXCLUDE)
                           (keywords rule)) = true).
      { apply existsb_exists. exists k. split; [| exact Hk].
        apply In_filter_kind. tauto. }
      congruence. }
    destruct (filter (fun k => keyword_type k = INCLUDE) (keywords rule))
      as [|i is_] eqn:Hinc.
    + split; [| reflexivity]. intros _. split; [exact Hquiet |].
      left. intros k Hin Hkind.
      assert (Hk : In k (filter (fun k => keyword_type k = INCLUDE)
                           (keywords rule)))
        by (apply In_filter_kind; tauto).
      rewrite Hinc in Hk. destruct Hk.
    + rewrite <- Hinc. split.
      * intros Hsome. split; [exact Hquiet |]. right.
        apply existsb_exists in Hsome. destruct Hsome as [k [Hin Hk]].
        apply In_filter_kind in Hin. exists k. tauto.
      * intros [_ [Hnone | [k [Hin [Hkind Hk]]]]].
        -- exfalso.
           assert (Hi : In i (filter (fun k => keyword_type k = INCLUDE)
                                (keywords rule)))
             by (rewrite Hinc; left; reflexivity).
           apply In_filter_kind in Hi. destruct Hi as [Hi Hkind].
           exact (Hnone i Hi Hkind).
        -- apply existsb_exists. exists k. split; [| exact Hk].
           apply In_filter_kind. tauto.
Qed.

(** X1.  The keyword stage is a matter of substrings alone: it passes
    exactly when no EXCLUDE keyword of the rule, lower-cased and trimmed,
    occurs in the lower-cased and trimmed description, and either the rule
    has no INCLUDE keyword or one of them, lower-cased and trimmed, occurs
    in it. *)
Theorem keyword_stage_by_substring (tx : TransactionData)
  (rule : ClassificationRule) :
  let normalized := trim (toLowerCase (description tx)) in
  let occurs k :=
    includes normalized (trim (toLowerCase (keyword k))) = true in
  checkKeywordMatching tx rule = true <->
  (forall k, In k (keywords rule) -> keyword_type k = EXCLUDE -> ~ occurs k)
  /\ ((forall k, In k (keywords rule) -> keyword_type k <> INCLUDE)
      \/ exists k,
          In k (keywords rule) /\ keyword_type k = INCLUDE /\ occurs k).
Proof.
  intros normalized occurs. rewrite checkKeywordMatching_true.
  fold normalized. unfold occurs.
  split; intros [Hquiet Hsome]; (split;
    [ intros k Hin Hkind; specialize (Hquiet k Hin Hkind);
      rewrite ?isKeywordMatch_includes in *;
      rewrite <- ?isKeywordMatch_includes in *; exact Hquiet
    | destruct Hsome as [Hnone | [k [Hin [Hkind Hk]]]];
      [ left; exact Hnone
      | right; exists k; repeat split; try assumption;
        rewrite ?isKeywordMatch_includes in *;
        rewrite <- ?isKeywordMatch_includes in *; exact Hk ] ]).
Qed.

(** X2.  A keyword that is blank once lower-cased and trimmed occurs in
    every description: as an EXCLUDE keyword it keeps its rule from
    matching any transaction, and as an INCLUDE keyword it lets the
    keyword stage pass whenever no EXCLUDE keyword fires. *)
Theorem blank_keyword (tx : TransactionData) (rule : ClassificationRule)
  (blank : RuleKeyword) :
  In blank (keywords rule) ->
  trim (toLowerCase (keyword blank)) = [] ->
  (keyword_type blank = EXCLUDE ->
   checkKeywordMatching tx rule = false /\ evaluateRule tx rule = false)
  /\ (keyword_type blank = INCLUDE ->
      (checkKeywordMatching tx rule = true <->
       forall k, In k (keywords rule) -> keyword_type k = EXCLUDE ->
                 isKeywordMatch (trim (toLowerCase (description tx)))
                   (trim (toLowerCase (keyword k))) <> true)).
Proof.
  intros Hin Hblank.
  assert (Hfires : isKeywordMatch (trim (toLowerCase (description tx)))
                     (trim (toLowerCase (keyword blank))) = true).
  { rewrite Hblank, isKeywordMatch_includes. apply includes_nil. }
  split.
  - intros Hkind.
    assert (Hstage : checkKeywordMatching tx rule = false).
    { destruct (checkKeywordMatching tx rule) eqn:Hc; [| reflexivity].
      apply checkKeywordMatching_true in Hc. destruct Hc as [Hquiet _].
      destruct (Hquiet blank Hin Hkind Hfires). }
    split; [exact Hstage |].
    destruct (evaluateRule tx rule) eqn:Hev; [| reflexivity].
    apply evaluateRule_true in Hev. destruct Hev as [_ [_ Hkw]]. congruence.
  - intros Hkind. rewrite checkKeywordMatching_true. split.
    + intros [Hquiet _]. exact Hquiet.
    + intros Hquiet. split; [exact Hquiet |]. right. exists blank. tauto.
Qed.

(** X3.  Every keyword reported in [matchedKeywords] is an INCLUDE keyword
    of the rule that the matcher's own keyword test accepts: it occurs,
    lower-cased, in the lower-cased description, and still does once both
    are trimmed. *)
Theorem matched_keywords_fire (tx : TransactionData)
  (rule : ClassificationRule) (text : jsstring) :
  In text (getMatchedKeywords tx rule) ->
  exists k,
    In k (keywords rule)
    /\ keyword_type k = INCLUDE
    /\ keyword k = text
    /\ includes (toLowerCase (description tx)) (toLowerCase text) = true
    /\ isKeywordMatch (trim (toLowerCase (description tx)))
         (trim (toLowerCase text)) = true.
Proof.
  unfold getMatchedKeywords. intros Hin.
  destruct (keywords rule) as [|k0 ks] eqn:Hks; [destruct Hin |].
  rewrite <- Hks in Hin |- *.
  apply (in_map_iff keyword) in Hin. destruct Hin as [k [Htext Hin]].
  apply filter_In in Hin. destruct Hin as [Hin Hocc].
  apply In_filter_kind in Hin. destruct Hin as [Hin Hkind].
  exists k. subst text.
  repeat split; try assumption.
  rewrite isKeywordMatch_includes.
  destruct (trim_split (toLowerCase (keyword k)))
    as [_ [_ [_ [_ [_ [Hfirst Hlast]]]]]].
  apply includes_trim; [exact Hfirst | exact Hlast |].
  exact (includes_trans _ _ _ Hocc (includes_trim_self _)).
Qed.

(** X4.  Once a rule set is loaded, the classifier classifies a
    transaction exactly when some loaded rule matches it.  The winner is
    then a loaded rule that matches, no matching loaded rule has a lower
    priority number, and every matching rule loaded before the winner has
    a strictly greater one. *)
Theorem classified_iff_some_rule_matches (context : ClassificationContext)
  (env : Env) (st st' : ServiceState) (rules : list ClassificationRule) :
  candidateRules context env st = (Returned rules, st') ->
  exists verdict,
    classifyTransaction context env st = (Returned verdict, st')
    /\ (isClassified verdict = true <->
        exists r,
          In r rules /\ evaluateRule (transactionData context) r = true)
    /\ (isClassified verdict = true ->
        exists winner earlier later,
          verdict = successOf (transactionData context) winner
          /\ rules = earlier ++ winner :: later
          /\ evaluateRule (transactionData context) winner = true
          /\ (forall r, In r rules ->
                        evaluateRule (transactionData context) r = true ->
                        priority winner <= priority r)
          /\ (forall r, In r earlier ->
                        evaluateRule (transactionData context) r = true ->
                        priority winner < priority r)).
Proof.
  intros Hload. unfold classifyTransaction.
  rewrite (classifyTransactionTry_loaded _ _ _ _ _ Hload).
  set (tx := transactionData context).
  destruct rules as [|rule0 rules0] eqn:Hrules.
  { eexists. split; [reflexivity |]. split.
    - split; [discriminate | intros [r [[] _]]].
    - discriminate. }
  rewrite <- Hrules in *. clear Hrules rule0 rules0.
  destruct (findMatchingRules tx rules) as [|m ms] eqn:Hm.
  { eexists. split; [reflexivity |]. split.
    - split; [discriminate |]. intros [r [Hin Hr]].
      assert (Hf : In r (findMatchingRules tx rules))
        by (apply filter_In; tauto).
      rewrite Hm in Hf. destruct Hf.
    - discriminate. }
  destruct (head_toSorted priority (m :: ms) ltac:(discriminate))
    as [winner [before [after [Hhead [Hsplit [Hbefore Hafter]]]]]].
  change (head (toSorted (fun a b => priority a - priority b) (m :: ms)))
    with (selectBestRule (m :: ms)) in Hhead.
  rewrite Hhead. eexists. split; [reflexivity |].
  rewrite <- Hm in Hsplit.
  destruct (filter_cons_inv _ _ _ _ _ Hsplit)
    as [earlier [later [Hrules [Hearlier Hlater]]]].
  assert (Hwin : In winner (findMatchingRules tx rules))
    by (rewrite Hsplit; apply in_elt).
  apply filter_In in Hwin. destruct Hwin as [Hwin_in Hwin_ok].
  split.
  - split; [| reflexivity]. intros _. exists winner. tauto.
  - intros _. exists winner, earlier, later.
    repeat split; try assumption.
    + intros r Hin Hr.
      assert (Hf : In r (findMatchingRules tx rules))
        by (apply filter_In; tauto).
      rewrite Hsplit in Hf. apply in_app_or in Hf.
      destruct Hf as [Hf | [<- | Hf]].
      * specialize (Hbefore r Hf). lia.
      * lia.
      * exact (Hafter r Hf).
    + intros r Hin Hr. apply Hbefore. rewrite <- Hearlier.
      apply filter_In. tauto.
Qed.

End EngineFacts.

(** ** Rule cache *)

Lemma getAllCompanyRules_hit (env : Env) (st : ServiceState)
  (rules : list ClassificationRule) :
  cachedRules allCompaniesKey (now env) st = Some rules ->
  getAllCompanyRules env st = (Returned rules, st).
Proof.
  intros Hhit. unfold getAllCompanyRules.
  change (js "rules_all_companies") with allCompaniesKey.
  rewrite Hhit. reflexivity.
Qed.

Lemma getAllCompanyRules_miss (env : Env) (st : ServiceState) :
  cachedRules allCompaniesKey (now env) st = None ->
  getAllCompanyRules env st =
  let st1 := recordCall CallGetAllActiveRules st in
  match getAllActiveRules (ruleDataService env) with
  | Thrown e => (Thrown e, st1)
  | Returned rules =>
      (Returned rules, updateCache allCompaniesKey rules (now env) st1)
  end.
Proof.
  intros Hmiss. unfold getAllCompanyRules.
  change (js "rules_all_companies") with allCompaniesKey.
  rewrite Hmiss. reflexivity.
Qed.

(** X5.  The all-tenant rule set is cached like a tenant's: with the clock
    at or after the epoch, [getAllCompanyRules] serves it from the cache
    exactly while its entry is strictly fresh, and otherwise invokes
    [getAllActiveRules] once and stores what it returns for five minutes;
    of two calls less than one TTL apart, the first of which returns, at
    most one invokes the store. *)
Theorem all_tenant_cache_freshness (env : Env) (st : ServiceState) :
  0 <= now env ->
  (forall rules,
      cachedRules allCompaniesKey (now env) st = Some rules <->
      rulesCache st !! allCompaniesKey = Some rules
      /\ exists expiresAt,
          cacheExpiry st !! allCompaniesKey = Some expiresAt
          /\ now env < expiresAt)
  /\ (forall rules,
         cachedRules allCompaniesKey (now env) st = Some rules ->
         getAllCompanyRules env st = (Returned rules, st))
  /\ (cachedRules allCompaniesKey (now env) st = None ->
      storeCalls (getAllCompanyRules env st).2
      = storeCalls st ++ [CallGetAllActiveRules]
      /\ forall rules,
          getAllActiveRules (ruleDataService env) = Returned rules ->
          exists st',
            getAllCompanyRules env st = (Returned rules, st')
            /\ rulesCache st' !! allCompaniesKey = Some rules
            /\ cacheExpiry st' !! allCompaniesKey
               = Some (now env + 300000))
  /\ (forall env2 rules1 st1,
         getAllCompanyRules env st = (Returned rules1, st1) ->
         now env <= now env2 < now env + CACHE_TTL ->
         (length (storeCalls (getAllCompanyRules env2 st1).2)
          <= length (storeCalls st) + 1)%nat).
Proof.
  intros Hnow.
  split; [intros rules; apply cachedRules_Some, Hnow |].
  split; [intros rules; apply getAllCompanyRules_hit |].
  split.
  - intros Hmiss. rewrite (getAllCompanyRules_miss _ _ Hmiss). simpl. split.
    + destruct (getAllActiveRules _); reflexivity.
    + intros rules ->. eexists. split; [reflexivity |].
      simpl. rewrite !lookup_insert_eq. split; reflexivity.
  - intros env2 rules1 st1 Hfirst Hwindow.
    destruct (cachedRules allCompaniesKey (now env) st) as [cached|] eqn:Hc.
    + rewrite (getAllCompanyRules_hit _ _ _ Hc) in Hfirst.
      injection Hfirst as <- <-.
      destruct (getAllCompanyRules_calls env2 st) as [-> | ->];
        [lia | rewrite length_app; simpl; lia].
    + rewrite (getAllCompanyRules_miss _ _ Hc) in Hfirst. simpl in Hfirst.
      destruct (getAllActiveRules _) as [fetched|]; [| discriminate].
      injection Hfirst as <- <-.
      rewrite (getAllCompanyRules_hit env2 _ fetched).
      * simpl. rewrite length_app. simpl. lia.
      * apply cachedRules_updateCache; assumption.
Qed.

(** X6.  [clearAllCache] empties both maps and leaves the invocation log
    alone; the next load after it, for whichever tenant or for all
    tenants, at whatever time, invokes the store. *)
Theorem clearAllCache_forces_refetch (st : ServiceState) :
  rulesCache (clearAllCache st) = ∅
  /\ cacheExpiry (clearAllCache st) = ∅
  /\ storeCalls (clearAllCache st) = storeCalls st
  /\ (forall tenant env,
         storeCalls (getCachedRules tenant env (clearAllCache st)).2
         = storeCalls st ++ [CallGetRulesByCompany tenant])
  /\ (forall env,
         storeCalls (getAllCompanyRules env (clearAllCache st)).2
         = storeCalls st ++ [CallGetAllActiveRules]).
Proof.
  repeat split.
  - intros tenant env. unfold getCachedRules, cachedRules. simpl.
    rewrite lookup_empty.
    destruct (getRulesByCompany _ _); reflexivity.
  - intros env. unfold getAllCompanyRules, cachedRules. simpl.
    rewrite lookup_empty.
    destruct (getAllActiveRules _); reflexivity.
Qed.

Lemma cacheKeyOf_inj (a b : jsstring) : cacheKeyOf a = cacheKeyOf b -> a = b.
Proof. unfold cacheKeyOf. apply app_inv_head. Qed.

Lemma cacheKeyOf_all (tenant : jsstring) :
  cacheKeyOf tenant = allCompaniesKey <-> tenant = js "all_companies".
Proof.
  split; [| intros ->; reflexivity].
  change allCompaniesKey with (cacheKeyOf (js "all_companies")).
  apply cacheKeyOf_inj.
Qed.

(** What a load or an invalidation under one key leaves of the entry of
    another key. *)
Lemma cachedRules_updateCache_ne (key other : jsstring)
  (rules : list ClassificationRule) (fetchedAt now : Z) (st : ServiceState) :
  key <> other ->
  cachedRules other now (updateCache key rules fetchedAt st)
  = cachedRules other now st.
Proof.
  intros Hne. unfold cachedRules, updateCache. simpl.
  rewrite !lookup_insert_ne by exact Hne. reflexivity.
Qed.

Lemma getCachedRules_frame (tenant other : jsstring) (env : Env) (now' : Z)
  (st : ServiceState) :
  cacheKeyOf tenant <> other ->
  cachedRules other now' (getCachedRules tenant env st).2
  = cachedRules other now' st.
Proof.
  intros Hne. unfold getCachedRules.
  destruct (cachedRules (cacheKeyOf tenant) (now env) st); [reflexivity |].
  destruct (getRulesByCompany _ _); simpl; [| reflexivity].
  rewrite cachedRules_updateCache_ne by exact Hne. reflexivity.
Qed.

Lemma getAllCompanyRules_frame (other : jsstring) (env : Env) (now' : Z)
  (st : ServiceState) :
  allCompaniesKey <> other ->
  cachedRules other now' (getAllCompanyRules env st).2
  = cachedRules other now' st.
Proof.
  intros Hne. unfold getAllCompanyRules.
  change (js "rules_all_companies") with allCompaniesKey.
  destruct (cachedRules allCompaniesKey (now env) st); [reflexivity |].
  destruct (getAllActiveRules _); simpl; [| reflexivity].
  rewrite cachedRules_updateCache_ne by exact Hne. reflexivity.
Qed.

Lemma invalidateRulesCache_frame (tenant other : jsstring) (now' : Z)
  (st : ServiceState) :
  cacheKeyOf tenant <> other ->
  cachedRules other now' (invalidateRulesCache tenant st)
  = cachedRules other now' st.
Proof.
  intros Hne. unfold cachedRules, invalidateRulesCache. simpl.
  rewrite !lookup_delete_ne by exact Hne. reflexivity.
Qed.

(** The outcome of a load depends on the state through the cache check of
    its own key only. *)
Lemma getCachedRules_outcome (tenant : jsstring) (env : Env)
  (st1 st2 : ServiceState) :
  cachedRules (cacheKeyOf tenant) (now env) st1
  = cachedRules (cacheKeyOf tenant) (now env) st2 ->
  (getCachedRules tenant env st1).1 = (getCachedRules tenant env st2).1.
Proof.
  intros Heq. unfold getCachedRules. rewrite Heq.
  destruct (cachedRules _ _ st2); [reflexivity |].
  destruct (getRulesByCompany _ _); reflexivity.
Qed.

Lemma getAllCompanyRules_outcome (env : Env) (st1 st2 : ServiceState) :
  cachedRules allCompaniesKey (now env) st1
  = cachedRules allCompaniesKey (now env) st2 ->
  (getAllCompanyRules env st1).1 = (getAllCompanyRules env st2).1.
Proof.
  intros Heq. unfold getAllCompanyRules.
  change (js "rules_all_companies") with allCompaniesKey. rewrite Heq.
  destruct (cachedRules _ _ st2); [reflexivity |].
  destruct (getAllActiveRules _); reflexivity.
Qed.

(** X7.  Tenants do not see each other's cache entries: what a load or an
    invalidation for one tenant does to the cache changes neither what a
    load for a different tenant returns nor, unless the tenant is named
    [all_companies], what the all-tenant load returns; and an all-tenant
    load changes nothing for a tenant not so named. *)
Theorem cache_entries_are_independent (tenant other : jsstring)
  (env env' : Env) (st : ServiceState) :
  (tenant <> other ->
   (getCachedRules other env' (getCachedRules tenant env st).2).1
   = (getCachedRules other env' st).1
   /\ (getCachedRules other env' (invalidateRulesCache tenant st)).1
      = (getCachedRules other env' st).1)
  /\ (tenant <> js "all_companies" ->
      (getAllCompanyRules env' (getCachedRules tenant env st).2).1
      = (getAllCompanyRules env' st).1
      /\ (getAllCompanyRules env' (invalidateRulesCache tenant st)).1
         = (getAllCompanyRules env' st).1
      /\ (getCachedRules tenant env' (getAllCompanyRules env st).2).1
         = (getCachedRules tenant env' st).1).
Proof.
  split.
  - intros Hne.
    assert (Hkeys : cacheKeyOf tenant <> cacheKeyOf other)
      by (intros Heq; apply Hne, cacheKeyOf_inj, Heq).
    split; apply getCachedRules_outcome.
    + apply getCachedRules_frame, Hkeys.
    + apply invalidateRulesCache_frame, Hkeys.
  - intros Hne.
    assert (Hkeys : cacheKeyOf tenant <> allCompaniesKey)
      by (intros Heq; apply Hne, cacheKeyOf_all, Heq).
    split; [| split].
    + apply getAllCompanyRules_outcome, getCachedRules_frame, Hkeys.
    + apply getAllCompanyRules_outcome, invalidateRulesCache_frame, Hkeys.
    + apply getCachedRules_outcome, getAllCompanyRules_frame.
      intros Heq. apply Hkeys. symmetry. exact Heq.
Qed.

(** A load that returns leaves its rules in the cache, fresh at the
    instant of the load. *)
Lemma getCachedRules_cached (tenant : jsstring) (env : Env)
  (st st' : ServiceState) (rules : list ClassificationRule) :
  0 <= now env ->
  getCachedRules tenant env st = (Returned rules, st') ->
  cachedRules (cacheKeyOf tenant) (now env) st' = Some rules.
Proof.
  intros Hnow Hload.
  destruct (cachedRules (cacheKeyOf tenant) (now env) st) as [cached|] eqn:Hc.
  - rewrite (getCachedRules_hit _ _ _ _ Hc) in Hload.
    injection Hload as <- <-. exact Hc.
  - rewrite (getCachedRules_miss _ _ _ Hc) in Hload. simpl in Hload.
    destruct (getRulesByCompany _ _) as [fetched|]; [| discriminate].
    injection Hload as <- <-.
    apply cachedRules_updateCache; [exact Hnow |]. unfold CACHE_TTL. lia.
Qed.

Lemma getAllCompanyRules_cached (env : Env) (st st' : ServiceState)
  (rules : list ClassificationRule) :
  0 <= now env ->
  getAllCompanyRules env st = (Returned rules, st') ->
  cachedRules allCompaniesKey (now env) st' = Some rules.
Proof.
  intros Hnow Hload.
  destruct (cachedRules allCompaniesKey (now env) st) as [cached|] eqn:Hc.
  - rewrite (getAllCompanyRules_hit _ _ _ Hc) in Hload.
    injection Hload as <- <-. exact Hc.
  - rewrite (getAllCompanyRules_miss _ _ Hc) in Hload. simpl in Hload.
    destruct (getAllActiveRules _) as [fetched|]; [| discriminate].
    injection Hload as <- <-.
    apply cachedRules_updateCache; [exact Hnow |]. unfold CACHE_TTL. lia.
Qed.

(** X8.  The tenant identifier [all_companies] shares its cache key with
    the all-tenant rule set.  Right after an all-tenant load that returns,
    a load for that tenant is answered with the all-tenant rules, the
    store not being asked for the tenant's own, and the other way round;
    and invalidating that tenant's cache drops the all-tenant entry, so
    that the next all-tenant load invokes the store. *)
Theorem all_companies_key_collision (env : Env) (st : ServiceState) :
  0 <= now env ->
  (forall rules st1 env2,
      getAllCompanyRules env st = (Returned rules, st1) ->
      now env2 = now env ->
      getCachedRules (js "all_companies") env2 st1 = (Returned rules, st1))
  /\ (forall rules st1 env2,
         getCachedRules (js "all_companies") env st = (Returned rules, st1) ->
         now env2 = now env ->
         getAllCompanyRules env2 st1 = (Returned rules, st1))
  /\ (forall env2,
         storeCalls
           (getAllCompanyRules env2
              (invalidateRulesCache (js "all_companies") st)).2
         = storeCalls st ++ [CallGetAllActiveRules]).
Proof.
  intros Hnow. split; [| split].
  - intros rules st1 env2 Hload Hsame.
    apply getCachedRules_hit. rewrite Hsame.
    exact (getAllCompanyRules_cached env st st1 rules Hnow Hload).
  - intros rules st1 env2 Hload Hsame.
    apply getAllCompanyRules_hit. rewrite Hsame.
    exact (getCachedRules_cached _ env st st1 rules Hnow Hload).
  - intros env2.
    rewrite getAllCompanyRules_miss.
    + simpl. destruct (getAllActiveRules _); reflexivity.
    + exact (cachedRules_invalidate (js "all_companies") (now env2) st).
Qed.

(** The operations of the cache on a coherent state. *)
Lemma coherent_updateCache (key : jsstring) (rules : list ClassificationRule)
  (fetchedAt : Z) (st : ServiceState) :
  coherent st -> coherent (updateCache key rules fetchedAt st).
Proof.
  intros Hst k. unfold updateCache. simpl.
  destruct (decide (key = k)) as [<- | Hne].
  - rewrite !lookup_insert_eq. split; eauto.
  - rewrite !lookup_insert_ne by exact Hne. apply Hst.
Qed.

Lemma coherent_getCachedRules (tenant : jsstring) (env : Env)
  (st : ServiceState) :
  coherent st -> coherent (getCachedRules tenant env st).2.
Proof.
  intros Hst. unfold getCachedRules.
  destruct (cachedRules _ _ st); [exact Hst |].
  destruct (getRulesByCompany _ _); simpl.
  - apply coherent_updateCache. exact Hst.
  - exact Hst.
Qed.

Lemma coherent_getAllCompanyRules (env : Env) (st : ServiceState) :
  coherent st -> coherent (getAllCompanyRules env st).2.
Proof.
  intros Hst. unfold getAllCompanyRules.
  destruct (cachedRules _ _ st); [exact Hst |].
  destruct (getAllActiveRules _); simpl.
  - apply coherent_updateCache. exact Hst.
  - exact Hst.
Qed.

Section CacheInvariant.
Context `{Runtime}.

Lemma classifyTransaction_state (context : ClassificationContext)
  (env : Env) (st : ServiceState) :
  (classifyTransaction context env st).2 = (candidateRules context env st).2.
Proof.
  unfold classifyTransaction, classifyTransactionTry.
  destruct (candidateRules context env st) as [[rules|e] st1];
    [| reflexivity].
  destruct rules as [|r rules]; [reflexivity |].
  destruct (findMatchingRules _ _); [reflexivity |].
  destruct (selectBestRule _); reflexivity.
Qed.

Lemma classifyTransactionsBatch_state (tenant : jsstring)
  (transactions : list TransactionData) (env : Env) (st : ServiceState) :
  (classifyTransactionsBatch tenant transactions env st).2
  = match transactions with
    | [] => st
    | _ :: _ => (getCachedRules tenant env st).2
    end.
Proof.
  unfold classifyTransactionsBatch.
  destruct transactions; [reflexivity |].
  destruct (getCachedRules tenant env st) as [[rules|e] st1];
    [| reflexivity].
  destruct rules; reflexivity.
Qed.

(** X9.  The two maps of the cache stay in step: a freshly constructed
    service has an entry in neither, and every operation of the service
    (loading for a tenant or for all tenants, classifying one transaction
    or a batch, invalidating, clearing) leaves a rule list under a key
    exactly where it leaves an expiry; so the expiry of a cached rule list
    is never missing. *)
Theorem cache_maps_stay_coherent :
  coherent newService
  /\ forall st,
      coherent st ->
      (forall tenant env, coherent (getCachedRules tenant env st).2)
      /\ (forall env, coherent (getAllCompanyRules env st).2)
      /\ (forall context env, coherent (classifyTransaction context env st).2)
      /\ (forall tenant transactions env,
             coherent
               (classifyTransactionsBatch tenant transactions env st).2)
      /\ (forall tenant, coherent (invalidateRulesCache tenant st))
      /\ coherent (clearAllCache st)
      /\ (forall key rules now,
             cachedRules key now st = None ->
             rulesCache st !! key = Some rules ->
             exists expiry,
               cacheExpiry st !! key = Some expiry
               /\ (expiry = 0 \/ expiry <= now)).
Proof.
  split.
  { intros k. unfold newService. simpl. rewrite !lookup_empty.
    split; intros [? ?]; discriminate. }
  intros st Hst.
  split; [| split; [| split; [| split; [| split; [| split]]]]].
  - intros tenant env. apply coherent_getCachedRules, Hst.
  - intros env. apply coherent_getAllCompanyRules, Hst.
  - intros context env. rewrite classifyTransaction_state.
    unfold candidateRules. destruct (isAdmin _).
    + apply coherent_getAllCompanyRules, Hst.
    + apply coherent_getCachedRules, Hst.
  - intros tenant transactions env. rewrite classifyTransactionsBatch_state.
    destruct transactions; [exact Hst |].
    apply coherent_getCachedRules, Hst.
  - intros tenant k. unfold invalidateRulesCache. simpl.
    destruct (decide (cacheKeyOf tenant = k)) as [<- | Hne].
    + rewrite !lookup_delete_eq. split; intros [? ?]; discriminate.
    + rewrite !lookup_delete_ne by exact Hne. apply Hst.
  - intros k. unfold clearAllCache. simpl. rewrite !lookup_empty.
    split; intros [? ?]; discriminate.
  - intros key rules now Hmiss Hrules.
    destruct (proj1 (Hst key) (ex_intro _ rules Hrules)) as [expiry Hexp].
    exists expiry. split; [exact Hexp |].
    unfold cachedRules in Hmiss. rewrite Hrules, Hexp in Hmiss.
    destruct (Z.eqb_spec expiry 0); [left; assumption |].
    destruct (Z.gtb_spec expiry now); [discriminate | right; lia].
Qed.

(** A miss stays a miss as the clock advances. *)
Lemma cachedRules_later (cacheKey : jsstring) (now later : Z)
  (st : ServiceState) :
  now <= later ->
  cachedRules cacheKey now st = None ->
  cachedRules cacheKey later st = None.
Proof.
  unfold cachedRules. intros Hlater.
  destruct (rulesCache st !! cacheKey); [| reflexivity].
  destruct (cacheExpiry st !! cacheKey) as [expiry|]; [| reflexivity].
  destruct (Z.eqb_spec expiry 0); [reflexivity |].
  destruct (Z.gtb_spec expiry now); [discriminate |].
  destruct (Z.gtb_spec expiry later); [lia | reflexivity].
Qed.

(** X10.  A failed fetch is not cached.  When the store throws during a
    load, neither map changes, the single classification answers with its
    classification-error result, and the next classification for the
    tenant, at that time or at any later one, asks the store again. *)
Theorem failed_fetch_is_not_cached (context : ClassificationContext)
  (env : Env) (st : ServiceState) (e : jsstring) :
  isAdmin (userType context) = false ->
  cachedRules (cacheKeyOf (companyId context)) (now env) st = None ->
  getRulesByCompany (ruleDataService env) (companyId context) = Thrown e ->
  exists st',
    classifyTransaction context env st
    = (Returned (unclassified (js "Classification error occurred")), st')
    /\ rulesCache st' = rulesCache st
    /\ cacheExpiry st' = cacheExpiry st
    /\ forall context2 env2,
        isAdmin (userType context2) = false ->
        companyId context2 = companyId context ->
        now env <= now env2 ->
        storeCalls (classifyTransaction context2 env2 st').2
        = storeCalls st
            ++ [CallGetRulesByCompany (companyId context);
                CallGetRulesByCompany (companyId context)].
Proof.
  intros Huser Hmiss Hthrow.
  assert (Hload : candidateRules context env st
                  = (Thrown e,
                     recordCall (CallGetRulesByCompany (companyId context))
                       st)).
  { unfold candidateRules. rewrite Huser.
    rewrite (getCachedRules_miss _ _ _ Hmiss). simpl. rewrite Hthrow.
    reflexivity. }
  eexists. split.
  { unfold classifyTransaction.
    rewrite (classifyTransactionTry_failed _ _ _ _ _ Hload). reflexivity. }
  split; [reflexivity |]. split; [reflexivity |].
  intros context2 env2 Huser2 Htenant Hlater.
  rewrite classifyTransaction_state. unfold candidateRules.
  rewrite Huser2, Htenant.
  rewrite getCachedRules_miss.
  - destruct (getRulesByCompany (ruleDataService env2) (companyId context));
      simpl; rewrite <- app_assoc; reflexivity.
  - exact (cachedRules_later _ _ _ _ Hlater Hmiss).
Qed.

End CacheInvariant.

(** ** Batch runner and statistics *)

Section BatchComposition.
Context `{Runtime}.

(** The verdict of a loaded rule set on a transaction, as the batch
    reports it. *)
Lemma single_verdict (context : ClassificationContext) (env : Env)
  (st st' : ServiceState) (rules : list ClassificationRule) :
  isAdmin (userType context) = false ->
  candidateRules context env st = (Returned rules, st') ->
  exists r,
    classifyTransaction context env st = (Returned r, st')
    /\ withoutActualCompany r
       = match rules with
         | [] => unclassified (js "No active rules found for company")
         | _ :: _ => classifyInBatch rules (transactionData context)
         end.
Proof.
  intros Huser Hload. destruct rules as [|rule rules].
  - eexists. split.
    + unfold classifyTransaction.
      rewrite (classifyTransactionTry_loaded _ _ _ _ _ Hload), Huser.
      reflexivity.
    + reflexivity.
  - destruct (classifyInBatch_classifyTransaction context env st st'
                (rule :: rules) Hload ltac:(discriminate)) as [r [Hr Hv]].
    exists r. split; [exact Hr | symmetry; exact Hv].
Qed.

Lemma classifyOneByOne_cached (tenant : jsstring) (user : option jsstring)
  (env : Env) (st : ServiceState) (rules : list ClassificationRule)
  (transactions : list TransactionData) :
  isAdmin user = false ->
  cachedRules (cacheKeyOf tenant) (now env) st = Some rules ->
  exists singles,
    classifyOneByOne tenant user transactions env st
    = (Returned <$> singles, st)
    /\ withoutActualCompany <$> singles
       = (fun tx =>
            match rules with
            | [] => unclassified (js "No active rules found for company")
            | _ :: _ => classifyInBatch rules tx
            end) <$> transactions.
Proof.
  intros Huser Hhit.
  induction transactions as [|tx rest [singles [Hrun Hsame]]].
  - exists []. split; reflexivity.
  - set (context := {| companyId := tenant; transactionData := tx;
                       userType := user |}).
    assert (Hload : candidateRules context env st = (Returned rules, st)).
    { rewrite candidateRules_unprivileged by exact Huser.
      apply getCachedRules_hit. exact Hhit. }
    destruct (single_verdict context env st st rules Huser Hload)
      as [r [Hr Hv]].
    exists (r :: singles). split.
    + cbn [classifyOneByOne]. fold context. rewrite Hr, Hrun. reflexivity.
    + cbn [fmap list_fmap]. f_equal; [exact Hv | exact Hsame].
Qed.

(** X11.  The batch agrees with single classifications.  With the clock
    at or after the epoch and a load that returns, classifying the
    transactions of a non-empty list one by one, as a caller that is not
    an administrator and with the same surroundings, yields for every
    transaction the verdict the batch yields, apart from the
    [actualCompanyId] the batch leaves out, and ends in the same state:
    the store is asked at most once either way. *)
Theorem batch_agrees_with_single_calls (tenant : jsstring)
  (user : option jsstring) (transactions : list TransactionData)
  (env : Env) (st st' : ServiceState) (rules : list ClassificationRule) :
  0 <= now env ->
  isAdmin user = false ->
  transactions <> [] ->
  getCachedRules tenant env st = (Returned rules, st') ->
  exists singles,
    classifyOneByOne tenant user transactions env st
    = (Returned <$> singles, st')
    /\ classifyTransactionsBatch tenant transactions env st
       = (Returned (withoutActualCompany <$> singles), st').
Proof.
  intros Hnow Huser Hne Hload.
  destruct transactions as [|tx rest]; [congruence |]. clear Hne.
  set (context := {| companyId := tenant; transactionData := tx;
                     userType := user |}).
  assert (Hcand : candidateRules context env st = (Returned rules, st')).
  { rewrite candidateRules_unprivileged by exact Huser. exact Hload. }
  destruct (single_verdict context env st st' rules Huser Hcand)
    as [r [Hr Hv]].
  destruct (classifyOneByOne_cached tenant user env st' rules rest Huser
              (getCachedRules_cached tenant env st st' rules Hnow Hload))
    as [singles [Hrun Hsame]].
  exists (r :: singles). split.
  - cbn [classifyOneByOne]. fold context. rewrite Hr, Hrun. reflexivity.
  - unfold classifyTransactionsBatch. rewrite Hload.
    cbn [fmap list_fmap]. rewrite Hv.
    change (list_fmap _ _ withoutActualCompany singles)
      with (withoutActualCompany <$> singles).
    rewrite Hsame. destruct rules; reflexivity.
Qed.

End BatchComposition.

Lemma increment_lookup_ne (m : gmap jsstring StatValue)
  (id other : jsstring) :
  id <> other -> increment m id !! other = m !! other.
Proof.
  intros Hne. unfold increment.
  destruct (strictEq id protoAccessor); [reflexivity |].
  destruct (m !! id) as [[n|ones]|];
    [| | destruct (bool_decide (id ∈ prototypeMethods))];
    apply lookup_insert_ne; exact Hne.
Qed.

Lemma increment_lookup_proto (m : gmap jsstring StatValue) (id : jsstring) :
  increment m id !! protoAccessor = m !! protoAccessor.
Proof.
  destruct (decide (id = protoAccessor)) as [-> | Hne].
  - reflexivity.
  - apply increment_lookup_ne. exact Hne.
Qed.

(** No turn of the counting loop stores anything under the empty name or
    under [__proto__]. *)
Lemma foldl_countCategory_unstored (id : jsstring)
  (results : list ClassificationResult) :
  id = [] \/ id = protoAccessor ->
  forall m, foldl countCategory m results !! id = m !! id.
Proof.
  intros Hid. induction results as [|r rs IH]; intros m; [reflexivity |].
  cbn [foldl]. rewrite IH. unfold countCategory.
  destruct (categoryId r) as [rid|]; [| reflexivity].
  destruct rid as [|c rid]; [reflexivity |]. cbn [truthy].
  destruct Hid as [-> | ->].
  - apply increment_lookup_ne. discriminate.
  - apply increment_lookup_proto.
Qed.

Lemma foldl_countCategory_exact (id : jsstring)
  (results : list ClassificationResult) :
  id <> [] -> id <> protoAccessor ->
  foldl countCategory ∅ results !! id
  = match length (List.filter
                    (fun r => bool_decide (categoryId r = Some id)) results)
    with
    | O => None
    | S n =>
        Some (if bool_decide (id ∈ prototypeMethods)
              then MethodText (S n)
              else Count (Z.of_nat (S n)))
    end.
Proof.
  intros Hid Hproto.
  induction results as [|r rs IH] using rev_ind; [apply lookup_empty |].
  rewrite foldl_app, List.filter_app, length_app. cbn [foldl List.filter].
  set (m := foldl countCategory ∅ rs) in *.
  unfold countCategory.
  destruct (categoryId r) as [rid|] eqn:Hr.
  - destruct (decide (rid = id)) as [-> | Hne].
    + rewrite bool_decide_true by reflexivity.
      destruct id as [|c id]; [congruence |]. cbn [truthy length].
      rewrite Nat.add_1_r. unfold increment.
      replace (strictEq (c :: id) protoAccessor) with false
        by (symmetry; apply bool_decide_eq_false; exact Hproto).
      rewrite IH.
      destruct (length _) as [|n].
      * destruct (bool_decide (c :: id ∈ prototypeMethods));
          apply lookup_insert_eq.
      * destruct (bool_decide (c :: id ∈ prototypeMethods));
          rewrite lookup_insert_eq; [reflexivity |].
        do 2 f_equal.
        destruct (Z.eqb_spec (Z.of_nat (S n)) 0); lia.
    + rewrite bool_decide_false by congruence.
      cbn [length]. rewrite Nat.add_0_r.
      destruct (truthy rid); [| exact IH].
      rewrite increment_lookup_ne by exact Hne. exact IH.
  - rewrite bool_decide_false by discriminate.
    cbn [length]. rewrite Nat.add_0_r. exact IH.
Qed.

(** X12.  What the per-category entries are.  In the statistics of a
    result list, a category identifier has an entry exactly when it is not
    empty, is not [__proto__], and some classified result is filed under
    it.  The entry is the number of those results, unless the identifier
    is the name of a method of [Object.prototype]: the entry is then a
    string, the method's text followed by one ['1'] per result. *)
Theorem category_counts_are_exact (results : list ClassificationResult)
  (id : jsstring) :
  Stats.categoryStats (generateClassificationStats results) !! id
  = if truthy id && negb (strictEq id protoAccessor)
    then match filedUnder id results with
         | O => None
         | S n =>
             Some (if bool_decide (id ∈ prototypeMethods)
                   then MethodText (S n)
                   else Count (Z.of_nat (S n)))
         end
    else None.
Proof.
  unfold generateClassificationStats, filedUnder. cbn [Stats.categoryStats].
  destruct id as [|c id].
  { rewrite foldl_countCategory_unstored by (left; reflexivity).
    apply lookup_empty. }
  cbn [truthy andb]. unfold strictEq.
  destruct (decide (c :: id = protoAccessor)) as [Heq | Hne].
  { rewrite bool_decide_true by exact Heq. cbn [negb].
    rewrite foldl_countCategory_unstored by (right; exact Heq).
    apply lookup_empty. }
  rewrite bool_decide_false by exact Hne. cbn [negb].
  rewrite foldl_countCategory_exact by (discriminate || exact Hne).
  assert (Hsame :
            List.filter
              (fun r => bool_decide (categoryId r = Some (c :: id)))
              (List.filter isClassified results)
            = List.filter
                (fun r => isClassified r
                          && bool_decide (categoryId r = Some (c :: id)))
                results).
  { induction results as [|r rs IH]; [reflexivity |].
    cbn [List.filter]. destruct (isClassified r); cbn [List.filter andb].
    - rewrite IH. reflexivity.
    - exact IH. }
  rewrite Hsame. reflexivity.
Qed.

Lemma length_filter_split {A} (f : A -> bool) (l : list A) :
  (length (List.filter f l) + length (List.filter (fun x => negb (f x)) l)
   = length l)%nat.
Proof.
  induction l as [|x l IH]; [reflexivity |].
  simpl. destruct (f x); simpl; lia.
Qed.

(** X13.  The counts of the statistics are counts: [unclassifiedCount],
    which the code obtains by subtraction, is the number of results that
    are not classified, and neither count is negative or exceeds
    [totalCount]. *)
Theorem statistics_counts_are_counts (results : list ClassificationResult) :
  let stats := generateClassificationStats results in
  Stats.unclassifiedCount stats
  = Z.of_nat (length (List.filter (fun r => negb (isClassified r)) results))
  /\ 0 <= Stats.classifiedCount stats <= Stats.totalCount stats
  /\ 0 <= Stats.unclassifiedCount stats <= Stats.totalCount stats.
Proof.
  cbv zeta. unfold generateClassificationStats.
  cbn [Stats.unclassifiedCount Stats.classifiedCount Stats.totalCount].
  pose proof (length_filter_split isClassified results). lia.
Qed.

(** ** Save-and-classify pipeline *)

Lemma payloadOfEntity_buildEntity
  (request : Request.TransactionClassificationRequest)
  (parsed : Parsed.ParsedTransaction) (verdict : ClassificationResult)
  (today : Z) :
  payloadOfEntity (buildEntity request parsed verdict today)
  = payloadOfParsed parsed.
Proof.
  unfold buildEntity. destruct (classifiedCategory verdict); reflexivity.
Qed.

Section PipelineMore.
Context `{Runtime}.
Variable encryptionService : EncryptionService.

Lemma candidateRules_calls (context : ClassificationContext) (env : Env)
  (st : ServiceState) :
  let call :=
    if isAdmin (userType context) then CallGetAllActiveRules
    else CallGetRulesByCompany (companyId context) in
  storeCalls (candidateRules context env st).2 = storeCalls st
  \/ storeCalls (candidateRules context env st).2 = storeCalls st ++ [call].
Proof.
  unfold candidateRules. destruct (isAdmin (userType context)).
  - apply getAllCompanyRules_calls.
  - apply getCachedRules_calls.
Qed.

Lemma processOneTry_calls
  (request : Request.TransactionClassificationRequest)
  (parsed : Parsed.ParsedTransaction) (env : StepEnv) (st : ServiceState) :
  exists calls,
    storeCalls (processOneTry encryptionService request parsed env st).2
    = storeCalls st ++ calls
    /\ Forall (fun call => call = storeCallOf request) calls.
Proof.
  unfold processOneTry.
  destruct (decryptIfPresent _ _ _ _) as [description|];
    [| exists []; rewrite app_nil_r; split; [reflexivity | constructor]].
  destruct (decryptIfPresent _ _ _ _) as [branch|];
    [| exists []; rewrite app_nil_r; split; [reflexivity | constructor]].
  pose proof (classifyTransaction_state
                (contextOf request parsed description branch)
                (classifyEnv env) st) as Hstate.
  pose proof (candidateRules_calls
                (contextOf request parsed description branch)
                (classifyEnv env) st) as Hcalls.
  cbv zeta in Hcalls. rewrite <- Hstate in Hcalls.
  destruct (classifyTransaction _ _ _) as [[verdict|e] st1].
  - simpl in *. destruct Hcalls as [-> | ->].
    + exists []. rewrite app_nil_r. split; [reflexivity | constructor].
    + eexists. split; [reflexivity |].
      constructor; [| constructor]. reflexivity.
  - simpl in *. destruct Hcalls as [-> | ->].
    + exists []. rewrite app_nil_r. split; [reflexivity | constructor].
    + eexists. split; [reflexivity |].
      constructor; [| constructor]. reflexivity.
Qed.

Lemma processLoop_calls
  (request : Request.TransactionClassificationRequest)
  (transactions : list Parsed.ParsedTransaction) :
  forall envs result entities st,
  exists calls,
    storeCalls
      (processLoop encryptionService request transactions envs result
         entities st).2
    = storeCalls st ++ calls
    /\ Forall (fun call => call = storeCallOf request) calls.
Proof.
  induction transactions as [|parsed rest IH];
    intros envs result entities st.
  - exists []. rewrite app_nil_r. split; [reflexivity | constructor].
  - cbn [processLoop].
    destruct (processOneTry_calls request parsed (envs 0%nat) st)
      as [calls1 [Hcalls1 Hall1]].
    destruct (processOneTry _ request parsed (envs 0%nat) st)
      as [[[transaction verdict]|e] st1]; simpl in Hcalls1.
    + edestruct IH as [calls2 [Hcalls2 Hall2]].
      exists (calls1 ++ calls2). split.
      * rewrite Hcalls2, Hcalls1, app_assoc. reflexivity.
      * apply Forall_app. split; assumption.
    + edestruct IH as [calls2 [Hcalls2 Hall2]].
      exists (calls1 ++ calls2). split.
      * rewrite Hcalls2, Hcalls1, app_assoc. reflexivity.
      * apply Forall_app. split; assumption.
Qed.

Lemma processBatch_engine
  (request : Request.TransactionClassificationRequest)
  (transactions : list Parsed.ParsedTransaction) (envs : nat -> StepEnv)
  (repository : TransactionRepository) (st : PipelineState) :
  engine (processBatch encryptionService request transactions envs
            repository st).2
  = (processLoop encryptionService request transactions envs emptyResult []
       (engine st)).2.
Proof.
  unfold processBatch.
  destruct (processLoop _ _ _ _ _ _ _) as [[result entities] engine'].
  destruct entities; [reflexivity |].
  destruct (save repository _); reflexivity.
Qed.

(** X14.  A run of [processBatch] asks the rule store for one thing only:
    every invocation it adds to the log is the all-tenant query when the
    request is an administrator's and the query for the requested tenant
    otherwise, whether the run returns or throws. *)
Theorem pipeline_store_calls
  (request : Request.TransactionClassificationRequest)
  (transactions : list Parsed.ParsedTransaction) (envs : nat -> StepEnv)
  (repository : TransactionRepository) (st : PipelineState) :
  exists calls,
    storeCalls
      (engine (processBatch encryptionService request transactions envs
                 repository st).2)
    = storeCalls (engine st) ++ calls
    /\ (Request.userType request = ADMIN ->
        Forall (fun call => call = CallGetAllActiveRules) calls)
    /\ (Request.userType request <> ADMIN ->
        Forall
          (fun call =>
             call = CallGetRulesByCompany (Request.companyId request))
          calls).
Proof.
  rewrite processBatch_engine.
  destruct (processLoop_calls request transactions envs emptyResult []
              (engine st)) as [calls [Hcalls Hall]].
  exists calls. split; [exact Hcalls |]. unfold storeCallOf in Hall. split.
  - intros Hadmin. rewrite Hadmin in Hall.
    unfold strictEq in Hall. rewrite bool_decide_true in Hall by reflexivity.
    exact Hall.
  - intros Huser. unfold strictEq in Hall.
    rewrite bool_decide_false in Hall by exact Huser. exact Hall.
Qed.

Lemma processOneTry_payload
  (request : Request.TransactionClassificationRequest)
  (parsed : Parsed.ParsedTransaction) (env : StepEnv) (st st' : ServiceState)
  (transaction : Entity.Transaction) (verdict : ClassificationResult) :
  processOneTry encryptionService request parsed env st
  = (Returned (transaction, verdict), st') ->
  payloadOfEntity transaction = payloadOfParsed parsed.
Proof.
  intros Hone. apply processOneTry_Returned in Hone.
  destruct Hone as [description [branch [_ ->]]].
  apply payloadOfEntity_buildEntity.
Qed.

Lemma processLoop_payload
  (request : Request.TransactionClassificationRequest)
  (transactions : list Parsed.ParsedTransaction) :
  forall envs result entities st result' entities' st',
    processLoop encryptionService request transactions envs result entities st
    = (result', entities', st') ->
    exists added,
      entities' = entities ++ added
      /\ (payloadOfEntity <$> added)
           `sublist_of` (payloadOfParsed <$> transactions)
      /\ (length added = length transactions ->
          payloadOfEntity <$> added = payloadOfParsed <$> transactions).
Proof.
  induction transactions as [|parsed rest IH];
    intros envs result entities st result' entities' st' Hrun.
  - injection Hrun as _ <- _. exists []. rewrite app_nil_r.
    repeat split; constructor.
  - cbn [processLoop] in Hrun.
    destruct (processOneTry _ request parsed (envs 0%nat) st)
      as [[[transaction verdict]|e] st1] eqn:Hone.
    + apply processOneTry_payload in Hone.
      apply IH in Hrun. destruct Hrun as [added [-> [Hsub Heq]]].
      exists (transaction :: added). rewrite <- app_assoc.
      split; [reflexivity |]. cbn [fmap list_fmap]. rewrite Hone. split.
      * apply sublist_skip. exact Hsub.
      * intros Hlen. simpl in Hlen. f_equal. apply Heq. lia.
    + apply IH in Hrun. destruct Hrun as [added [-> [Hsub Heq]]].
      exists added. split; [reflexivity |]. cbn [fmap list_fmap]. split.
      * apply sublist_cons. exact Hsub.
      * intros Hlen. exfalso. apply sublist_length in Hsub.
        rewrite !length_fmap in Hsub. simpl in Hlen. lia.
Qed.

(** X15.  What is persisted is what was parsed.  The entities one run of
    [processBatch] saves carry, in the order of the input, the date, the
    encrypted description, the amounts, the balance and the encrypted
    branch of transactions of the group, unchanged; none is invented or
    repeated, and when the run reports no error there is one entity per
    transaction. *)
Theorem persisted_entities_keep_parsed_fields
  (request : Request.TransactionClassificationRequest)
  (transactions : list Parsed.ParsedTransaction) (envs : nat -> StepEnv)
  (repository : TransactionRepository) (st st' : PipelineState)
  (result : Batch.ClassificationResult) :
  processBatch encryptionService request transactions envs repository st
  = (Returned result, st') ->
  exists saved,
    persisted st' = persisted st ++ saved
    /\ (payloadOfEntity <$> saved)
         `sublist_of` (payloadOfParsed <$> transactions)
    /\ (Batch.errors result = [] ->
        payloadOfEntity <$> saved = payloadOfParsed <$> transactions).
Proof.
  intros Hrun. pose proof Hrun as Hspec.
  apply processBatch_spec in Hspec.
  destruct Hspec as [_ [saved [Hsaved [_ [Hcount _]]]]].
  unfold processBatch in Hrun.
  destruct (processLoop _ request transactions envs emptyResult [] (engine st))
    as [[result' entities] engine'] eqn:Hloop.
  apply processLoop_payload in Hloop.
  destruct Hloop as [added [Hadded [Hsub Heq]]]. simpl in Hadded. subst.
  assert (Hsame : saved = added).
  { destruct added as [|e added].
    - injection Hrun as _ <-. simpl in Hsaved.
      rewrite <- (app_nil_r (persisted st)) in Hsaved at 1.
      apply app_inv_head in Hsaved. congruence.
    - destruct (save repository (e :: added)); [| discriminate].
      injection Hrun as _ <-. simpl in Hsaved.
      apply app_inv_head in Hsaved. congruence. }
  subst saved. exists added. split; [exact Hsaved |].
  split; [exact Hsub |].
  intros Herr. apply Heq. rewrite Herr in Hcount. simpl in Hcount. lia.
Qed.

Lemma processBatch_Thrown
  (request : Request.TransactionClassificationRequest)
  (transactions : list Parsed.ParsedTransaction) (envs : nat -> StepEnv)
  (repository : TransactionRepository) (st st' : PipelineState)
  (message : jsstring) :
  processBatch encryptionService request transactions envs repository st
  = (Thrown message, st') ->
  message = saveErrorMessage
  /\ persisted st' = persisted st
  /\ exists entities cause,
      entities <> []
      /\ save repository entities = Thrown cause.
Proof.
  unfold processBatch.
  destruct (processLoop _ request transactions envs emptyResult [] (engine st))
    as [[result' entities] engine'].
  intros Hrun.
  destruct entities as [|e entities]; [discriminate |].
  destruct (save repository (e :: entities)) as [|cause] eqn:Hsave;
    [discriminate |].
  injection Hrun as <- <-. repeat split.
  exists (e :: entities), cause. split; [discriminate | exact Hsave].
Qed.

(** X16.  [processBatch] throws only because of persistence.  If it
    throws, the message is the fixed database-save message whatever the
    repository threw, some entity had been built, [save] threw on the
    entities, and nothing was added to what is persisted; and with a
    repository whose [save] does not throw it returns. *)
Theorem processBatch_throws_only_on_save
  (request : Request.TransactionClassificationRequest)
  (transactions : list Parsed.ParsedTransaction) (envs : nat -> StepEnv)
  (repository : TransactionRepository) (st : PipelineState) :
  (forall message st',
      processBatch encryptionService request transactions envs repository st
      = (Thrown message, st') ->
      message = saveErrorMessage
      /\ persisted st' = persisted st
      /\ exists entities cause,
          entities <> []
          /\ save repository entities = Thrown cause)
  /\ ((forall entities, save repository entities = Returned ()) ->
      exists result st',
        processBatch encryptionService request transactions envs repository
          st = (Returned result, st')).
Proof.
  split.
  - intros message st' Hrun. exact (processBatch_Thrown _ _ _ _ _ _ _ Hrun).
  - unfold processBatch.
    destruct (processLoop _ request transactions envs emptyResult []
                (engine st)) as [[result' entities] engine'].
    intros Hsave. destruct entities as [|e entities]; [eauto |].
    rewrite Hsave. eauto.
Qed.

End PipelineMore.

Lemma slices_nil (bound : nat) : slices bound [] = [].
Proof. destruct bound; reflexivity. Qed.

Lemma slices_cons (bound : nat) (p : Parsed.ParsedTransaction)
  (rest : list Parsed.ParsedTransaction) :
  slices (S bound) (p :: rest)
  = take BATCH_SIZE (p :: rest)
      :: slices bound (drop BATCH_SIZE (p :: rest)).
Proof. reflexivity. Qed.

(** A group that is followed by another one is full. *)
Lemma slices_full (bound : nat) :
  forall transactions before group after,
    slices bound transactions = before ++ group :: after ->
    after <> [] ->
    length group = BATCH_SIZE.
Proof.
  induction bound as [|bound IH];
    intros transactions before group after Heq Hafter.
  - destruct before; discriminate.
  - destruct transactions as [|p rest]; [destruct before; discriminate |].
    rewrite slices_cons in Heq.
    destruct before as [|g before].
    + assert (Hg : take BATCH_SIZE (p :: rest) = group)
        by (cbn [app] in Heq; congruence).
      assert (Hrest : slices bound (drop BATCH_SIZE (p :: rest)) = after)
        by (cbn [app] in Heq; congruence).
      rewrite <- Hg, length_take. apply Nat.min_l.
      destruct (drop BATCH_SIZE (p :: rest)) as [|q more] eqn:Hdrop.
      * rewrite slices_nil in Hrest. congruence.
      * apply (f_equal length) in Hdrop. rewrite length_drop in Hdrop.
        cbn [length] in Hdrop |- *. lia.
    + assert (Hrest : slices bound (drop BATCH_SIZE (p :: rest))
                      = before ++ group :: after)
        by (cbn [app] in Heq; congruence).
      exact (IH _ _ _ _ Hrest Hafter).
Qed.

(** X17.  The groups of [classifyAndSaveTransactions] are the
    transactions, in order and without loss, cut into runs of exactly
    [BATCH_SIZE] = 100 except for the last, which is not empty and not
    longer; so [n] transactions make [k] groups with
    [100 (k - 1) < n <= 100 k]. *)
Theorem groups_of_one_hundred
  (transactions : list Parsed.ParsedTransaction) :
  let groups := slices (length transactions) transactions in
  concat groups = transactions
  /\ Forall (fun group => (0 < length group <= 100)%nat) groups
  /\ (forall before group after,
         groups = before ++ group :: after -> after <> [] ->
         length group = 100%nat)
  /\ (length transactions <= 100 * length groups
      /\ 100 * length groups < length transactions + 100)%nat.
Proof.
  cbv zeta. split; [apply slices_concat; lia |].
  split; [apply slices_sizes |].
  split; [apply slices_full |].
  assert (Hcount : forall bound l,
             (length l <= bound)%nat ->
             (length l <= 100 * length (slices bound l)
              /\ 100 * length (slices bound l) < length l + 100)%nat).
  { induction bound as [|bound IH]; intros l Hlen.
    - destruct l; simpl in *; lia.
    - destruct l as [|p rest]; [simpl; lia |].
      rewrite slices_cons. cbn [length].
      specialize (IH (drop BATCH_SIZE (p :: rest))).
      rewrite length_drop in IH. unfold BATCH_SIZE in IH |- *.
      cbn [length] in IH, Hlen. lia. }
  apply Hcount. lia.
Qed.

Section SaveLoopFacts.
Context `{Runtime}.
Variable encryptionService : EncryptionService.

Lemma saveLoop_Returned
  (request : Request.TransactionClassificationRequest)
  (groups : list (list Parsed.ParsedTransaction)) :
  forall envs repositories result st result' st',
    saveLoop encryptionService request groups envs repositories result st
    = (Returned result', st') ->
    exists saved,
      persisted st' = persisted st ++ saved
      /\ Batch.totalProcessed result'
         = Batch.totalProcessed result + Z.of_nat (length saved)
      /\ (length saved + length (Batch.errors result')
          = length (concat groups) + length (Batch.errors result))%nat.
Proof.
  induction groups as [|batch rest IH];
    intros envs repositories result st result' st' Hrun.
  - injection Hrun as <- <-. exists []. rewrite app_nil_r. simpl.
    repeat split; lia.
  - cbn [saveLoop] in Hrun.
    destruct (processBatch _ request batch (envs 0%nat) (repositories 0%nat) st)
      as [[batchResult|e] st1] eqn:Hbatch; [| discriminate].
    apply processBatch_spec in Hbatch.
    destruct Hbatch as [_ [saved1 [Hsaved1 [Htot1 [Hcount1 _]]]]].
    apply IH in Hrun. destruct Hrun as [saved2 [Hsaved2 [Htot2 Hcount2]]].
    exists (saved1 ++ saved2). split; [| split].
    + rewrite Hsaved2, Hsaved1, app_assoc. reflexivity.
    + rewrite Htot2. simpl. rewrite Htot1, length_app. lia.
    + simpl in Hcount2. rewrite !length_app in Hcount2.
      cbn [concat]. rewrite !length_app. lia.
Qed.

Lemma saveLoop_Thrown
  (request : Request.TransactionClassificationRequest)
  (groups : list (list Parsed.ParsedTransaction)) :
  forall envs repositories result st message st',
    saveLoop encryptionService request groups envs repositories result st
    = (Thrown message, st') ->
    exists saved, persisted st' = persisted st ++ saved.
Proof.
  induction groups as [|batch rest IH];
    intros envs repositories result st message st' Hrun; [discriminate |].
  cbn [saveLoop] in Hrun.
  destruct (processBatch _ request batch (envs 0%nat) (repositories 0%nat) st)
    as [[batchResult|e] st1] eqn:Hbatch.
  - apply processBatch_spec in Hbatch.
    destruct Hbatch as [_ [saved1 [Hsaved1 _]]].
    apply IH in Hrun. destruct Hrun as [saved2 Hsaved2].
    exists (saved1 ++ saved2). rewrite Hsaved2, Hsaved1, app_assoc.
    reflexivity.
  - injection Hrun as _ <-.
    destruct (processBatch_Thrown encryptionService _ _ _ _ _ _ _ Hbatch)
      as [_ [Hsame _]].
    exists []. rewrite app_nil_r. exact Hsame.
Qed.

(** X18.  The totals of a whole run.  When [classifyAndSaveTransactions]
    returns, what it has persisted is [totalProcessed] entities, and every
    transaction of the request is accounted for, as a processed one or as
    an error message.  When it throws, the message is the fixed pipeline
    message, and what earlier groups had persisted stays persisted. *)
Theorem run_totals (request : Request.TransactionClassificationRequest)
  (envs : nat -> nat -> StepEnv) (repositories : nat -> TransactionRepository)
  (st : PipelineState) :
  (forall result st',
      classifyAndSaveTransactions encryptionService request envs
        repositories st = (Returned result, st') ->
      exists saved,
        persisted st' = persisted st ++ saved
        /\ Batch.totalProcessed result = Z.of_nat (length saved)
        /\ (length saved + length (Batch.errors result)
            = length (Request.transactions request))%nat)
  /\ (forall message st',
         classifyAndSaveTransactions encryptionService request envs
           repositories st = (Thrown message, st') ->
         message = pipelineErrorMessage
         /\ exists saved, persisted st' = persisted st ++ saved).
Proof.
  unfold classifyAndSaveTransactions.
  destruct (saveLoop _ _ _ _ _ _ _) as [[result'|e] st1] eqn:Hloop; split.
  - intros result st' [= <- <-].
    apply saveLoop_Returned in Hloop.
    destruct Hloop as [saved [Hsaved [Htot Hcount]]].
    exists saved. split; [exact Hsaved |]. split; [exact Htot |].
    rewrite slices_concat in Hcount by lia. simpl in Hcount. lia.
  - discriminate.
  - discriminate.
  - intros message st' [= <- <-]. split; [reflexivity |].
    exact (saveLoop_Thrown _ _ _ _ _ _ _ _ Hloop).
Qed.

End SaveLoopFacts.

(** ** Reclassification *)

Lemma classifiedCategory_Some (r : ClassificationResult) (id : jsstring) :
  classifiedCategory r = Some id ->
  isClassified r = true /\ categoryId r = Some id /\ id <> [].
Proof.
  unfold classifiedCategory.
  destruct (isClassified r); [| discriminate].
  destruct (categoryId r) as [[|c rid]|]; try discriminate.
  intros [= <-]. repeat split. discriminate.
Qed.

Section ReclassifyFacts.
Context `{Runtime}.
Variable encryptionService : EncryptionService.

Lemma reclassifyOneTry_spec (companyId : jsstring)
  (transaction : Stored.Row) (env : StepEnv)
  (repository : UnclassifiedRepository) (st : ServiceState) :
  let out :=
    reclassifyOneTry encryptionService companyId transaction env repository st
  in
  (exists calls,
      storeCalls out.2 = storeCalls st ++ calls
      /\ Forall (fun call => call = CallGetRulesByCompany companyId) calls)
  /\ (forall saved,
         out.1 = Returned (Some saved) ->
         rewritten companyId [transaction] saved
         /\ saveRow repository saved = Returned ()).
Proof.
  cbv zeta. unfold reclassifyOneTry.
  assert (Hnone : forall s : ServiceState,
             exists calls,
               storeCalls s = storeCalls s ++ calls
               /\ Forall (fun call => call = CallGetRulesByCompany companyId)
                    calls).
  { intros s. exists []. rewrite app_nil_r. split; [reflexivity | constructor]. }
  destruct (decrypt encryptionService _) as [description|];
    [| split; [apply Hnone | discriminate]].
  destruct (decryptIfPresent _ _ _ _) as [branch|];
    [| split; [apply Hnone | discriminate]].
  set (context := reclassifyContextOf companyId transaction description
                    branch).
  pose proof (classifyTransaction_state context (classifyEnv env) st)
    as Hstate.
  pose proof (getCachedRules_calls companyId (classifyEnv env) st) as Hcalls.
  cbv zeta in Hcalls.
  change (getCachedRules companyId (classifyEnv env) st)
    with (candidateRules context (classifyEnv env) st) in Hcalls.
  rewrite <- Hstate in Hcalls.
  destruct (classifyTransaction context (classifyEnv env) st)
    as [[verdict|e] st1]; simpl in Hcalls.
  - assert (Hlog : exists calls,
               storeCalls st1 = storeCalls st ++ calls
               /\ Forall (fun call => call = CallGetRulesByCompany companyId)
                    calls).
    { destruct Hcalls as [-> | ->]; [apply Hnone |].
      eexists. split; [reflexivity |]. constructor; [| constructor].
      reflexivity. }
    destruct (classifiedCategory verdict) as [id|] eqn:Hid.
    + destruct (saveRow repository _) as [[]|e] eqn:Hsave; simpl.
      * split; [exact Hlog |]. intros saved [= <-]. split; [| exact Hsave].
        exists transaction, id, (today env).
        apply classifiedCategory_Some in Hid.
        split; [left; reflexivity |]. split; [tauto | reflexivity].
      * split; [exact Hlog | discriminate].
    + split; [exact Hlog | discriminate].
  - simpl. split; [| discriminate].
    destruct Hcalls as [-> | ->]; [apply Hnone |].
    eexists. split; [reflexivity |]. constructor; [| constructor].
    reflexivity.
Qed.

Lemma reclassifyLoop_spec (companyId : jsstring)
  (repository : UnclassifiedRepository) (transactions : list Stored.Row) :
  forall envs result st,
    let out :=
      reclassifyLoop encryptionService companyId transactions envs repository
        result st in
    balance out.1 = balance result
    /\ (Z.to_nat (Batch.totalProcessed out.1 - Batch.totalProcessed result)
        + length (Batch.errors out.1)
        = length transactions + length (Batch.errors result))%nat
    /\ Batch.totalProcessed result <= Batch.totalProcessed out.1
    /\ (exists added,
           written out.2 = written st ++ added
           /\ Batch.classifiedCount out.1
              = Batch.classifiedCount result + Z.of_nat (length added)
           /\ Forall (rewritten companyId transactions) added
           /\ Forall (fun saved => saveRow repository saved = Returned ())
                added)
    /\ (exists calls,
           storeCalls (engineState out.2)
           = storeCalls (engineState st) ++ calls
           /\ Forall (fun call => call = CallGetRulesByCompany companyId)
                calls).
Proof.
  induction transactions as [|transaction rest IH]; intros envs result st.
  - cbv zeta. simpl. split; [reflexivity |]. split; [lia |]. split; [lia |].
    split.
    + exists []. rewrite app_nil_r. split; [reflexivity |].
      split; [simpl; lia |]. split; constructor.
    + exists []. rewrite app_nil_r. split; [reflexivity | constructor].
  - cbv zeta. cbn [reclassifyLoop].
    destruct (reclassifyOneTry_spec companyId transaction (envs 0%nat)
                repository (engineState st)) as [[calls1 [Hc1 Hall1]] Hsaved].
    assert (Hweaken : forall l : list Stored.Row,
               Forall (rewritten companyId rest) l ->
               Forall (rewritten companyId (transaction :: rest)) l).
    { intros l Hl. eapply Forall_impl; [exact Hl |].
      intros s [o [id [t [Hin Hrest]]]]. exists o, id, t.
      split; [right; exact Hin | exact Hrest]. }
    destruct (reclassifyOneTry _ companyId transaction (envs 0%nat)
                repository (engineState st)) as [[[saved|]|e] engine1];
      simpl in Hc1, Hsaved;
      match goal with
      | |- context [reclassifyLoop _ _ rest ?e ?r ?r0 ?s] =>
          specialize (IH e r0 s); cbv zeta in IH;
          destruct IH as [Hbal [Hcount [Hmono [[added [Hw [Hcl [Hall Hok]]]]
                                                 [calls2 [Hc2 Hall2]]]]]]
      end; simpl in Hbal, Hcount, Hmono, Hw, Hcl, Hc2.
    + destruct (Hsaved saved eq_refl) as [Hre Hsave].
      split; [rewrite Hbal; unfold balance; simpl; lia |].
      split; [cbn [length]; lia |]. split; [lia |]. split.
      * exists (saved :: added). rewrite Hw, <- app_assoc.
        split; [reflexivity |]. split; [rewrite Hcl; cbn [length]; lia |].
        split; constructor.
        -- destruct Hre as [o [id [t [[<- | []] Hrest]]]].
           exists transaction, id, t.
           split; [left; reflexivity | exact Hrest].
        -- apply Hweaken, Hall.
        -- exact Hsave.
        -- exact Hok.
      * exists (calls1 ++ calls2). rewrite Hc2, Hc1, app_assoc.
        split; [reflexivity |]. apply Forall_app. split; assumption.
    + split; [rewrite Hbal; unfold balance; simpl; lia |].
      split; [cbn [length]; lia |]. split; [lia |]. split.
      * exists added. rewrite Hw. split; [reflexivity |].
        split; [exact Hcl |]. split; [apply Hweaken, Hall | exact Hok].
      * exists (calls1 ++ calls2). rewrite Hc2, Hc1, app_assoc.
        split; [reflexivity |]. apply Forall_app. split; assumption.
    + split; [rewrite Hbal; reflexivity |].
      split; [rewrite length_app in Hcount; cbn [length] in *; lia |].
      split; [lia |]. split.
      * exists added. rewrite Hw. split; [reflexivity |].
        split; [exact Hcl |]. split; [apply Hweaken, Hall | exact Hok].
      * exists (calls1 ++ calls2). rewrite Hc2, Hc1, app_assoc.
        split; [reflexivity |]. apply Forall_app. split; assumption.
Qed.

(** X19.  The accounting of a reclassification.  The run throws exactly
    when [find] throws, with the fixed reclassification message and
    without touching anything; otherwise it returns counters in which
    [classifiedCount + unclassifiedCount = totalProcessed], every row
    found is either processed or reported in [errors], and
    [classifiedCount] is the number of rows written back.  When nothing
    is found the counters are zero and the state is as before. *)
Theorem reclassify_accounting (companyId : jsstring) (limit : Z)
  (envs : nat -> StepEnv) (repository : UnclassifiedRepository)
  (st : ReclassifyState) :
  (forall e,
      findUnclassified repository limit = Thrown e ->
      reclassifyUnclassifiedTransactions encryptionService companyId limit
        envs repository st = (Thrown reclassifyErrorMessage, st))
  /\ (forall found,
         findUnclassified repository limit = Returned found ->
         exists result st' added,
           reclassifyUnclassifiedTransactions encryptionService companyId
             limit envs repository st = (Returned result, st')
           /\ Batch.classifiedCount result + Batch.unclassifiedCount result
              = Batch.totalProcessed result
           /\ 0 <= Batch.totalProcessed result
           /\ (Z.to_nat (Batch.totalProcessed result)
               + length (Batch.errors result) = length found)%nat
           /\ written st' = written st ++ added
           /\ Batch.classifiedCount result = Z.of_nat (length added)
           /\ (found = [] -> result = emptyResult /\ st' = st)).
Proof.
  unfold reclassifyUnclassifiedTransactions. split.
  - intros e ->. reflexivity.
  - intros found ->. destruct found as [|row rows] eqn:Hfound.
    + exists emptyResult, st, []. rewrite app_nil_r.
      repeat split; simpl; lia.
    + rewrite <- Hfound.
      pose proof (reclassifyLoop_spec companyId repository found envs
                    emptyResult st) as Hspec.
      cbv zeta in Hspec.
      destruct (reclassifyLoop _ companyId found envs repository emptyResult
                  st) as [result st'].
      simpl in Hspec.
      destruct Hspec as [Hbal [Hcount [Hmono [[added [Hw [Hcl _]]] _]]]].
      exists result, st', added. split; [reflexivity |].
      unfold balance in Hbal. simpl in Hbal.
      rewrite Z.sub_0_r, Nat.add_0_r in Hcount.
      repeat split; try assumption; try lia.
      * subst found. discriminate.
      * subst found. discriminate.
Qed.

(** X20.  What a reclassification writes and reads.  Every row it writes
    back is a row that was found, given the target tenant (never the
    owning tenant of an all-tenant match), a non-empty category and a
    processing date, its identifier and its other columns unchanged, and
    [save] returned for it; a row that stays unclassified or fails is not
    written.  The rule store is asked for the target tenant's rules
    only. *)
Theorem reclassify_writes_target_tenant (companyId : jsstring) (limit : Z)
  (envs : nat -> StepEnv) (repository : UnclassifiedRepository)
  (st : ReclassifyState) (found : list Stored.Row) :
  findUnclassified repository limit = Returned found ->
  let st' :=
    (reclassifyUnclassifiedTransactions encryptionService companyId limit
       envs repository st).2 in
  exists added calls,
    written st' = written st ++ added
    /\ Forall
         (fun saved =>
            saveRow repository saved = Returned ()
            /\ exists original id,
                In original found
                /\ id <> []
                /\ Stored.transaction_id saved
                   = Stored.transaction_id original
                /\ Entity.company_id (Stored.columns saved)
                   = Value companyId
                /\ Entity.category_id (Stored.columns saved) = Value id
                /\ payloadOfEntity (Stored.columns saved)
                   = payloadOfEntity (Stored.columns original))
         added
    /\ storeCalls (engineState st')
       = storeCalls (engineState st) ++ calls
    /\ Forall (fun call => call = CallGetRulesByCompany companyId) calls.
Proof.
  intros Hfind. cbv zeta.
  unfold reclassifyUnclassifiedTransactions. rewrite Hfind.
  destruct found as [|row rows] eqn:Hfound.
  - exists [], []. rewrite !app_nil_r. repeat split; constructor.
  - rewrite <- Hfound.
    pose proof (reclassifyLoop_spec companyId repository found envs
                  emptyResult st) as Hspec.
    cbv zeta in Hspec.
    destruct (reclassifyLoop _ companyId found envs repository emptyResult st)
      as [result st'].
    simpl in Hspec |- *.
    destruct Hspec as [_ [_ [_ [[added [Hw [_ [Hall Hok]]]]
                                  [calls [Hc Hcalls]]]]]].
    exists added, calls. split; [exact Hw |]. split; [| tauto].
    apply Forall_forall. intros saved Hin.
    rewrite Forall_forall in Hall, Hok.
    split; [exact (Hok saved Hin) |].
    destruct (Hall saved Hin) as [original [id [today [Ho [Hid ->]]]]].
    exists original, id. repeat split; assumption.
Qed.

End ReclassifyFacts.

(** ** Rule ingestion *)

Lemma validateAmountRange_Returned (amountRange : Dto.AmountRangeDto) :
  validateAmountRange amountRange = Returned () <->
  (Dto.min amountRange <> Undefined ->
   Dto.max amountRange <> Undefined ->
   toNumber (Dto.min amountRange) <= toNumber (Dto.max amountRange)).
Proof.
  unfold validateAmountRange.
  destruct (Dto.min amountRange) as [| |lo], (Dto.max amountRange) as [| |hi];
    try (split; [intros _ ? ?; congruence | reflexivity]);
    cbn [toNumber];
    match goal with
    | |- context [?a >? ?b] => destruct (Z.gtb_spec a b)
    end;
    (split;
     [ first [ discriminate | intros _ _ _; lia ]
     | first [ reflexivity
             | intros Hle;
               specialize (Hle ltac:(discriminate) ltac:(discriminate));
               lia ] ]).
Qed.

Lemma validateAmountRange_shape (amountRange : Dto.AmountRangeDto) :
  validateAmountRange amountRange = Returned ()
  \/ validateAmountRange amountRange = Thrown amountRangeMessage.
Proof.
  unfold validateAmountRange.
  destruct (Dto.min amountRange), (Dto.max amountRange);
    try (left; reflexivity); destruct (_ >? _); tauto.
Qed.

Lemma validateCategories_spec (categories : list Dto.CategoryRuleDto) :
  (validateCategories categories = Returned ()
   \/ validateCategories categories = Thrown amountRangeMessage)
  /\ (validateCategories categories = Returned () <->
      forall category amountRange,
        In category categories ->
        Dto.amount_range category = Some amountRange ->
        validateAmountRange amountRange = Returned ()).
Proof.
  induction categories as [|category rest [IHshape IH]].
  - split; [left; reflexivity |]. split; [intros _ ? ? [] | reflexivity].
  - cbn [validateCategories].
    destruct (Dto.amount_range category) as [amountRange|] eqn:Hrange.
    + destruct (validateAmountRange_shape amountRange) as [Hv | Hv];
        rewrite Hv.
      * split; [exact IHshape |]. rewrite IH. split.
        -- intros Hrest c r [<- | Hin] Hr; [congruence | eauto].
        -- intros Hall c r Hin. apply Hall. right. exact Hin.
      * split; [right; reflexivity |].
        split; [discriminate |]. intros Hall.
        specialize (Hall category amountRange (or_introl eq_refl) Hrange).
        congruence.
    + split; [exact IHshape |]. rewrite IH. split.
      * intros Hrest c r [<- | Hin] Hr; [congruence | eauto].
      * intros Hall c r Hin. apply Hall. right. exact Hin.
Qed.

(** X21.  [validateBusinessRules] accepts a rules document exactly when no
    category of any company states an amount range with both bounds whose
    [min] exceeds its [max], a bound that is [null] counting as 0; a range
    that leaves a bound out is accepted, and so is a category without a
    range.  So a range with a positive [min] and a [null] [max] is
    rejected.  When it rejects, it throws the fixed message about the
    range, whichever category comes first. *)
Theorem validateBusinessRules_accepts (rulesData : Dto.RulesFileDto) :
  (validateBusinessRules rulesData = Returned ()
   \/ validateBusinessRules rulesData = Thrown amountRangeMessage)
  /\ (validateBusinessRules rulesData = Returned () <->
      forall company category amountRange,
        In company (Dto.companies rulesData) ->
        In category (Dto.categories company) ->
        Dto.amount_range category = Some amountRange ->
        Dto.min amountRange <> Undefined ->
        Dto.max amountRange <> Undefined ->
        toNumber (Dto.min amountRange) <= toNumber (Dto.max amountRange))
  /\ (forall company category lo,
         In company (Dto.companies rulesData) ->
         In category (Dto.categories company) ->
         Dto.amount_range category
         = Some {| Dto.min := Value lo; Dto.max := Null |} ->
         0 < lo ->
         validateBusinessRules rulesData = Thrown amountRangeMessage).
Proof.
  assert (Hmain :
    (validateBusinessRules rulesData = Returned ()
     \/ validateBusinessRules rulesData = Thrown amountRangeMessage)
    /\ (validateBusinessRules rulesData = Returned () <->
        forall company category amountRange,
          In company (Dto.companies rulesData) ->
          In category (Dto.categories company) ->
          Dto.amount_range category = Some amountRange ->
          Dto.min amountRange <> Undefined ->
          Dto.max amountRange <> Undefined ->
          toNumber (Dto.min amountRange) <= toNumber (Dto.max amountRange))).
  { unfold validateBusinessRules.
    induction (Dto.companies rulesData) as [|company rest [IHshape IH]].
    - split; [left; reflexivity |].
      split; [intros _ ? ? ? [] | reflexivity].
    - cbn [validateCompanies].
      destruct (validateCategories_spec (Dto.categories company))
        as [Hshape Hcats].
      destruct Hshape as [Hv | Hv]; rewrite Hv.
      + split; [exact IHshape |]. rewrite IH. split.
        * intros Hrest c cat r [<- | Hin] Hcat Hr.
          -- apply (proj1 (validateAmountRange_Returned r)
                      (proj1 Hcats Hv cat r Hcat Hr)).
          -- exact (Hrest c cat r Hin Hcat Hr).
        * intros Hall c cat r Hin. apply Hall. right. exact Hin.
      + split; [right; reflexivity |].
        split; [discriminate |]. intros Hall.
        assert (Hok : validateCategories (Dto.categories company)
                      = Returned ()); [| congruence].
        apply (proj2 Hcats).
        intros cat r Hcat Hr. apply validateAmountRange_Returned.
        exact (Hall company cat r (or_introl eq_refl) Hcat Hr). }
  destruct Hmain as [Hshape Hiff].
  split; [exact Hshape |]. split; [exact Hiff |].
  intros company category lo Hcompany Hcategory Hrange Hlo.
  destruct Hshape as [Hok | Hthrown]; [| exact Hthrown].
  exfalso. rewrite Hiff in Hok.
  specialize (Hok company category _ Hcompany Hcategory Hrange
                ltac:(discriminate) ltac:(discriminate)).
  cbn [toNumber Dto.min Dto.max] in Hok. lia.
Qed.

Lemma numberOr_Some (x : nullable Z) (v : Z) :
  numberOr x Some None = Some v <-> x = Value v /\ v <> 0.
Proof.
  unfold numberOr.
  destruct x as [| |w];
    try (split; [discriminate | intros [? _]; discriminate]).
  destruct (Z.eqb_spec w 0); split.
  - discriminate.
  - intros [[= ->] Hne]. congruence.
  - intros [= ->]. split; [reflexivity | assumption].
  - intros [[= ->] _]. reflexivity.
Qed.

(** X22.  A bound of zero is stored as no bound.  For a transaction with
    non-negative amounts, the rule saved for a category passes the amount
    check exactly when the amount is at least the category's [min], if
    one is given, and at most its [max], if one is given and is not zero:
    dropping a minimum of zero changes nothing, but a maximum of zero no
    longer limits the amount.  In particular the range from 0 to 0, which
    the validation accepts, yields a rule that passes every amount. *)
Theorem saved_rule_amount_bounds (companyId : jsstring)
  (categoryData : Dto.CategoryRuleDto) (generatedId : Z)
  (tx : TransactionData) :
  0 <= depositAmount tx -> 0 <= withdrawalAmount tx ->
  let amount := Z.max (depositAmount tx) (withdrawalAmount tx) in
  let rule := savedRule companyId categoryData generatedId in
  (checkAmountRange tx rule = true <->
   (forall amountRange lo,
       Dto.amount_range categoryData = Some amountRange ->
       Dto.min amountRange = Value lo -> lo <= amount)
   /\ (forall amountRange hi,
          Dto.amount_range categoryData = Some amountRange ->
          Dto.max amountRange = Value hi -> hi <> 0 -> amount <= hi))
  /\ (Dto.amount_range categoryData
      = Some {| Dto.min := Value 0; Dto.max := Value 0 |} ->
      validateAmountRange {| Dto.min := Value 0; Dto.max := Value 0 |}
      = Returned ()
      /\ checkAmountRange tx rule = true).
Proof.
  intros Hd Hw amount rule.
  assert (Hiff : checkAmountRange tx rule = true <->
                 (forall amountRange lo,
                     Dto.amount_range categoryData = Some amountRange ->
                     Dto.min amountRange = Value lo -> lo <= amount)
                 /\ (forall amountRange hi,
                        Dto.amount_range categoryData = Some amountRange ->
                        Dto.max amountRange = Value hi -> hi <> 0 ->
                        amount <= hi)).
  { rewrite checkAmountRange_true. fold amount. unfold rule.
    cbn [min_amount max_amount savedRule].
    assert (Hamount : 0 <= amount) by (unfold amount; lia).
    destruct (Dto.amount_range categoryData) as [range|]; cbn [boundOf].
    - split.
      + intros [Hlo Hhi]. split.
        * intros r lo [= <-] Hmin.
          destruct (Z.eq_dec lo 0) as [-> | Hne]; [exact Hamount |].
          apply Hlo. apply numberOr_Some. tauto.
        * intros r hi [= <-] Hmax Hne.
          apply Hhi. apply numberOr_Some. tauto.
      + intros [Hlo Hhi]. split.
        * intros m Hm. apply numberOr_Some in Hm. destruct Hm as [Hm _].
          exact (Hlo range m eq_refl Hm).
        * intros m Hm. apply numberOr_Some in Hm. destruct Hm as [Hm Hne].
          exact (Hhi range m eq_refl Hm Hne).
    - split.
      + intros _. split; intros ? ? ?; discriminate.
      + intros _. split; intros ? ?; discriminate. }
  split; [exact Hiff |].
  intros Hrange. split; [reflexivity |].
  apply Hiff. rewrite Hrange. split.
  - intros r lo [= <-] [= <-]. unfold amount. lia.
  - intros r hi [= <-] [= <-] Hne. congruence.
Qed.

(** * The embedding at work on the sample data *)

(** ** The engine's unit tests, run on the embedding *)

Section UnitTests.
Import Sample.
Existing Instance basicLatin.

(** 'should classify transaction successfully' *)
Example classifies_purchase :
  (classifyTransaction ownContext (envAt 1000 store) newService).1
  = Returned
      {| isClassified := true;
         categoryId := Some (js "cat_1");
         categoryName := Some [49885; 48708]%N;
         ruleId := Some 1;
         matchedKeywords := Some [starbucks];
         reason := Some (js "Successfully classified");
         actualCompanyId := Some com_1 |}.
Proof. vm_compute. reflexivity. Qed.

(** 'should return unclassified when no rules found' *)
Example no_rules :
  (classifyTransaction ownContext (envAt 1000 emptyStore) newService).1
  = Returned (unclassified (js "No active rules found for company")).
Proof. vm_compute. reflexivity. Qed.

(** 'should return unclassified when no matching rules' *)
Example no_matching_rule :
  (classifyTransaction (contextFor elsewhere) (envAt 1000 store)
     newService).1
  = Returned (unclassified (js "No matching rules found")).
Proof. vm_compute. reflexivity. Qed.

(** 'should exclude transaction with exclude keywords' *)
Example excluded_by_keyword :
  (classifyTransaction (contextFor refunded) (envAt 1000 store)
     newService).1
  = Returned (unclassified (js "No matching rules found"))
  /\ checkKeywordMatching refunded starbucksRule = false.
Proof. split; vm_compute; reflexivity. Qed.

(** 'should not match when amount is out of range' and
    'should not match when amount is below minimum' *)
Example out_of_range :
  (classifyTransaction (contextFor (purchaseOf 100000)) (envAt 1000 store)
     newService).1
  = Returned (unclassified (js "No matching rules found"))
  /\ (classifyTransaction (contextFor (purchaseOf 500)) (envAt 1000 store)
        newService).1
     = Returned (unclassified (js "No matching rules found")).
Proof. split; vm_compute; reflexivity. Qed.

(** 'should select rule with highest priority when multiple rules match' *)
Example highest_priority_wins :
  ruleId
    <$> (match (classifyTransaction ownContext
                  (envAt 1000 (storeOf [lowPriorityRule; starbucksRule]))
                  newService).1 with
         | Returned r => Some r
         | Thrown _ => None
         end)
  = Some (Some 1).
Proof. vm_compute. reflexivity. Qed.

(** 'should classify multiple transactions' *)
Example batch_of_two :
  isClassified
    <$> (match (classifyTransactionsBatch com_1 [purchase; elsewhere]
                  (envAt 1000 store) newService).1 with
         | Returned results => results
         | Thrown _ => []
         end)
  = [true; false].
Proof. vm_compute. reflexivity. Qed.

(** 'should generate correct statistics' *)
Example statistics_of_three :
  let stats :=
    generateClassificationStats
      [ successOf purchase starbucksRule;
        successOf purchase starbucksRule;
        unclassified (js "No matching rules found") ] in
  Stats.totalCount stats = 3
  /\ Stats.classifiedCount stats = 2
  /\ Stats.unclassifiedCount stats = 1
  /\ Stats.categoryStats stats !! js "cat_1" = Some (Count 2).
Proof. cbv zeta. repeat split; vm_compute; reflexivity. Qed.

(** 'should cache rules for performance' and
    'should invalidate cache when requested' *)
Example cache_then_invalidate :
  let first := classifyTransaction ownContext (envAt 1000 store) newService in
  let second := classifyTransaction ownContext (envAt 2000 store) first.2 in
  let third :=
    classifyTransaction ownContext (envAt 3000 store)
      (invalidateRulesCache com_1 second.2) in
  length (storeCalls first.2) = 1%nat
  /\ length (storeCalls second.2) = 1%nat
  /\ length (storeCalls third.2) = 2%nat.
Proof. cbv zeta. repeat split; vm_compute; reflexivity. Qed.

(** 'should handle partial keyword matching' *)
Example partial_keyword :
  (classifyTransaction (contextFor cafePayment)
     (envAt 1000 (storeOf [cafeRule])) newService).1
  = Returned (successOf cafePayment cafeRule)
  /\ matchedKeywords (successOf cafePayment cafeRule)
     = Some [[52852; 54168]%N].
Proof. split; vm_compute; reflexivity. Qed.

(** A store that throws: the classification still returns, the batch
    throws. *)
Example store_failure :
  (classifyTransaction ownContext (envAt 1000 brokenStore) newService).1
  = Returned (unclassified (js "Classification error occurred"))
  /\ (classifyTransactionsBatch com_1 [purchase] (envAt 1000 brokenStore)
        newService).1
     = Thrown (js "connection lost").
Proof. split; vm_compute; reflexivity. Qed.

(** 250 transactions are saved in groups of 100, 100 and 50. *)
Example groups_of_250 :
  length <$> slices 250 (replicate 250 parsedPurchase) = [100; 100; 50]%nat.
Proof. vm_compute. reflexivity. Qed.

(** An administrator's run over one purchase: it is counted as classified
    and stored under the tenant that owns the winning rule. *)
Example admin_run :
  let run :=
    processBatch plainText adminRequest [parsedPurchase]
      (fun _ => stepAt 1000 otherStore) repository newPipeline in
  run.1
  = Returned
      {| Batch.totalProcessed := 1;
         Batch.classifiedCount := 1;
         Batch.unclassifiedCount := 0;
         Batch.errors := [] |}
  /\ (fun e => (Entity.company_id e, Entity.category_id e))
       <$> persisted run.2
     = [(Value com_2, Value (js "cat_9"))].
Proof. cbv zeta. split; vm_compute; reflexivity. Qed.

End UnitTests.

(** ** The theorems at concrete inputs *)

Section Witnesses.
Import Sample.

(** C1 as stated fails: the batch has no privileged mode.  With a store in
    which only the second tenant owns a rule, an administrator's single
    classification requested for the first tenant loads the all-tenant
    rule set and classifies the purchase by the second tenant's rule;
    the batch for that tenant and that transaction loads the first
    tenant's (empty) rule set through [getRulesByCompany], never the
    all-tenant one, and leaves the purchase unclassified.  And a batch on
    no transaction loads nothing at all. *)
Lemma batch_ignores_privileged_mode :
  (candidateRules adminContext (envAt 1000 otherStore) newService).1
  = Returned [otherTenantRule]
  /\ storeCalls
       (classifyTransaction (H := basicLatin) adminContext
          (envAt 1000 otherStore) newService).2
     = [CallGetAllActiveRules]
  /\ (classifyTransaction (H := basicLatin) adminContext
        (envAt 1000 otherStore) newService).1
     = Returned (successOf (H := basicLatin) purchase otherTenantRule)
  /\ storeCalls
       (classifyTransactionsBatch (H := basicLatin) (companyId adminContext)
          [transactionData adminContext] (envAt 1000 otherStore)
          newService).2
     = [CallGetRulesByCompany com_1]
  /\ (classifyTransactionsBatch (H := basicLatin) (companyId adminContext)
        [transactionData adminContext] (envAt 1000 otherStore) newService).1
     = Returned [unclassified (js "No active rules found for company")]
  /\ (classifyTransactionsBatch (H := basicLatin) (companyId adminContext)
        [transactionData adminContext] (envAt 1000 otherStore) newService).1
     <> Returned
          [withoutActualCompany
             (successOf (H := basicLatin) purchase otherTenantRule)]
  /\ classifyTransactionsBatch (H := basicLatin) com_1 []
       (envAt 1000 otherStore) newService
     = (Returned [], newService).
Proof.
  repeat split; try (vm_compute; reflexivity).
  vm_compute. discriminate.
Qed.

Lemma batch_loads_tenant_rules_once_witness :
  [purchase; refunded] <> []
  /\ exists st' verdict,
      getCachedRules com_1 (envAt 1000 store) newService
      = (Returned [starbucksRule], st')
      /\ classifyTransactionsBatch (H := basicLatin) com_1
           [purchase; refunded] (envAt 1000 store) newService
         = (Returned (verdict <$> [purchase; refunded]), st')
      /\ verdict = classifyInBatch (H := basicLatin) [starbucksRule].
Proof.
  split; [discriminate |].
  eexists.
  assert (Hload : getCachedRules com_1 (envAt 1000 store) newService
                  = (Returned [starbucksRule],
                     updateCache (cacheKeyOf com_1) [starbucksRule] 1000
                       (recordCall (CallGetRulesByCompany com_1) newService)))
    by reflexivity.
  destruct (proj2 (batch_loads_tenant_rules_once (H := basicLatin) com_1
                     [purchase; refunded] (envAt 1000 store) newService)
              ltac:(discriminate)) as [_ Hloaded].
  destruct (Hloaded _ _ Hload) as [verdict [Hrun [Hverdict _]]].
  exists verdict. split; [exact Hload |]. split; [exact Hrun | exact Hverdict].
Defined.

Lemma exclude_dominance_witness :
  (exists k,
      In k (keywords starbucksRule) /\ keyword_type k = EXCLUDE
      /\ isKeywordMatch (trim (lowerBasicLatin (description refunded)))
           (trim (lowerBasicLatin (keyword k))) = true)
  /\ checkKeywordMatching (H := basicLatin) refunded starbucksRule = false
  /\ evaluateRule (H := basicLatin) refunded starbucksRule = false.
Proof.
  assert (Hfires :
            exists k,
              In k (keywords starbucksRule) /\ keyword_type k = EXCLUDE
              /\ isKeywordMatch
                   (trim (lowerBasicLatin (description refunded)))
                   (trim (lowerBasicLatin (keyword k))) = true).
  { exists {| keyword_id := 2; keyword := refund; keyword_type := EXCLUDE |}.
    split; [right; left; reflexivity |]. split; reflexivity. }
  split; [exact Hfires |].
  exact (proj1 (exclude_dominance (H := basicLatin) refunded starbucksRule)
           Hfires).
Defined.

Lemma amount_range_inclusive_witness :
  min_amount starbucksRule = Some 1000
  /\ max_amount starbucksRule = Some 50000
  /\ checkAmountRange (purchaseOf 1000) starbucksRule = true
  /\ checkAmountRange (purchaseOf 50000) starbucksRule = true
  /\ checkAmountRange (purchaseOf 999) starbucksRule = false
  /\ checkAmountRange (purchaseOf 50001) starbucksRule = false.
Proof.
  split; [reflexivity |]. split; [reflexivity |].
  pose (bounds := fun amount =>
          proj2 (amount_range_inclusive (purchaseOf amount) starbucksRule)
            eq_refl eq_refl).
  split; [exact (proj1 (bounds 1000) eq_refl) |].
  split; [exact (proj1 (proj2 (bounds 50000)) eq_refl) |].
  split; [exact (proj1 (proj2 (proj2 (bounds 999))) eq_refl) |].
  exact (proj2 (proj2 (proj2 (bounds 50001))) eq_refl).
Defined.

Lemma transaction_type_filter_witness :
  0 <= depositAmount purchase
  /\ 0 <= withdrawalAmount purchase
  /\ (checkTransactionType purchase WITHDRAWAL = true <->
      withdrawalAmount purchase > 0 /\ depositAmount purchase = 0)
  /\ checkTransactionType purchase DEPOSIT = false.
Proof.
  assert (Hd : 0 <= depositAmount purchase) by (simpl; lia).
  assert (Hw : 0 <= withdrawalAmount purchase) by (simpl; lia).
  split; [exact Hd |]. split; [exact Hw |].
  destruct (transaction_type_filter (H := basicLatin) purchase)
    as [_ [Hexact Hdeposit]].
  split; [exact (proj1 (proj2 (Hexact Hd Hw))) |].
  refine (proj1 (Hdeposit
                   {| rule_id := 0; company_id := com_1; category_id := [];
                      min_amount := None; max_amount := None;
                      transaction_type := DEPOSIT; priority := 1;
                      is_active := true; category := None; keywords := [] |}
                   eq_refl _ eq_refl)).
  simpl. lia.
Defined.

Lemma selectBestRule_least_priority_first_witness :
  [lowPriorityRule; starbucksRule] <> []
  /\ exists selected before after,
      selectBestRule [lowPriorityRule; starbucksRule] = Some selected
      /\ [lowPriorityRule; starbucksRule] = before ++ selected :: after
      /\ (forall r, In r [lowPriorityRule; starbucksRule] ->
                    priority selected <= priority r)
      /\ (forall r, In r before -> priority selected < priority r)
      /\ (forall r, In r after -> priority selected <= priority r).
Proof.
  split; [discriminate |].
  apply (proj1 selectBestRule_least_priority_first). discriminate.
Defined.

Lemma classifyTransaction_never_throws_witness :
  exists st',
    candidateRules ownContext (envAt 1000 emptyStore) newService
    = (Returned [], st')
    /\ exists why,
        classifyTransaction (H := basicLatin) ownContext
          (envAt 1000 emptyStore) newService
        = (Returned (unclassified why), st')
        /\ isClassified (unclassified why) = false
        /\ why = js "No active rules found for company".
Proof.
  eexists. split; [reflexivity |].
  apply (proj1 (proj2 (classifyTransaction_never_throws (H := basicLatin)
                         ownContext (envAt 1000 emptyStore) newService))).
  reflexivity.
Defined.

Lemma rule_cache_freshness_witness :
  0 <= now (envAt 1000 store)
  /\ storeCalls
       (getCachedRules com_1 (envAt 2000 store)
          (invalidateRulesCache com_1
             (getCachedRules com_1 (envAt 1000 store) newService).2)).2
     = storeCalls (getCachedRules com_1 (envAt 1000 store) newService).2
       ++ [CallGetRulesByCompany com_1].
Proof.
  assert (Hclock : 0 <= now (envAt 1000 store)) by (simpl; lia).
  split; [exact Hclock |].
  apply (rule_cache_freshness com_1 (envAt 1000 store)
           (getCachedRules com_1 (envAt 1000 store) newService).2 Hclock).
Defined.

Lemma batch_statistics_consistent_witness :
  exists results st',
    classifyTransactionsBatch (H := basicLatin) com_1 [purchase; refunded]
      (envAt 1000 store) newService = (Returned results, st')
    /\ (forall rules st1,
           getCachedRules com_1 (envAt 1000 store) newService
           = (Returned rules, st1) ->
           forall r, In r rules ->
                     category_id r <> [] /\ category_id r ∉ inheritedNames)
    /\ Stats.totalCount (generateClassificationStats results) = 2
    /\ exists counts,
        Stats.categoryStats (generateClassificationStats results)
        = Count <$> counts
        /\ sumCounts counts
           = Stats.classifiedCount (generateClassificationStats results).
Proof.
  eexists. eexists. split; [reflexivity |].
  assert (Hids : forall rules st1,
             getCachedRules com_1 (envAt 1000 store) newService
             = (Returned rules, st1) ->
             forall r, In r rules ->
                       category_id r <> []
                       /\ category_id r ∉ inheritedNames).
  { intros rules st1 Hload r Hr.
    assert (Hrules : [starbucksRule] = rules)
      by exact (f_equal (fun o => match o.1 with
                                  | Returned l => l
                                  | Thrown _ => []
                                  end) Hload).
    subst rules. destruct Hr as [<- | []].
    split; [discriminate |].
    apply (bool_decide_unpack _). vm_compute. exact I. }
  split; [exact Hids |].
  exact (proj1 (proj2 (batch_statistics_consistent (H := basicLatin)
                         plainText))
           com_1 [purchase; refunded] (envAt 1000 store) newService _ _
           eq_refl Hids).
Defined.


Lemma isKeywordMatch_is_includes_witness :
  In (js "gangnam") (splitWhitespace (js "starbucks gangnam 2"))
  /\ isKeywordMatch (js "starbucks gangnam 2") (js "gangnam")
     = includes (js "starbucks gangnam 2") (js "gangnam")
  /\ exists before after,
      js "starbucks gangnam 2" = before ++ js "gangnam" ++ after.
Proof.
  assert (Hword : In (js "gangnam")
                    (splitWhitespace (js "starbucks gangnam 2")))
    by (right; left; reflexivity).
  split; [exact Hword |].
  split; [apply (proj1 isKeywordMatch_is_includes) |].
  exact (proj2 isKeywordMatch_is_includes _ _ Hword).
Defined.

End Witnesses.

(** ** The further properties at concrete inputs *)

Section FurtherWitnesses.
Import Sample Fixture.

Lemma blank_keyword_witness :
  In blankKeyword (keywords mutedRule)
  /\ trim (lowerBasicLatin (keyword blankKeyword)) = []
  /\ checkKeywordMatching (H := basicLatin) purchase mutedRule = false
  /\ evaluateRule (H := basicLatin) purchase mutedRule = false.
Proof.
  assert (Hin : In blankKeyword (keywords mutedRule))
    by (right; left; reflexivity).
  assert (Hblank : trim (lowerBasicLatin (keyword blankKeyword)) = [])
    by reflexivity.
  split; [exact Hin |]. split; [exact Hblank |].
  exact (proj1 (blank_keyword (H := basicLatin) purchase mutedRule
                  blankKeyword Hin Hblank) eq_refl).
Defined.

Lemma matched_keywords_fire_witness :
  In starbucks (getMatchedKeywords (H := basicLatin) purchase starbucksRule)
  /\ exists k,
      In k (keywords starbucksRule)
      /\ keyword_type k = INCLUDE
      /\ keyword k = starbucks
      /\ includes (lowerBasicLatin (description purchase))
           (lowerBasicLatin starbucks) = true
      /\ isKeywordMatch (trim (lowerBasicLatin (description purchase)))
           (trim (lowerBasicLatin starbucks)) = true.
Proof.
  assert (Hin : In starbucks
                  (getMatchedKeywords (H := basicLatin) purchase
                     starbucksRule))
    by (left; reflexivity).
  split; [exact Hin |].
  exact (matched_keywords_fire (H := basicLatin) purchase starbucksRule
           starbucks Hin).
Defined.

Lemma classified_iff_some_rule_matches_witness :
  exists st' verdict,
    candidateRules ownContext (envAt 1000 store) newService
    = (Returned [starbucksRule], st')
    /\ classifyTransaction (H := basicLatin) ownContext (envAt 1000 store)
         newService = (Returned verdict, st')
    /\ (isClassified verdict = true <->
        exists r,
          In r [starbucksRule]
          /\ evaluateRule (H := basicLatin) purchase r = true).
Proof.
  eexists.
  assert (Hload : candidateRules ownContext (envAt 1000 store) newService
                  = (Returned [starbucksRule],
                     updateCache (cacheKeyOf com_1) [starbucksRule] 1000
                       (recordCall (CallGetRulesByCompany com_1) newService)))
    by reflexivity.
  destruct (classified_iff_some_rule_matches (H := basicLatin) ownContext
              (envAt 1000 store) newService _ _ Hload)
    as [verdict [Hrun [Hiff _]]].
  exists verdict. split; [exact Hload |]. split; [exact Hrun | exact Hiff].
Defined.

Lemma all_tenant_cache_freshness_witness :
  0 <= now (envAt 1000 store)
  /\ cachedRules allCompaniesKey (now (envAt 1000 store)) newService = None
  /\ storeCalls (getAllCompanyRules (envAt 1000 store) newService).2
     = storeCalls newService ++ [CallGetAllActiveRules].
Proof.
  assert (Hclock : 0 <= now (envAt 1000 store)) by (simpl; lia).
  split; [exact Hclock |]. split; [reflexivity |].
  exact (proj1 (proj1 (proj2 (proj2 (all_tenant_cache_freshness
                                       (envAt 1000 store) newService
                                       Hclock)))
                  eq_refl)).
Defined.

Lemma all_companies_key_collision_witness :
  0 <= now (envAt 1000 store)
  /\ exists st1,
      getAllCompanyRules (envAt 1000 store) newService
      = (Returned [starbucksRule; otherTenantRule], st1)
      /\ getCachedRules (js "all_companies") (envAt 1000 store) st1
         = (Returned [starbucksRule; otherTenantRule], st1).
Proof.
  assert (Hclock : 0 <= now (envAt 1000 store)) by (simpl; lia).
  split; [exact Hclock |]. eexists.
  assert (Hload : getAllCompanyRules (envAt 1000 store) newService
                  = (Returned [starbucksRule; otherTenantRule],
                     updateCache allCompaniesKey
                       [starbucksRule; otherTenantRule] 1000
                       (recordCall CallGetAllActiveRules newService)))
    by reflexivity.
  split; [exact Hload |].
  exact (proj1 (all_companies_key_collision (envAt 1000 store) newService
                  Hclock)
           _ _ (envAt 1000 store) Hload eq_refl).
Defined.

Lemma failed_fetch_is_not_cached_witness :
  isAdmin (userType ownContext) = false
  /\ getRulesByCompany brokenStore (companyId ownContext)
     = Thrown (js "connection lost")
  /\ exists st',
      classifyTransaction (H := basicLatin) ownContext
        (envAt 1000 brokenStore) newService
      = (Returned (unclassified (js "Classification error occurred")), st')
      /\ rulesCache st' = rulesCache newService
      /\ cacheExpiry st' = cacheExpiry newService
      /\ storeCalls
           (classifyTransaction (H := basicLatin) ownContext
              (envAt 500000 store) st').2
         = [CallGetRulesByCompany com_1; CallGetRulesByCompany com_1].
Proof.
  split; [reflexivity |]. split; [reflexivity |].
  destruct (failed_fetch_is_not_cached (H := basicLatin) ownContext
              (envAt 1000 brokenStore) newService (js "connection lost")
              eq_refl eq_refl eq_refl)
    as [st' [Hrun [Hcache [Hexpiry Hnext]]]].
  exists st'. split; [exact Hrun |]. split; [exact Hcache |].
  split; [exact Hexpiry |].
  apply (Hnext ownContext (envAt 500000 store) eq_refl eq_refl).
  simpl. lia.
Defined.

Lemma batch_agrees_with_single_calls_witness :
  0 <= now (envAt 1000 store)
  /\ isAdmin None = false
  /\ [purchase; refunded] <> []
  /\ exists st' singles,
      getCachedRules com_1 (envAt 1000 store) newService
      = (Returned [starbucksRule], st')
      /\ classifyOneByOne (H := basicLatin) com_1 None [purchase; refunded]
           (envAt 1000 store) newService
         = (Returned <$> singles, st')
      /\ classifyTransactionsBatch (H := basicLatin) com_1
           [purchase; refunded] (envAt 1000 store) newService
         = (Returned (withoutActualCompany <$> singles), st').
Proof.
  assert (Hclock : 0 <= now (envAt 1000 store)) by (simpl; lia).
  assert (Hsome : [purchase; refunded] <> []) by discriminate.
  split; [exact Hclock |]. split; [reflexivity |]. split; [exact Hsome |].
  eexists.
  assert (Hload : getCachedRules com_1 (envAt 1000 store) newService
                  = (Returned [starbucksRule],
                     updateCache (cacheKeyOf com_1) [starbucksRule] 1000
                       (recordCall (CallGetRulesByCompany com_1) newService)))
    by reflexivity.
  destruct (batch_agrees_with_single_calls (H := basicLatin) com_1 None
              [purchase; refunded] (envAt 1000 store) newService _ _
              Hclock eq_refl Hsome Hload)
    as [singles [Hone Hbatch]].
  exists singles. split; [exact Hload |]. split; [exact Hone | exact Hbatch].
Defined.

Lemma persisted_entities_keep_parsed_fields_witness :
  exists result st' saved,
    processBatch (H := basicLatin) plainText ownRequest [parsedPurchase]
      (fun _ => stepAt 1000 store) repository newPipeline
    = (Returned result, st')
    /\ persisted st' = persisted newPipeline ++ saved
    /\ (payloadOfEntity <$> saved)
         `sublist_of` (payloadOfParsed <$> [parsedPurchase]).
Proof.
  destruct (processBatch (H := basicLatin) plainText ownRequest
              [parsedPurchase] (fun _ => stepAt 1000 store) repository
              newPipeline) as [[result | e] st'] eqn:Hrun;
    [| exfalso; vm_compute in Hrun; discriminate].
  destruct (persisted_entities_keep_parsed_fields (H := basicLatin)
              plainText ownRequest [parsedPurchase]
              (fun _ => stepAt 1000 store) repository newPipeline st' result
              Hrun)
    as [saved [Hsaved [Hsub _]]].
  exists result, st', saved.
  split; [reflexivity |]. split; [exact Hsaved | exact Hsub].
Defined.

Lemma reclassify_writes_target_tenant_witness :
  findUnclassified orphanRepository 100 = Returned [orphanRow]
  /\ exists added,
      written
        (reclassifyUnclassifiedTransactions (H := basicLatin) plainText
           com_1 100 (fun _ => stepAt 1000 store) orphanRepository
           newReclassification).2
      = written newReclassification ++ added
      /\ Forall
           (fun saved =>
              Entity.company_id (Stored.columns saved) = Value com_1)
           added.
Proof.
  split; [reflexivity |].
  destruct (reclassify_writes_target_tenant (H := basicLatin) plainText
              com_1 100 (fun _ => stepAt 1000 store) orphanRepository
              newReclassification [orphanRow] eq_refl)
    as [added [calls [Hadded [Hrows _]]]].
  exists added. split; [exact Hadded |].
  eapply Forall_impl; [exact Hrows |].
  intros saved [_ [original [id [_ [_ [_ [Htenant _]]]]]]]. exact Htenant.
Defined.

Lemma saved_rule_amount_bounds_witness :
  0 <= depositAmount purchase
  /\ 0 <= withdrawalAmount purchase
  /\ validateAmountRange {| Dto.min := Value 0; Dto.max := Value 0 |}
     = Returned ()
  /\ checkAmountRange purchase (savedRule com_1 zeroRangeCategory 1) = true.
Proof.
  assert (Hd : 0 <= depositAmount purchase) by (simpl; lia).
  assert (Hw : 0 <= withdrawalAmount purchase) by (simpl; lia).
  split; [exact Hd |]. split; [exact Hw |].
  exact (proj2 (saved_rule_amount_bounds com_1 zeroRangeCategory 1 purchase
                  Hd Hw) eq_refl).
Defined.

End FurtherWitnesses.
